(** * Marine Guard: the ML analysis module and the pollution detector

    A shallow embedding of the rule-based post-processing of the dashboard:
    - [analyzeImage] and [analyzeText] of the ML analysis module
      ([@/utils/mlAnalysis]), which the sources hold in two revisions:
      the zero-shot revision (src/unnamed/part_001) and the keyword revision
      (the third document of src/src/hooks/usePollutionData.tsx);
    - [simulateAnalysis] of the [PollutionDetector] component
      (the second document of src/src/pages/Index.tsx).

    JavaScript numbers are IEEE 754 binary64 values and are modelled by the
    primitive binary64 floats; strings are sequences of UTF-16 code units;
    the pretrained models, [Math.random] and [String.prototype.toLowerCase]
    are inputs of the model. *)

From Stdlib Require Import List String Ascii NArith ZArith Bool Uint63 Floats.
From Stdlib Require Import DecimalString Lia Permutation Sorted.
Import ListNotations.
Set Warnings "-inexact-float,-register-all".

(* ================================================================= *)
(** ** The JavaScript built-ins the module uses *)

Module JS.

(** [number]: an IEEE 754 binary64 value. *)
Definition number : Set := float.

(** [x > y] on numbers; false as soon as one side is NaN. *)
Definition gt (x y : number) : bool := (y <? x)%float.

(** [Math.max(x, y)]: NaN if an argument is NaN, and [+0] is larger
    than [-0]. *)
Definition Math_max (x y : number) : number :=
  if is_nan x || is_nan y then nan
  else if (x <? y)%float then y
  else if (y <? x)%float then x
  else if get_sign x then y else x.

(** [Math.min(x, y)]: NaN if an argument is NaN, and [-0] is smaller
    than [+0]. *)
Definition Math_min (x y : number) : number :=
  if is_nan x || is_nan y then nan
  else if (x <? y)%float then x
  else if (y <? x)%float then y
  else if get_sign x then x else y.

(** The number that an array length (a small non-negative integer) is. *)
Definition of_length (n : nat) : number :=
  PrimFloat.of_uint63 (Uint63.of_Z (Z.of_nat n)).

(** A string is its sequence of UTF-16 code units. *)
Definition JSString : Set := list N.

(** A string literal of the source (all of them are ASCII). *)
Definition lit (s : string) : JSString :=
  map N_of_ascii (list_ascii_of_string s).

Fixpoint startsWith (s search : JSString) : bool :=
  match search, s with
  | [], _ => true
  | _ :: _, [] => false
  | c :: search', d :: s' => N.eqb c d && startsWith s' search'
  end.

(** [s.includes(search)]: [search] occurs in [s] as a substring. *)
Fixpoint includes (s search : JSString) : bool :=
  startsWith s search ||
  match s with
  | [] => false
  | _ :: s' => includes s' search
  end.

(** A lower-casing that only maps the letters A-Z, used to run the model
    on ASCII inputs; the model itself is parametric in
    [String.prototype.toLowerCase]. *)
Definition asciiLower (s : JSString) : JSString :=
  map (fun c => if (N.leb 65 c && N.leb c 90)%bool then (c + 32)%N else c) s.

(** [array.map((x, index) => f(x, index))]. *)
Fixpoint mapi_from {A B : Type} (f : A -> nat -> B) (index : nat) (l : list A)
  : list B :=
  match l with
  | [] => []
  | x :: l' => f x index :: mapi_from f (S index) l'
  end.

Definition mapi {A B : Type} (f : A -> nat -> B) (l : list A) : list B :=
  mapi_from f 0 l.

(** [array.sort(compare)].  ECMAScript requires the sort to be stable and,
    for a consistent comparison function, fixes its result: the elements in
    the order of [compare], ties in their original order.  The model is the
    stable insertion sort; [compare(a, b) > 0] puts [a] after [b], and a
    NaN result counts as [+0]. *)
Section Sort.
Context {A : Type} (compare : A -> A -> number).

Fixpoint insert (a : A) (sorted : list A) : list A :=
  match sorted with
  | [] => [a]
  | b :: sorted' =>
      if gt (compare a b) 0%float then b :: insert a sorted'
      else a :: b :: sorted'
  end.

Fixpoint sort (l : list A) : list A :=
  match l with
  | [] => []
  | a :: l' => insert a (sort l')
  end.
End Sort.

(** [array.slice(0, n)]. *)
Definition slice0 {A : Type} (n : nat) (l : list A) : list A := firstn n l.

(** [Math.random()]: the numbers the generator hands out, and how many
    of them have been drawn. *)
Record Random : Set := { draws : nat -> number; drawn : nat }.

Definition Math_random (r : Random) : number * Random :=
  (draws r (drawn r), {| draws := draws r; drawn := S (drawn r) |}).

(** How an awaited call settles: with a value, or with an exception. *)
Inductive outcome (A : Type) : Type :=
| Returned (a : A)
| Threw (e : JSString).
Arguments Returned {A} a.
Arguments Threw {A} e.

(** An asynchronous run that reports progress: the values passed to
    [onProgress] so far, in order, and how the run settled.  ([onProgress]
    is an optional argument of the source; the values are those that a
    caller who passes it receives.) *)
Definition Async (A : Type) : Type := (list number * outcome A)%type.

Definition ret {A : Type} (a : A) : Async A := ([], Returned a).

Definition bind {A B : Type} (m : Async A) (k : A -> Async B) : Async B :=
  match m with
  | (reported, Returned a) =>
      let '(reported', o) := k a in ((reported ++ reported')%list, o)
  | (reported, Threw e) => (reported, Threw e)
  end.

Definition await {A : Type} (o : outcome A) : Async A := ([], o).

Definition onProgress (progress : number) : Async unit :=
  ([progress], Returned tt).

(** [try { body } catch (error) { console.error(...); throw new
    Error(message) }]: what was reported stays reported. *)
Definition try_rethrow {A : Type} (body : Async A) (message : JSString)
  : Async A :=
  match body with
  | (reported, Threw _) => (reported, Threw message)
  | settled => settled
  end.

Definition progress {A : Type} (m : Async A) : list number := fst m.
Definition settled {A : Type} (m : Async A) : outcome A := snd m.

End JS.

Import JS.

Declare Scope async_scope.
Delimit Scope async_scope with async.
Notation "x <- m ;; k" := (bind m (fun x => k))
  (at level 61, m at next level, right associativity) : async_scope.
Notation "m ;; k" := (bind m (fun _ => k))
  (at level 61, right associativity) : async_scope.
Infix ">?" := gt (at level 70, no associativity) : float_scope.

(* ================================================================= *)
(** ** The ML analysis module: what both revisions share *)

Module MlAnalysis.

Inductive Severity : Set := low | medium | high | critical.

Record Location : Set :=
  { x : number; y : number; width : number; height : number }.

Module ImageAnalysisResult.
Record t : Set :=
  { type : JSString;
    confidence : number;
    location : Location;
    severity : Severity }.
End ImageAnalysisResult.
Abbreviation ImageAnalysisResult := ImageAnalysisResult.t.

Inductive PolicyType : Set := regulation | framework | agreement | law.
Inductive PolicyStatus : Set := active | draft | archived.

Module PolicyDocument.
Record t : Set :=
  { id : JSString;
    title : JSString;
    type : PolicyType;
    jurisdiction : JSString;
    summary : JSString;
    keyEntities : list JSString;
    relevanceScore : number;
    lastUpdated : JSString;
    status : PolicyStatus }.
End PolicyDocument.
Abbreviation PolicyDocument := PolicyDocument.t.

Inductive ComplianceStatus : Set := compliant | violation | unclear.

Module PolicyMatch.
Record t : Set :=
  { document : PolicyDocument;
    matchedSections : list JSString;
    complianceStatus : ComplianceStatus;
    recommendations : list JSString }.
End PolicyMatch.
Abbreviation PolicyMatch := PolicyMatch.t.

(** One entry of what the image-classification pipeline returns. *)
Record Prediction : Set := { label : JSString; score : number }.

(** The image classifier: loading it may throw, and so may running it. *)
Definition ImageClassifier : Type := JSString -> outcome (list Prediction).

(* --------------------------------------------------------------- *)
(** *** analyzeImage (the same text in both revisions) *)

Section AnalyzeImage.
Variable toLowerCase : JSString -> JSString.

Definition pollutionKeywords : list JSString :=
  map lit ["plastic"; "waste"; "trash"; "debris"; "oil"; "spill";
           "contamination"; "pollution"; "garbage"; "litter"]%string.

(** [pollutionKeywords.some(keyword =>
      label.includes(keyword) || keyword.includes(label))]. *)
Definition isPollutionRelated (label : JSString) : bool :=
  existsb (fun keyword => includes label keyword || includes keyword label)
          pollutionKeywords.

(** The test that guards the body of the [forEach] callback. *)
Definition included (prediction : Prediction) : bool :=
  isPollutionRelated (toLowerCase (label prediction))
  || (score prediction >? 0.3)%float.

(** The if / else-if chain of the callback: the pollution type and the
    severity of a prediction. *)
Definition categorize (prediction : Prediction) : JSString * Severity :=
  let label := toLowerCase (label prediction) in
  let score := score prediction in
  if includes label (lit "plastic") || includes label (lit "trash")
     || includes label (lit "garbage")
  then (lit "Plastic Debris",
        if (score >? 0.7)%float then high
        else if (score >? 0.5)%float then medium else low)
  else if includes label (lit "oil") || includes label (lit "spill")
  then (lit "Oil Contamination",
        if (score >? 0.6)%float then critical
        else if (score >? 0.4)%float then high else medium)
  else if includes label (lit "chemical")
          || includes label (lit "contamination")
  then (lit "Chemical Waste",
        if (score >? 0.6)%float then critical
        else if (score >? 0.4)%float then high else medium)
  else (MlAnalysis.label prediction,
        if (score >? 0.8)%float then high
        else if (score >? 0.6)%float then medium else low).

(** The object literal of [location]: four draws of [Math.random], in
    the order of the properties. *)
Definition randomLocation (rng : Random) : Location * Random :=
  let '(r1, rng) := Math_random rng in
  let '(r2, rng) := Math_random rng in
  let '(r3, rng) := Math_random rng in
  let '(r4, rng) := Math_random rng in
  ({| x := r1 * 300 + 50; y := r2 * 200 + 50;
      width := r3 * 150 + 100; height := r4 * 100 + 80 |}%float, rng).

(** The callback of [predictions.forEach], on the array [results] and
    the random generator. *)
Definition visit (acc : list ImageAnalysisResult * Random)
           (prediction : Prediction) : list ImageAnalysisResult * Random :=
  let '(results, rng) := acc in
  if included prediction then
    let '(pollutionType, severity) := categorize prediction in
    let '(location, rng) := randomLocation rng in
    (results ++ [ {| ImageAnalysisResult.type := pollutionType;
                     ImageAnalysisResult.confidence := score prediction;
                     ImageAnalysisResult.location := location;
                     ImageAnalysisResult.severity := severity |} ], rng)
  else (results, rng).

Definition forEach (predictions : list Prediction) (rng : Random)
  : list ImageAnalysisResult * Random :=
  fold_left visit predictions ([], rng).

(** [if (results.length === 0 && predictions.length > 0)]: the generic
    result built from the first prediction. *)
Definition fallback (predictions : list Prediction)
           (acc : list ImageAnalysisResult * Random)
  : list ImageAnalysisResult :=
  let '(results, rng) := acc in
  match results, predictions with
  | [], topPrediction :: _ =>
      let '(location, _) := randomLocation rng in
      results ++
      [ {| ImageAnalysisResult.type :=
             lit "Potential " ++ label topPrediction;
           ImageAnalysisResult.confidence := score topPrediction;
           ImageAnalysisResult.location := location;
           ImageAnalysisResult.severity :=
             if (score topPrediction >? 0.7)%float then medium else low |} ]
  | _, _ => results
  end.

(** What [analyzeImage] returns once the classifier has answered:
    [results.slice(0, 5)] after the fallback. *)
Definition imageResults (predictions : list Prediction) (rng : Random)
  : list ImageAnalysisResult :=
  slice0 5 (fallback predictions (forEach predictions rng)).

(** [analyzeImage(imageUrl, onProgress)]; [getImageClassifier] is how the
    cached loading of the model settles in this run. *)
Definition analyzeImage (getImageClassifier : outcome ImageClassifier)
           (rng : Random) (imageUrl : JSString)
  : Async (list ImageAnalysisResult) :=
  try_rethrow
    (onProgress 20%float ;;
     classifier <- await getImageClassifier ;;
     onProgress 40%float ;;
     predictions <- await (classifier imageUrl) ;;
     onProgress 70%float ;;
     let acc := forEach predictions rng in
     onProgress 100%float ;;
     ret (slice0 5 (fallback predictions acc)))%async
    (lit "Failed to analyze image. Please try again.").

End AnalyzeImage.

(* --------------------------------------------------------------- *)
(** *** The policy table and the matches built from it (the same text in
        both revisions of analyzeText, up to the name of the confidence) *)

(** [policyDatabase], the "mock policy database". *)
Definition policyDatabase : list PolicyDocument :=
  [ {| PolicyDocument.id := lit "1";
       PolicyDocument.title := lit "MARPOL Convention - Annex V (Garbage)";
       PolicyDocument.type := agreement;
       PolicyDocument.jurisdiction := lit "International (IMO)";
       PolicyDocument.summary :=
         lit "Prohibits discharge of garbage from ships, including plastics and other harmful substances";
       PolicyDocument.keyEntities :=
         map lit ["plastic waste"; "ship discharge"; "special areas";
                  "penalties"]%string;
       PolicyDocument.relevanceScore := 0.95;
       PolicyDocument.lastUpdated := lit "2023-12-01";
       PolicyDocument.status := active |};
    {| PolicyDocument.id := lit "2";
       PolicyDocument.title := lit "EU Marine Strategy Framework Directive";
       PolicyDocument.type := framework;
       PolicyDocument.jurisdiction := lit "European Union";
       PolicyDocument.summary :=
         lit "Establishes framework for marine environmental protection with specific targets for marine litter";
       PolicyDocument.keyEntities :=
         map lit ["marine litter"; "good environmental status";
                  "member states"; "monitoring"]%string;
       PolicyDocument.relevanceScore := 0.88;
       PolicyDocument.lastUpdated := lit "2023-11-15";
       PolicyDocument.status := active |};
    {| PolicyDocument.id := lit "3";
       PolicyDocument.title := lit "Clean Water Act - Marine Protection";
       PolicyDocument.type := law;
       PolicyDocument.jurisdiction := lit "United States";
       PolicyDocument.summary :=
         lit "Federal law governing water pollution, including marine environments and coastal zones";
       PolicyDocument.keyEntities :=
         map lit ["water pollution"; "discharge permits"; "coastal zones";
                  "enforcement"]%string;
       PolicyDocument.relevanceScore := 0.82;
       PolicyDocument.lastUpdated := lit "2023-10-20";
       PolicyDocument.status := active |} ]%float.

(** [{ ...policy, relevanceScore }]. *)
Definition withRelevanceScore (policy : PolicyDocument)
           (relevanceScore : number) : PolicyDocument :=
  {| PolicyDocument.id := PolicyDocument.id policy;
     PolicyDocument.title := PolicyDocument.title policy;
     PolicyDocument.type := PolicyDocument.type policy;
     PolicyDocument.jurisdiction := PolicyDocument.jurisdiction policy;
     PolicyDocument.summary := PolicyDocument.summary policy;
     PolicyDocument.keyEntities := PolicyDocument.keyEntities policy;
     PolicyDocument.relevanceScore := relevanceScore;
     PolicyDocument.lastUpdated := PolicyDocument.lastUpdated policy;
     PolicyDocument.status := PolicyDocument.status policy |}.

(** The callback of [policyDatabase.map((policy, index) => ...)]. *)
Definition matchPolicy (topPollutionType : JSString) (confidence : number)
           (policy : PolicyDocument) (index : nat) : PolicyMatch :=
  let relevanceScore :=
    Math_max 0.6%float
             (confidence * PolicyDocument.relevanceScore policy)%float in
  let complianceStatus :=
    if (confidence >? 0.8)%float then
      if Nat.eqb index 0 then violation
      else if Nat.eqb index 1 then unclear else compliant
    else unclear in
  {| PolicyMatch.document := withRelevanceScore policy relevanceScore;
     PolicyMatch.matchedSections :=
       [ lit "Section related to " ++ topPollutionType;
         lit "Compliance requirements for " ++ topPollutionType ];
     PolicyMatch.complianceStatus := complianceStatus;
     PolicyMatch.recommendations :=
       [ lit "Address " ++ topPollutionType ++ lit " according to "
           ++ PolicyDocument.title policy;
         lit "Implement immediate mitigation measures";
         lit "Report to relevant authorities as required" ] |}.

(** The comparison function of the final [matches.sort]. *)
Definition byRelevance (a b : PolicyMatch) : number :=
  (PolicyDocument.relevanceScore (PolicyMatch.document b)
   - PolicyDocument.relevanceScore (PolicyMatch.document a))%float.

(** [policyDatabase.map(...)], then [matches.sort(...)]: what analyzeText
    returns for a pollution type and a confidence. *)
Definition policyMatches (topPollutionType : JSString) (confidence : number)
  : list PolicyMatch :=
  let matches := mapi (matchPolicy topPollutionType confidence) policyDatabase in
  sort byRelevance matches.

End MlAnalysis.

(* ================================================================= *)
(** ** analyzeText, zero-shot revision (src/unnamed/part_001) *)

Module ZeroShot.
Import MlAnalysis.

(** What the zero-shot classification pipeline returns. *)
Record Classification : Set :=
  { sequence : JSString; labels : list JSString; scores : list number }.

Definition TextClassifier : Type :=
  JSString -> list JSString -> outcome Classification.
Definition SentimentAnalyzer : Type := JSString -> outcome (list Prediction).

Definition pollutionLabels : list JSString :=
  map lit ["plastic pollution"; "oil spill"; "chemical contamination";
           "marine debris"; "industrial waste"; "sewage discharge"]%string.

(** [pollutionClassification.labels[0]] as the template literals print it:
    a missing element is [undefined]. *)
Definition topPollutionType (pollutionClassification : Classification)
  : JSString :=
  match labels pollutionClassification with
  | topLabel :: _ => topLabel
  | [] => lit "undefined"
  end.

(** [pollutionClassification.scores[0]] as the product and the comparison
    read it: a missing element is [undefined], which they convert to NaN. *)
Definition confidence (pollutionClassification : Classification) : number :=
  match scores pollutionClassification with
  | topScore :: _ => topScore
  | [] => nan
  end.

(** [analyzeText(text, onProgress)]; the first two arguments are how the
    loading of the two models settles in this run.  The answer of the
    sentiment analyzer is bound to [sentiment] and not read again. *)
Definition analyzeText (getTextClassifier : outcome TextClassifier)
           (getSentimentAnalyzer : outcome SentimentAnalyzer)
           (text : JSString) : Async (list PolicyMatch) :=
  try_rethrow
    (onProgress 20%float ;;
     classifier <- await getTextClassifier ;;
     sentimentAnalyzer <- await getSentimentAnalyzer ;;
     onProgress 40%float ;;
     pollutionClassification <- await (classifier text pollutionLabels) ;;
     onProgress 60%float ;;
     sentiment <- await (sentimentAnalyzer text) ;;
     onProgress 80%float ;;
     let matches :=
       mapi (matchPolicy (topPollutionType pollutionClassification)
                         (confidence pollutionClassification))
            policyDatabase in
     onProgress 100%float ;;
     ret (sort byRelevance matches))%async
    (lit "Failed to analyze text. Please try again.").

End ZeroShot.

(* ================================================================= *)
(** ** analyzeText, keyword revision
       (src/src/hooks/usePollutionData.tsx, third document) *)

Module Keyword.
Import MlAnalysis.

(** The text-classification pipeline, whose answer is named [sentiment]. *)
Definition TextClassifier : Type := JSString -> outcome (list Prediction).

Section AnalyzeText.
Variable toLowerCase : JSString -> JSString.

(** [Object.entries(pollutionKeywords)]: the properties in the order in
    which the object literal lists them. *)
Definition pollutionKeywords : list (JSString * list JSString) :=
  [ (lit "plastic pollution",
     map lit ["plastic"; "microplastic"; "bottle"; "bag"; "debris"]%string);
    (lit "oil spill",
     map lit ["oil"; "spill"; "petroleum"; "crude"; "leak"]%string);
    (lit "chemical contamination",
     map lit ["chemical"; "toxic"; "contamination"; "pollutant"]%string);
    (lit "marine debris",
     map lit ["debris"; "trash"; "garbage"; "waste"; "litter"]%string);
    (lit "industrial waste",
     map lit ["industrial"; "factory"; "discharge"; "effluent"]%string);
    (lit "sewage discharge",
     map lit ["sewage"; "wastewater"; "runoff"; "drainage"]%string) ].

(** [keywords.filter(keyword =>
      text.toLowerCase().includes(keyword)).length]. *)
Definition matchCount (text : JSString) (keywords : list JSString) : nat :=
  List.length
    (filter (fun keyword => includes (toLowerCase text) keyword) keywords).

(** The [for ... of] loop with its [break], from the current values of
    [detectedType] and [confidence]. *)
Fixpoint detectLoop (text : JSString)
         (entries : list (JSString * list JSString))
         (detected : JSString * number) : JSString * number :=
  match entries with
  | [] => detected
  | (type, keywords) :: entries' =>
      let matchCount := matchCount text keywords in
      if Nat.ltb 0 matchCount
      then (type, Math_min 0.9%float (0.5 + of_length matchCount * 0.1)%float)
      else detectLoop text entries' detected
  end.

(** [detectedType] and [confidence] after the loop. *)
Definition detect (text : JSString) : JSString * number :=
  detectLoop text pollutionKeywords (lit "general pollution", 0.5%float).

Definition detectedType (text : JSString) : JSString := fst (detect text).
Definition confidence (text : JSString) : number := snd (detect text).

(** [analyzeText(text, onProgress)].  The answer of the model is bound to
    [sentiment], logged to the console and not read again. *)
Definition analyzeText (getTextClassifier : outcome TextClassifier)
           (text : JSString) : Async (list PolicyMatch) :=
  try_rethrow
    (onProgress 20%float ;;
     classifier <- await getTextClassifier ;;
     onProgress 40%float ;;
     sentiment <- await (classifier text) ;;
     onProgress 60%float ;;
     let '(detectedType, confidence) := detect text in
     onProgress 80%float ;;
     let topPollutionType := detectedType in
     let analysisConfidence := confidence in
     let matches :=
       mapi (matchPolicy topPollutionType analysisConfidence)
            policyDatabase in
     onProgress 100%float ;;
     ret (sort byRelevance matches))%async
    (lit "Failed to analyze text. Please try again.").

End AnalyzeText.

End Keyword.

(* ================================================================= *)
(** ** The PollutionDetector component
       (src/src/pages/Index.tsx, second document) *)

Module PollutionDetector.
Import MlAnalysis.

Module DetectionResult.
Record t : Set :=
  { type : JSString;
    confidence : number;
    location : Location;
    severity : Severity }.
End DetectionResult.
Abbreviation DetectionResult := DetectionResult.t.

(** An uploaded file: its name, its MIME type and its bytes. *)
Record File : Set :=
  { name : JSString; mimeType : JSString; content : list N }.

(** The state of the component (its [useState] cells). *)
Record State : Set :=
  { imageFile : option File;
    imagePreview : option JSString;
    isAnalyzing : bool;
    analysisProgress : number;
    results : option (list DetectionResult) }.

(** What a run does, in order: the state setters it calls, the timers it
    waits for and the toast it shows. *)
Inductive Effect : Set :=
| SetIsAnalyzing (value : bool)
| SetAnalysisProgress (value : number)
| SetTimeout (milliseconds : number)
| SetResults (value : list DetectionResult)
| Toast (title description : JSString).

Definition apply (s : State) (e : Effect) : State :=
  match e with
  | SetIsAnalyzing value =>
      {| imageFile := imageFile s; imagePreview := imagePreview s;
         isAnalyzing := value; analysisProgress := analysisProgress s;
         results := results s |}
  | SetAnalysisProgress value =>
      {| imageFile := imageFile s; imagePreview := imagePreview s;
         isAnalyzing := isAnalyzing s; analysisProgress := value;
         results := results s |}
  | SetResults value =>
      {| imageFile := imageFile s; imagePreview := imagePreview s;
         isAnalyzing := isAnalyzing s; analysisProgress := analysisProgress s;
         results := Some value |}
  | SetTimeout _ | Toast _ _ => s
  end.

Record Step : Set := { progress : number; message : JSString }.

Definition steps : list Step :=
  [ {| progress := 20; message := lit "Preprocessing image..." |};
    {| progress := 45; message := lit "Running CNN detection..." |};
    {| progress := 70; message := lit "Analyzing pollution patterns..." |};
    {| progress := 90; message := lit "Generating report..." |};
    {| progress := 100; message := lit "Analysis complete!" |} ]%float.

Definition mockResults : list DetectionResult :=
  [ {| DetectionResult.type := lit "Plastic Debris";
       DetectionResult.confidence := 0.94;
       DetectionResult.location :=
         {| x := 120; y := 80; width := 150; height := 100 |};
       DetectionResult.severity := high |};
    {| DetectionResult.type := lit "Oil Contamination";
       DetectionResult.confidence := 0.87;
       DetectionResult.location :=
         {| x := 300; y := 200; width := 200; height := 120 |};
       DetectionResult.severity := critical |};
    {| DetectionResult.type := lit "Chemical Waste";
       DetectionResult.confidence := 0.76;
       DetectionResult.location :=
         {| x := 50; y := 300; width := 180; height := 90 |};
       DetectionResult.severity := medium |} ]%float.

(** The decimal digits of an array length, as a template literal prints
    them. *)
Definition digits (n : nat) : JSString :=
  lit (NilZero.string_of_uint (Nat.to_uint n)).

(** The body of [for (const step of steps)]: wait for the timer, then set
    the progress. *)
Definition stepEffects (step : Step) : list Effect :=
  [ SetTimeout 800%float; SetAnalysisProgress (progress step) ].

(** The effects of [simulateAnalysis], in order. *)
Definition simulateAnalysisEffects (s : State) : list Effect :=
  match imageFile s with
  | None => []
  | Some _ =>
      [ SetIsAnalyzing true; SetAnalysisProgress 0%float ]
      ++ flat_map stepEffects steps
      ++ [ SetResults mockResults;
           SetIsAnalyzing false;
           Toast (lit "Analysis Complete")
                 (lit "Detected " ++ digits (List.length mockResults)
                  ++ lit " pollution sources with high confidence.") ]
  end.

(** [simulateAnalysis]: the effects of the run and the state it leaves. *)
Definition simulateAnalysis (s : State) : list Effect * State :=
  let effects := simulateAnalysisEffects s in
  (effects, fold_left apply effects s).

End PollutionDetector.

(* ================================================================= *)
(** ** The loading of the models (both revisions of the ML module) *)

Module Models.

(** [{ device: 'webgpu' }], or no option: the default device. *)
Inductive Device : Set := webgpu | cpu.

(** One call [pipeline(task, model, options)]. *)
Record Call : Set := { task : JSString; model : JSString; device : Device }.

(** What a loader did: the calls of [pipeline] it made, in order, how it
    settled, and the module-level variable that caches the model after
    it. *)
Record Loaded (C : Type) : Type :=
  { calls : list Call; answer : outcome C; cache : option C }.
Arguments calls {C} _.
Arguments answer {C} _.
Arguments cache {C} _.

Section Loaders.
Context {C : Type}.
(** How each call of [pipeline] settles in this run. *)
Variable pipeline : Call -> outcome C.

(** The body that the loaders of the zero-shot revision and the image
    loader of both revisions share: nothing to do when the model is cached;
    else WebGPU first and, when that throws, the default device, whose
    exception is the loader's. *)
Definition loadWithFallback (task model : JSString) (cached : option C)
  : Loaded C :=
  match cached with
  | Some classifier =>
      {| calls := []; answer := Returned classifier; cache := cached |}
  | None =>
      let onWebgpu := {| task := task; model := model; device := webgpu |} in
      let onCpu := {| task := task; model := model; device := cpu |} in
      match pipeline onWebgpu with
      | Returned classifier =>
          {| calls := [onWebgpu]; answer := Returned classifier;
             cache := Some classifier |}
      | Threw _ =>
          match pipeline onCpu with
          | Returned classifier =>
              {| calls := [onWebgpu; onCpu]; answer := Returned classifier;
                 cache := Some classifier |}
          | Threw fallbackError =>
              {| calls := [onWebgpu; onCpu]; answer := Threw fallbackError;
                 cache := None |}
          end
      end
  end.

(** The body of the text loaders of the keyword revision: the same, but
    the exception of the default device is replaced by
    [new Error(message)]. *)
Definition loadOrExplain (task model message : JSString) (cached : option C)
  : Loaded C :=
  match cached with
  | Some classifier =>
      {| calls := []; answer := Returned classifier; cache := cached |}
  | None =>
      let onWebgpu := {| task := task; model := model; device := webgpu |} in
      let onCpu := {| task := task; model := model; device := cpu |} in
      match pipeline onWebgpu with
      | Returned classifier =>
          {| calls := [onWebgpu]; answer := Returned classifier;
             cache := Some classifier |}
      | Threw _ =>
          match pipeline onCpu with
          | Returned classifier =>
              {| calls := [onWebgpu; onCpu]; answer := Returned classifier;
                 cache := Some classifier |}
          | Threw _ =>
              {| calls := [onWebgpu; onCpu]; answer := Threw message;
                 cache := None |}
          end
      end
  end.

(** [getImageClassifier], on the variable [imageClassifier]. *)
Definition getImageClassifier (imageClassifier : option C) : Loaded C :=
  loadWithFallback (lit "image-classification")
                   (lit "google/vit-base-patch16-224") imageClassifier.

End Loaders.

End Models.

(** The text loaders of the zero-shot revision. *)
Module ZeroShotModels.
Import Models.
Section Loaders.
Context {C : Type}.
Variable pipeline : Call -> outcome C.

Definition getTextClassifier (textClassifier : option C) : Loaded C :=
  loadWithFallback pipeline (lit "zero-shot-classification")
                   (lit "facebook/bart-large-mnli") textClassifier.

Definition getSentimentAnalyzer (sentimentAnalyzer : option C) : Loaded C :=
  loadWithFallback pipeline (lit "sentiment-analysis")
    (lit "cardiffnlp/twitter-roberta-base-sentiment-latest")
    sentimentAnalyzer.

End Loaders.
End ZeroShotModels.

(** The text loaders of the keyword revision. *)
Module KeywordModels.
Import Models.
Section Loaders.
Context {C : Type}.
Variable pipeline : Call -> outcome C.

Definition getTextClassifier (textClassifier : option C) : Loaded C :=
  loadOrExplain pipeline (lit "text-classification")
    (lit "distilbert-base-uncased-finetuned-sst-2-english")
    (lit "Unable to load text analysis model") textClassifier.

Definition getSentimentAnalyzer (sentimentAnalyzer : option C) : Loaded C :=
  loadOrExplain pipeline (lit "sentiment-analysis")
    (lit "distilbert-base-uncased-finetuned-sst-2-english")
    (lit "Unable to load sentiment analysis model") sentimentAnalyzer.

End Loaders.
End KeywordModels.

(** The analyses together with their loaders. *)
Module Loading.
Import Models.

(** [analyzeImage] with its loader: the run, the calls of [pipeline] it
    made and the variable [imageClassifier] after it. *)
Definition analyzeImage (toLowerCase : JSString -> JSString)
           (pipeline : Call -> outcome MlAnalysis.ImageClassifier)
           (imageClassifier : option MlAnalysis.ImageClassifier)
           (rng : Random) (imageUrl : JSString)
  : Async (list MlAnalysis.ImageAnalysisResult) * list Call
    * option MlAnalysis.ImageClassifier :=
  let loaded := getImageClassifier pipeline imageClassifier in
  (MlAnalysis.analyzeImage toLowerCase (answer loaded) rng imageUrl,
   calls loaded, cache loaded).

(** [analyzeText] of the keyword revision with its loader. *)
Definition analyzeText (toLowerCase : JSString -> JSString)
           (pipeline : Call -> outcome Keyword.TextClassifier)
           (textClassifier : option Keyword.TextClassifier)
           (text : JSString)
  : Async (list MlAnalysis.PolicyMatch) * list Call
    * option Keyword.TextClassifier :=
  let loaded := KeywordModels.getTextClassifier pipeline textClassifier in
  (Keyword.analyzeText toLowerCase (answer loaded) text,
   calls loaded, cache loaded).

End Loading.

(* ================================================================= *)
(** ** extractTextFromFile (both revisions of the ML module) *)

Module Files.
Import PollutionDetector.

(** [a === b] on strings. *)
Fixpoint strictEquals (a b : JSString) : bool :=
  match a, b with
  | [], [] => true
  | c :: a', d :: b' => N.eqb c d && strictEquals a' b'
  | _, _ => false
  end.

(** [extractTextFromFile(file)]; [readAsText] is how the [FileReader]
    settles on a file: with the text it decoded ([onload]) or with an
    error ([onerror]). *)
Definition extractTextFromFile (readAsText : File -> outcome JSString)
           (file : File) : outcome JSString :=
  if strictEquals (mimeType file) (lit "text/plain") then
    match readAsText file with
    | Returned text => Returned text
    | Threw _ => Threw (lit "Failed to read file")
    end
  else
    Returned (lit "Document: " ++ name file
              ++ lit " - Please use plain text files for full analysis.").

End Files.

(* ================================================================= *)
(** ** The PolicyAnalyzer component (src/src/components/PolicyAnalyzer.tsx) *)

Module PolicyAnalyzer.
Import MlAnalysis.

(** What [await import('@/utils/mlAnalysis')] gives the component. *)
Record MlModule : Type :=
  { analyzeText : JSString -> Async (list PolicyMatch);
    extractTextFromFile : PollutionDetector.File -> outcome JSString }.

Record State : Set :=
  { analysisQuery : JSString;
    uploadedDoc : option PollutionDetector.File;
    isAnalyzing : bool;
    analysisProgress : number;
    policyMatches : option (list PolicyMatch) }.

Inductive Variant : Set := default | destructive.

Record Toast : Set :=
  { title : JSString; description : JSString; variant : Variant }.

(** The component's own "mock policy database", of four rows. *)
Definition policyDatabase : list PolicyDocument :=
  MlAnalysis.policyDatabase
  ++ [ {| PolicyDocument.id := lit "4";
          PolicyDocument.title := lit "Global Plastics Treaty (Draft)";
          PolicyDocument.type := agreement;
          PolicyDocument.jurisdiction := lit "United Nations";
          PolicyDocument.summary :=
            lit "Proposed international agreement to end plastic pollution, including marine environments";
          PolicyDocument.keyEntities :=
            map lit ["plastic pollution"; "circular economy";
                     "marine protection"; "global cooperation"]%string;
          PolicyDocument.relevanceScore := 0.91%float;
          PolicyDocument.lastUpdated := lit "2024-01-10";
          PolicyDocument.status := draft |} ].

Definition setIsAnalyzing (value : bool) (s : State) : State :=
  {| analysisQuery := analysisQuery s; uploadedDoc := uploadedDoc s;
     isAnalyzing := value; analysisProgress := analysisProgress s;
     policyMatches := policyMatches s |}.

Definition setAnalysisProgress (s : State) (value : number) : State :=
  {| analysisQuery := analysisQuery s; uploadedDoc := uploadedDoc s;
     isAnalyzing := isAnalyzing s; analysisProgress := value;
     policyMatches := policyMatches s |}.

Definition setPolicyMatches (value : list PolicyMatch) (s : State) : State :=
  {| analysisQuery := analysisQuery s; uploadedDoc := uploadedDoc s;
     isAnalyzing := isAnalyzing s; analysisProgress := analysisProgress s;
     policyMatches := Some value |}.

Definition setUploadedDoc (file : PollutionDetector.File) (s : State)
  : State :=
  {| analysisQuery := analysisQuery s; uploadedDoc := Some file;
     isAnalyzing := isAnalyzing s; analysisProgress := analysisProgress s;
     policyMatches := policyMatches s |}.

(** [handleDocumentUpload], on [event.target.files?.[0]]. *)
Definition handleDocumentUpload (file : option PollutionDetector.File)
           (s : State) : list Toast * State :=
  match file with
  | Some file =>
      ([ {| title := lit "Document Uploaded";
            description :=
              PollutionDetector.name file ++ lit " ready for analysis";
            variant := default |} ],
       setUploadedDoc file s)
  | None => ([], s)
  end.

(** A string is falsy when it is empty. *)
Definition truthy (s : JSString) : bool :=
  match s with
  | [] => false
  | _ :: _ => true
  end.

(** [textToAnalyze]: the query, the text of the document, or the query,
    an empty line and the text of the document. *)
Definition textToAnalyze (ml : MlModule) (s : State) : outcome JSString :=
  match uploadedDoc s with
  | Some doc =>
      match extractTextFromFile ml doc with
      | Returned text =>
          if truthy (analysisQuery s)
          then Returned (analysisQuery s ++ [10; 10]%N ++ text)
          else Returned text
      | Threw e => Threw e
      end
  | None => Returned (analysisQuery s)
  end.

(** The toast of the [catch] block; every exception of the model is an
    [Error], whose message is shown. *)
Definition analysisFailed (message : JSString) : Toast :=
  {| title := lit "Analysis Failed"; description := message;
     variant := destructive |}.

(** The body of the [try] block, from the state after the two setters:
    the toast it ends with and the state it leaves. *)
Definition tryAnalysis (mlAnalysis : outcome MlModule) (s : State)
  : Toast * State :=
  match mlAnalysis with
  | Threw e => (analysisFailed e, s)
  | Returned ml =>
      match textToAnalyze ml s with
      | Threw e => (analysisFailed e, s)
      | Returned text =>
          let run := analyzeText ml text in
          let s := fold_left setAnalysisProgress (progress run) s in
          match settled run with
          | Returned analysisResults =>
              ({| title := lit "Analysis Complete";
                  description :=
                    lit "Found "
                    ++ PollutionDetector.digits
                         (List.length analysisResults)
                    ++ lit " relevant policy matches using AI analysis.";
                  variant := default |},
               setPolicyMatches analysisResults s)
          | Threw e => (analysisFailed e, s)
          end
      end
  end.

(** [performAnalysis]; [mlAnalysis] is how the dynamic import settles. *)
Definition performAnalysis (mlAnalysis : outcome MlModule) (s : State)
  : list Toast * State :=
  if negb (truthy (analysisQuery s))
     && match uploadedDoc s with None => true | Some _ => false end
  then
    ([ {| title := lit "Input Required";
          description :=
            lit "Please enter a query or upload a document to analyze";
          variant := destructive |} ], s)
  else
    let s := setIsAnalyzing true s in
    let s := setAnalysisProgress s 0%float in
    let '(toast, s) := tryAnalysis mlAnalysis s in
    ([toast], setIsAnalyzing false s).

End PolicyAnalyzer.

(* ================================================================= *)
(** ** The usePollutionData hook
       (src/src/hooks/usePollutionData.tsx, first document) *)

Module UsePollutionData.

(** [Json], of the generated database types. *)
Inductive Json : Set :=
| JString (s : JSString)
| JNumber (n : number)
| JBoolean (b : bool)
| JNull
| JObject (fields : list (JSString * Json))
| JArray (items : list Json).

Inductive PollutionType : Set :=
  plastic | oil_spill | debris | chemical | other.
Inductive IncidentStatus : Set :=
  reported | verified | investigating | resolved.

Record Profile : Set :=
  { display_name : option JSString;
    organization : option JSString;
    role : option JSString }.

Record PollutionIncident : Set :=
  { id : JSString;
    user_id : JSString;
    title : JSString;
    description : option JSString;
    pollution_type : PollutionType;
    severity : MlAnalysis.Severity;
    latitude : option number;
    longitude : option number;
    image_url : option JSString;
    ai_analysis : Json;
    status : IncidentStatus;
    created_at : JSString;
    updated_at : JSString;
    profiles : option Profile }.

(** What a query of the backend resolves to: [{ data, error }], the error
    with its message. *)
Module Response.
Record t (D : Type) : Type :=
  { data : option D; error : option JSString }.
Arguments data {D} _.
Arguments error {D} _.
End Response.
Abbreviation Response := Response.t.

(** The state of the hook. *)
Record State : Set :=
  { incidents : list PollutionIncident;
    loading : bool;
    error : option JSString }.

Definition initial : State :=
  {| incidents := []; loading := true; error := None |}.

Definition setIncidents (value : list PollutionIncident) (s : State)
  : State :=
  {| incidents := value; loading := loading s; error := error s |}.
Definition setLoading (value : bool) (s : State) : State :=
  {| incidents := incidents s; loading := value; error := error s |}.
Definition setError (value : JSString) (s : State) : State :=
  {| incidents := incidents s; loading := loading s; error := Some value |}.

(** [if (error) throw error] after an awaited query: the data, or the
    message of what is thrown. *)
Definition orThrow {D : Type} (query : outcome (Response D))
  : outcome (option D) :=
  match query with
  | Returned response =>
      match Response.error response with
      | Some message => Threw message
      | None => Returned (Response.data response)
      end
  | Threw message => Threw message
  end.

(** [fetchIncidents]; [query] is how the select settles. *)
Definition fetchIncidents
           (query : outcome (Response (list PollutionIncident)))
           (s : State) : State :=
  let s := setLoading true s in
  let s :=
    match orThrow query with
    | Returned data =>
        setIncidents (match data with Some rows => rows | None => [] end) s
    | Threw message => setError message s
    end in
  setLoading false s.

(** The body that [createIncident] and [updateIncident] share: the write,
    then the refresh of the list, then the written row. *)
Definition writeThenRefresh
           (write : outcome (Response PollutionIncident))
           (refresh : outcome (Response (list PollutionIncident)))
           (s : State) : outcome (option PollutionIncident) * State :=
  match orThrow write with
  | Returned data => (Returned data, fetchIncidents refresh s)
  | Threw message => (Threw message, setError message s)
  end.

(** [createIncident(incident)]; [insert] is how the insert of the row
    settles, [refresh] how the select after it does. *)
Definition createIncident
           (insert : outcome (Response PollutionIncident))
           (refresh : outcome (Response (list PollutionIncident)))
           (s : State) : outcome (option PollutionIncident) * State :=
  writeThenRefresh insert refresh s.

(** [updateIncident(id, updates)]. *)
Definition updateIncident
           (update : outcome (Response PollutionIncident))
           (refresh : outcome (Response (list PollutionIncident)))
           (s : State) : outcome (option PollutionIncident) * State :=
  writeThenRefresh update refresh s.

(** [deleteIncident(id)]. *)
Definition deleteIncident
           (delete : outcome (Response unit))
           (refresh : outcome (Response (list PollutionIncident)))
           (s : State) : outcome unit * State :=
  match orThrow delete with
  | Returned _ => (Returned tt, fetchIncidents refresh s)
  | Threw message => (Threw message, setError message s)
  end.

(** What happens to the hook: a fetch (on mount, on a change of the table,
    or by the caller) or one of the three writes. *)
Inductive Operation : Type :=
| Fetch (query : outcome (Response (list PollutionIncident)))
| Create (insert : outcome (Response PollutionIncident))
         (refresh : outcome (Response (list PollutionIncident)))
| Update (update : outcome (Response PollutionIncident))
         (refresh : outcome (Response (list PollutionIncident)))
| Delete (delete : outcome (Response unit))
         (refresh : outcome (Response (list PollutionIncident))).

Definition step (s : State) (operation : Operation) : State :=
  match operation with
  | Fetch query => fetchIncidents query s
  | Create insert refresh => snd (createIncident insert refresh s)
  | Update update refresh => snd (updateIncident update refresh s)
  | Delete delete refresh => snd (deleteIncident delete refresh s)
  end.

(** The calls of the three setters, which are all that changes the state
    of the hook; [setError] takes a [string | null]. *)
Inductive Effect : Set :=
| SetIncidents (value : list PollutionIncident)
| SetLoading (value : bool)
| SetError (value : option JSString).

Definition apply (s : State) (effect : Effect) : State :=
  match effect with
  | SetIncidents value => setIncidents value s
  | SetLoading value => setLoading value s
  | SetError value =>
      {| incidents := incidents s; loading := loading s; error := value |}
  end.

(** The setter calls of [fetchIncidents], in order: [setLoading(true)]
    before the select is awaited, [setIncidents] or [setError] after it,
    [setLoading(false)] in the [finally] block. *)
Definition fetchIncidentsEffects
           (query : outcome (Response (list PollutionIncident)))
  : list Effect :=
  [ SetLoading true;
    match orThrow query with
    | Returned data =>
        SetIncidents (match data with Some rows => rows | None => [] end)
    | Threw message => SetError (Some message)
    end;
    SetLoading false ].

(** The setter calls of a creation, update or deletion: those of the
    refresh when the write succeeds, [setError] when it fails. *)
Definition writeEffects {D : Type} (write : outcome (Response D))
           (refresh : outcome (Response (list PollutionIncident)))
  : list Effect :=
  match orThrow write with
  | Returned _ => fetchIncidentsEffects refresh
  | Threw message => [ SetError (Some message) ]
  end.

(** The setter calls of an operation of the hook, in order. *)
Definition effectsOf (operation : Operation) : list Effect :=
  match operation with
  | Fetch query => fetchIncidentsEffects query
  | Create insert refresh => writeEffects insert refresh
  | Update update refresh => writeEffects update refresh
  | Delete delete refresh => writeEffects delete refresh
  end.

End UsePollutionData.

(* ================================================================= *)
(** ** The InteractiveMap component (src/unnamed/part_000) *)

Module InteractiveMap.
Import MlAnalysis.

Inductive IncidentStatus : Set := active | monitoring | resolved.

Record PollutionIncident : Set :=
  { id : JSString;
    lat : number;
    lng : number;
    type : JSString;
    severity : Severity;
    date : JSString;
    status : IncidentStatus;
    description : JSString }.

(** The "mock pollution incident data". *)
Definition incidents : list PollutionIncident :=
  [ {| id := lit "1"; lat := 25.7617; lng := -80.1918;
       type := lit "Plastic Debris"; severity := high;
       date := lit "2024-01-15"; status := active;
       description :=
         lit "Large accumulation of plastic waste detected via satellite imagery" |};
    {| id := lit "2"; lat := 40.7128; lng := -74.0060;
       type := lit "Oil Spill"; severity := critical;
       date := lit "2024-01-14"; status := monitoring;
       description :=
         lit "Oil contamination spreading along coastal areas" |};
    {| id := lit "3"; lat := 34.0522; lng := -118.2437;
       type := lit "Chemical Waste"; severity := medium;
       date := lit "2024-01-12"; status := resolved;
       description := lit "Industrial runoff contained and cleaned" |};
    {| id := lit "4"; lat := 37.7749; lng := -122.4194;
       type := lit "Microplastics"; severity := high;
       date := lit "2024-01-10"; status := active;
       description :=
         lit "High concentration of microplastics detected" |} ]%float.

(** The string that a severity is. *)
Definition severityName (severity : Severity) : JSString :=
  match severity with
  | low => lit "low"
  | medium => lit "medium"
  | high => lit "high"
  | critical => lit "critical"
  end.

Section Filter.
Variable toLowerCase : JSString -> JSString.

(** The callback of [incidents.filter]. *)
Definition shown (filterType filterSeverity : JSString)
           (incident : PollutionIncident) : bool :=
  let typeMatch :=
    Files.strictEquals filterType (lit "all")
    || includes (toLowerCase (type incident)) (toLowerCase filterType) in
  let severityMatch :=
    Files.strictEquals filterSeverity (lit "all")
    || Files.strictEquals (severityName (severity incident)) filterSeverity in
  typeMatch && severityMatch.

(** [filteredIncidents]. *)
Definition filteredIncidents (filterType filterSeverity : JSString)
  : list PollutionIncident :=
  filter (shown filterType filterSeverity) incidents.

End Filter.

(** The place of the marker of the incident at [index] of the filtered
    list, in percent of the map: [left] and [top]. *)
Definition markerPosition (index : nat) : number * number :=
  ((20 + of_length index * 15)%float, (30 + of_length index * 10)%float).

End InteractiveMap.

(* ================================================================= *)
(** ** The upload handlers of the PollutionDetector component *)

Module DetectorEvents.
Import PollutionDetector.

(** [setImageFile(file); setResults(null)], and [setImagePreview] once the
    reader has loaded the file; a reader that fails calls nothing. *)
Definition accept (readAsDataURL : File -> outcome JSString) (file : File)
           (s : State) : State :=
  {| imageFile := Some file;
     imagePreview :=
       match readAsDataURL file with
       | Returned url => Some url
       | Threw _ => imagePreview s
       end;
     isAnalyzing := isAnalyzing s;
     analysisProgress := analysisProgress s;
     results := None |}.

(** [handleFileSelect], on [event.target.files?.[0]]. *)
Definition handleFileSelect (readAsDataURL : File -> outcome JSString)
           (file : option File) (s : State) : State :=
  match file with
  | Some file => accept readAsDataURL file s
  | None => s
  end.

(** [handleDrop], on [event.dataTransfer.files[0]]. *)
Definition handleDrop (readAsDataURL : File -> outcome JSString)
           (file : option File) (s : State) : State :=
  match file with
  | Some file =>
      if startsWith (mimeType file) (lit "image/")
      then accept readAsDataURL file s
      else s
  | None => s
  end.

End DetectorEvents.

(* ================================================================= *)
(** * The vocabulary of the properties *)

Import MlAnalysis.

(** The progress values of a complete run of analyzeText and of
    analyzeImage. *)
Definition textProgress : list number := [20; 40; 60; 80; 100]%float.
Definition imageProgress : list number := [20; 40; 70; 100]%float.

(** A document is a row of the table up to its relevance score: the eight
    other fields are those of the row. *)
Definition sameButRelevance (document policy : PolicyDocument) : Prop :=
  PolicyDocument.id document = PolicyDocument.id policy
  /\ PolicyDocument.title document = PolicyDocument.title policy
  /\ PolicyDocument.type document = PolicyDocument.type policy
  /\ PolicyDocument.jurisdiction document = PolicyDocument.jurisdiction policy
  /\ PolicyDocument.summary document = PolicyDocument.summary policy
  /\ PolicyDocument.keyEntities document = PolicyDocument.keyEntities policy
  /\ PolicyDocument.lastUpdated document = PolicyDocument.lastUpdated policy
  /\ PolicyDocument.status document = PolicyDocument.status policy.

(** The matches are one per row of the policy table: three of them, whose
    documents are the rows of the table, each once, with some relevance
    score put in. *)
Definition onePerPolicy (matches : list PolicyMatch) : Prop :=
  List.length matches = 3
  /\ exists relevance : PolicyDocument -> number,
       Permutation (map PolicyMatch.document matches)
                   (map (fun policy =>
                           withRelevanceScore policy (relevance policy))
                        policyDatabase).

(** The compliance status of every match, by the confidence and by the row
    of the table that the match is for. *)
Definition complianceByRow (confidence : number)
           (matches : list PolicyMatch) : Prop :=
  forall m, In m matches ->
    ((confidence <=? 0.8)%float = true ->
       PolicyMatch.complianceStatus m = unclear)
    /\ ((confidence >? 0.8)%float = true ->
        forall index policy,
          nth_error policyDatabase index = Some policy ->
          PolicyDocument.id (PolicyMatch.document m) = PolicyDocument.id policy ->
          PolicyMatch.complianceStatus m
          = match index with
            | 0 => violation
            | 1 => unclear
            | _ => compliant
            end).

(** There are as many matches as rows of the table, and every row of the
    table has its match, whose compliance status is given by the
    confidence and by the index of the row. *)
Definition everyRowJudged (confidence : number)
           (matches : list PolicyMatch) : Prop :=
  List.length matches = List.length policyDatabase
  /\ forall index policy,
       nth_error policyDatabase index = Some policy ->
       exists m,
         In m matches
         /\ PolicyDocument.id (PolicyMatch.document m)
            = PolicyDocument.id policy
         /\ ((confidence <=? 0.8)%float = true ->
             PolicyMatch.complianceStatus m = unclear)
         /\ ((confidence >? 0.8)%float = true ->
             PolicyMatch.complianceStatus m
             = match index with
               | 0 => violation
               | 1 => unclear
               | _ => compliant
               end).

(** A list of numbers is strictly increasing. *)
Definition strictlyIncreasing (l : list number) : Prop :=
  StronglySorted (fun a b => (a <? b)%float = true) l.

(** [l] is an initial segment of [full]. *)
Definition initialSegment (l full : list number) : Prop :=
  exists rest, full = l ++ rest.



(** [result] is the result that analyzeImage builds for [prediction], up to
    the random location. *)
Definition resultOf (toLowerCase : JSString -> JSString)
           (prediction : Prediction) (result : ImageAnalysisResult) : Prop :=
  ImageAnalysisResult.type result = fst (categorize toLowerCase prediction)
  /\ ImageAnalysisResult.confidence result = score prediction
  /\ ImageAnalysisResult.severity result
     = snd (categorize toLowerCase prediction).

(** A keyword occurs in the lower-cased text. *)
Definition occursIn (toLowerCase : JSString -> JSString) (text : JSString)
           (keyword : JSString) : Prop :=
  includes (toLowerCase text) keyword = true.


(** The smallest exponent of binary64. *)
Definition emin64 : Z := emin.

(** A number that is NaN, plus infinity, or positive and finite. *)
Definition positiveOrNaN (x : float) : Prop :=
  Prim2SF x = S754_nan
  \/ Prim2SF x = S754_infinity false
  \/ exists m e, Prim2SF x = S754_finite false m e.

(** The relevance score that a match carries. *)
Definition relevance (m : PolicyMatch) : number :=
  PolicyDocument.relevanceScore (PolicyMatch.document m).

(** Every match carries max(0.6, confidence * base score) of its policy. *)
Definition relevanceFromTable (confidence : number)
           (matches : list PolicyMatch) : Prop :=
  forall m, In m matches ->
    exists policy,
      In policy policyDatabase
      /\ PolicyDocument.id (PolicyMatch.document m) = PolicyDocument.id policy
      /\ relevance m
         = Math_max 0.6%float
             (confidence * PolicyDocument.relevanceScore policy)%float.

(** The documents of the matches are the rows of the policy table, each
    once, with max(0.6, confidence * base score) as its relevance score. *)
Definition scoredFromTable (confidence : number)
           (matches : list PolicyMatch) : Prop :=
  Permutation
    (map PolicyMatch.document matches)
    (map (fun policy =>
            withRelevanceScore policy
              (Math_max 0.6%float
                 (confidence * PolicyDocument.relevanceScore policy)%float))
         policyDatabase).

(** No match has a match of greater relevance anywhere after it. *)
Definition neverIncreasing (matches : list PolicyMatch) : Prop :=
  StronglySorted (fun a b => (relevance a <? relevance b)%float = false)
                 matches.

(** Every match has only matches of smaller or equal relevance after it. *)
Definition nonIncreasing (matches : list PolicyMatch) : Prop :=
  StronglySorted (fun a b => (relevance b <=? relevance a)%float = true)
                 matches.

(* ================================================================= *)
(** * Sample inputs, on which the properties are run *)

Module Sample.

Definition text : JSString :=
  lit "Crude oil leak near the harbour, petroleum on the water".

(** What a zero-shot classifier could answer for [text]. *)
Definition classification : ZeroShot.Classification :=
  {| ZeroShot.sequence := text;
     ZeroShot.labels :=
       map lit ["oil spill"; "chemical contamination"; "industrial waste";
                "marine debris"; "sewage discharge"; "plastic pollution"]%string;
     ZeroShot.scores := [0.91; 0.04; 0.02; 0.01; 0.01; 0.01]%float |}.

Definition zeroShotClassifier : ZeroShot.TextClassifier :=
  fun _ _ => Returned classification.

Definition negative : list Prediction :=
  [ {| label := lit "NEGATIVE"; score := 0.98%float |} ].
Definition positive : list Prediction :=
  [ {| label := lit "POSITIVE"; score := 0.61%float |} ].

Definition sentimentAnalyzer : ZeroShot.SentimentAnalyzer :=
  fun _ => Returned negative.
Definition otherSentimentAnalyzer : ZeroShot.SentimentAnalyzer :=
  fun _ => Returned positive.

Definition keywordClassifier : Keyword.TextClassifier :=
  fun _ => Returned negative.
Definition otherKeywordClassifier : Keyword.TextClassifier :=
  fun _ => Returned positive.

Definition random : Random :=
  {| draws := fun n => if Nat.even n then 0.25%float else 0.75%float;
     drawn := 0 |}.

Definition imageUrl : JSString := lit "blob:beach.jpg".

Definition oilFilter : Prediction :=
  {| label := lit "Oil filter"; score := 0.65%float |}.

(** Predictions of which two pass the inclusion test. *)
Definition predictions : list Prediction :=
  [ oilFilter;
    {| label := lit "Plastic bag"; score := 0.2%float |};
    {| label := lit "seashore, coast"; score := 0.1%float |} ].

Definition imageClassifier : ImageClassifier :=
  fun _ => Returned predictions.

(** Predictions none of which passes the inclusion test. *)
Definition tabby : Prediction :=
  {| label := lit "tabby cat"; score := 0.2%float |}.

Definition otherImageClassifier : ImageClassifier :=
  fun _ => Returned [tabby].




Definition file : PollutionDetector.File :=
  {| PollutionDetector.name := lit "beach.jpg";
     PollutionDetector.mimeType := lit "image/jpeg";
     PollutionDetector.content := [255; 216; 255; 224]%N |}.

Definition state : PollutionDetector.State :=
  {| PollutionDetector.imageFile := Some file;
     PollutionDetector.imagePreview := None;
     PollutionDetector.isAnalyzing := false;
     PollutionDetector.analysisProgress := 0%float;
     PollutionDetector.results := None |}.

End Sample.

(* ================================================================= *)
(** * More vocabulary and sample inputs *)

(** What a result of analyzeImage says, its random location left out. *)
Definition essentials (result : ImageAnalysisResult)
  : JSString * number * Severity :=
  (ImageAnalysisResult.type result,
   ImageAnalysisResult.confidence result,
   ImageAnalysisResult.severity result).

(** A loader of a model, as a function of how [pipeline] settles and of the
    variable that caches the model. *)
Definition Loader (C : Type) : Type :=
  (Models.Call -> outcome C) -> option C -> Models.Loaded C.

(** A loader remembers the model it returned: called again, it returns the
    same model without calling [pipeline], however [pipeline] would
    settle. *)
Definition remembers {C : Type} (load : Loader C) : Prop :=
  forall pipeline pipeline' cached classifier,
    Models.answer (load pipeline cached) = Returned classifier ->
    load pipeline' (Models.cache (load pipeline cached))
    = {| Models.calls := [];
         Models.answer := Returned classifier;
         Models.cache := Some classifier |}.

(** A loader calls [pipeline] not at all, on WebGPU only, or on WebGPU and
    then on the default device; it throws exactly when nothing is cached
    and both calls throw, and then it caches nothing. *)
Definition fallsBack {C : Type} (load : Loader C) : Prop :=
  forall pipeline cached,
    let loaded := load pipeline cached in
    (map Models.device (Models.calls loaded) = []
     \/ map Models.device (Models.calls loaded) = [Models.webgpu]
     \/ map Models.device (Models.calls loaded) = [Models.webgpu; Models.cpu])
    /\ (cached <> None -> Models.calls loaded = [])
    /\ ((exists message, Models.answer loaded = Threw message)
        <-> cached = None
            /\ forall call, In call (Models.calls loaded) ->
                 exists e, pipeline call = Threw e)
    /\ ((exists message, Models.answer loaded = Threw message) ->
        Models.cache loaded = None
        /\ map Models.device (Models.calls loaded)
           = [Models.webgpu; Models.cpu]).

(** What a loader does, call by call.  With a cached model it calls
    nothing and returns that model.  With none it calls [pipeline] on
    WebGPU; if that call returns a model, it is the only call, and the
    model is returned and cached.  Only if the call on WebGPU threw does
    the loader call [pipeline] again, for the same task and model on the
    default device; it returns and caches the model of that call, or
    throws and caches nothing when that call threw too. *)
Definition triesInOrder {C : Type} (load : Loader C) : Prop :=
  forall pipeline cached,
    let loaded := load pipeline cached in
    (forall classifier,
        cached = Some classifier ->
        loaded = {| Models.calls := [];
                    Models.answer := Returned classifier;
                    Models.cache := Some classifier |})
    /\ (cached = None ->
        exists onWebgpu,
          Models.device onWebgpu = Models.webgpu
          /\ ((exists classifier,
                  pipeline onWebgpu = Returned classifier
                  /\ loaded = {| Models.calls := [onWebgpu];
                                 Models.answer := Returned classifier;
                                 Models.cache := Some classifier |})
              \/ (exists e onCpu,
                    pipeline onWebgpu = Threw e
                    /\ Models.device onCpu = Models.cpu
                    /\ Models.task onCpu = Models.task onWebgpu
                    /\ Models.model onCpu = Models.model onWebgpu
                    /\ Models.calls loaded = [onWebgpu; onCpu]
                    /\ ((exists classifier,
                            pipeline onCpu = Returned classifier
                            /\ Models.answer loaded = Returned classifier
                            /\ Models.cache loaded = Some classifier)
                        \/ (exists e' message,
                              pipeline onCpu = Threw e'
                              /\ Models.answer loaded = Threw message
                              /\ Models.cache loaded = None))))).

(** The ML module of the keyword revision, as the PolicyAnalyzer imports
    it: its analyzeText, on how the loading of the model settles, and its
    extractTextFromFile, on how the file reader settles. *)
Definition keywordModule (toLowerCase : JSString -> JSString)
           (getTextClassifier : outcome Keyword.TextClassifier)
           (readAsText : PollutionDetector.File -> outcome JSString)
  : PolicyAnalyzer.MlModule :=
  {| PolicyAnalyzer.analyzeText :=
       Keyword.analyzeText toLowerCase getTextClassifier;
     PolicyAnalyzer.extractTextFromFile :=
       Files.extractTextFromFile readAsText |}.

(** The user has typed a query or uploaded a document. *)
Definition inputGiven (s : PolicyAnalyzer.State) : Prop :=
  PolicyAnalyzer.analysisQuery s <> []
  \/ PolicyAnalyzer.uploadedDoc s <> None.

(** The toasts of performAnalysis other than that of its catch block. *)
Definition inputRequired : PolicyAnalyzer.Toast :=
  {| PolicyAnalyzer.title := lit "Input Required";
     PolicyAnalyzer.description :=
       lit "Please enter a query or upload a document to analyze";
     PolicyAnalyzer.variant := PolicyAnalyzer.destructive |}.

Definition analysisComplete (found : JSString) : PolicyAnalyzer.Toast :=
  {| PolicyAnalyzer.title := lit "Analysis Complete";
     PolicyAnalyzer.description :=
       lit "Found " ++ found
       ++ lit " relevant policy matches using AI analysis.";
     PolicyAnalyzer.variant := PolicyAnalyzer.default |}.

(** A query of the backend fails with [message]: the promise rejects, or
    it resolves with an error, whatever data comes with it. *)
Definition fails {D : Type} (query : outcome (UsePollutionData.Response D))
           (message : JSString) : Prop :=
  query = Threw message
  \/ exists data,
       query = Returned {| UsePollutionData.Response.data := data;
                           UsePollutionData.Response.error := Some message |}.

(** A query of the backend resolves with [data] and no error. *)
Definition succeeds {D : Type} (query : outcome (UsePollutionData.Response D))
           (data : option D) : Prop :=
  query = Returned {| UsePollutionData.Response.data := data;
                      UsePollutionData.Response.error := None |}.

(** A file whose MIME type starts with "image/". *)
Definition isImage (file : PollutionDetector.File) : Prop :=
  exists subtype, PollutionDetector.mimeType file = lit "image/" ++ subtype.

Module MoreSamples.

(** A [pipeline] that has no WebGPU but loads on the default device. *)
Definition cpuOnly (call : Models.Call) : outcome ImageClassifier :=
  match Models.device call with
  | Models.webgpu => Threw (lit "no available backend found")
  | Models.cpu => Returned Sample.imageClassifier
  end.

(** A [pipeline] that loads nothing. *)
Definition offline {C : Type} (call : Models.Call) : outcome C :=
  Threw (lit "Failed to fetch").


Definition report : PollutionDetector.File :=
  {| PollutionDetector.name := lit "harbour-report.pdf";
     PollutionDetector.mimeType := lit "application/pdf";
     PollutionDetector.content := [37; 80; 68; 70]%N |}.

(** A file of the same name and of other content. *)
Definition otherReport : PollutionDetector.File :=
  {| PollutionDetector.name := lit "harbour-report.pdf";
     PollutionDetector.mimeType := lit "application/msword";
     PollutionDetector.content := [208; 207; 17; 224]%N |}.

Definition notes : PollutionDetector.File :=
  {| PollutionDetector.name := lit "notes.txt";
     PollutionDetector.mimeType := lit "text/plain";
     PollutionDetector.content := [111; 105; 108]%N |}.

(** A reader that decodes the bytes of a file as ASCII. *)
Definition readBytes (file : PollutionDetector.File) : outcome JSString :=
  Returned (PollutionDetector.content file).

(** A reader that fails. *)
Definition unreadable (file : PollutionDetector.File) : outcome JSString :=
  Threw (lit "NotReadableError").

(** The analyzer with a query typed in and earlier matches on display. *)
Definition analyzer : PolicyAnalyzer.State :=
  {| PolicyAnalyzer.analysisQuery := Sample.text;
     PolicyAnalyzer.uploadedDoc := None;
     PolicyAnalyzer.isAnalyzing := false;
     PolicyAnalyzer.analysisProgress := 100%float;
     PolicyAnalyzer.policyMatches := Some [] |}.

(** The analyzer with nothing typed and a document uploaded. *)
Definition analyzerWith (doc : PollutionDetector.File)
  : PolicyAnalyzer.State :=
  {| PolicyAnalyzer.analysisQuery := [];
     PolicyAnalyzer.uploadedDoc := Some doc;
     PolicyAnalyzer.isAnalyzing := false;
     PolicyAnalyzer.analysisProgress := 0%float;
     PolicyAnalyzer.policyMatches := None |}.

(** The keyword revision of the ML module with the sample model. *)
Definition ml (readAsText : PollutionDetector.File -> outcome JSString)
  : PolicyAnalyzer.MlModule :=
  keywordModule asciiLower (Returned Sample.keywordClassifier) readAsText.

(** A row of the table of incidents. *)
Definition incident : UsePollutionData.PollutionIncident :=
  {| UsePollutionData.id := lit "7f3c";
     UsePollutionData.user_id := lit "a1b2";
     UsePollutionData.title := lit "Oil sheen off the pier";
     UsePollutionData.description := None;
     UsePollutionData.pollution_type := UsePollutionData.oil_spill;
     UsePollutionData.severity := high;
     UsePollutionData.latitude := Some 25.76%float;
     UsePollutionData.longitude := Some (-80.19)%float;
     UsePollutionData.image_url := None;
     UsePollutionData.ai_analysis := UsePollutionData.JNull;
     UsePollutionData.status := UsePollutionData.reported;
     UsePollutionData.created_at := lit "2024-01-15T10:00:00Z";
     UsePollutionData.updated_at := lit "2024-01-15T10:00:00Z";
     UsePollutionData.profiles := None |}.

(** A query that resolves with [data]. *)
Definition resolved {D : Type} (data : D)
  : outcome (UsePollutionData.Response D) :=
  Returned {| UsePollutionData.Response.data := Some data;
              UsePollutionData.Response.error := None |}.

(** A query that resolves with an error of the backend. *)
Definition refused {D : Type} : outcome (UsePollutionData.Response D) :=
  Returned {| UsePollutionData.Response.data := None;
              UsePollutionData.Response.error :=
                Some (lit "permission denied for table pollution_incidents") |}.

(** The hook after a fetch that failed. *)
Definition failed : UsePollutionData.State :=
  UsePollutionData.fetchIncidents refused UsePollutionData.initial.

(** The second incident of the map. *)
Definition oilSpill : InteractiveMap.PollutionIncident :=
  {| InteractiveMap.id := lit "2";
     InteractiveMap.lat := 40.7128%float;
     InteractiveMap.lng := (-74.0060)%float;
     InteractiveMap.type := lit "Oil Spill";
     InteractiveMap.severity := critical;
     InteractiveMap.date := lit "2024-01-14";
     InteractiveMap.status := InteractiveMap.monitoring;
     InteractiveMap.description :=
       lit "Oil contamination spreading along coastal areas" |}.

(** The setter calls of a fetch that succeeds, up to the moment at which
    the select has been answered and loading is still true. *)
Definition refetching : list UsePollutionData.Effect :=
  firstn 2 (UsePollutionData.effectsOf
              (UsePollutionData.Fetch (resolved [incident]))).

(** The detector before any upload. *)
Definition empty : PollutionDetector.State :=
  {| PollutionDetector.imageFile := None;
     PollutionDetector.imagePreview := None;
     PollutionDetector.isAnalyzing := false;
     PollutionDetector.analysisProgress := 0%float;
     PollutionDetector.results := None |}.

End MoreSamples.

(* ================================================================= *)
(** * Properties *)

(* ----------------------------------------------------------------- *)
(** ** The keyword detection of the keyword revision *)

Section KeywordDetection.
Variable toLowerCase : JSString -> JSString.
Variable text : JSString.

Let occurs : JSString -> Prop := occursIn toLowerCase text.

Lemma matchCount_zero (keywords : list JSString) :
  Keyword.matchCount toLowerCase text keywords = 0
  <-> forall keyword, In keyword keywords -> ~ occurs keyword.
Proof.
  unfold Keyword.matchCount, occurs, occursIn.
  induction keywords as [|k keywords IH]; simpl.
  - split; [intros _ ? [] | reflexivity].
  - destruct (includes (toLowerCase text) k) eqn:Hk; simpl.
    + split; [discriminate|].
      intros H. exfalso. apply (H k); auto.
    + rewrite IH. split.
      * intros H keyword [<-|Hin]; [congruence | auto].
      * intros H keyword Hin. apply H. auto.
Qed.

Lemma matchCount_positive (keywords : list JSString) :
  0 < Keyword.matchCount toLowerCase text keywords
  <-> exists keyword, In keyword keywords /\ occurs keyword.
Proof.
  unfold Keyword.matchCount, occurs, occursIn.
  induction keywords as [|k keywords IH]; simpl.
  - split; [lia | intros [? [[] _]]].
  - destruct (includes (toLowerCase text) k) eqn:Hk; simpl.
    + split; [intros _; exists k; auto | lia].
    + rewrite IH. split.
      * intros [keyword [Hin Hocc]]. exists keyword. auto.
      * intros [keyword [[<-|Hin] Hocc]]; [congruence | exists keyword; auto].
Qed.

Lemma matchCount_le (keywords : list JSString) :
  Keyword.matchCount toLowerCase text keywords <= List.length keywords.
Proof. apply filter_length_le. Qed.

(** The loop leaves its variables alone when no entry matches. *)
Lemma detectLoop_no_match entries detected :
  (forall type keywords, In (type, keywords) entries ->
     Keyword.matchCount toLowerCase text keywords = 0) ->
  Keyword.detectLoop toLowerCase text entries detected = detected.
Proof.
  induction entries as [|[type keywords] entries IH]; simpl; intros H.
  - reflexivity.
  - rewrite (H type keywords) by auto. simpl.
    apply IH. intros type' keywords' Hin. apply (H type' keywords'). auto.
Qed.

(** The loop stops at the first entry that matches. *)
Lemma detectLoop_first_match before type keywords after detected :
  (forall type' keywords', In (type', keywords') before ->
     Keyword.matchCount toLowerCase text keywords' = 0) ->
  0 < Keyword.matchCount toLowerCase text keywords ->
  Keyword.detectLoop toLowerCase text
    (before ++ (type, keywords) :: after) detected
  = (type,
     Math_min 0.9%float
       (0.5 + of_length (Keyword.matchCount toLowerCase text keywords) * 0.1)%float).
Proof.
  induction before as [|[type' keywords'] before IH]; simpl; intros Hbefore Hpos.
  - apply Nat.ltb_lt in Hpos. rewrite Hpos. reflexivity.
  - rewrite (Hbefore type' keywords') by auto. simpl.
    apply IH; [|assumption].
    intros t k Hin. apply (Hbefore t k). auto.
Qed.

End KeywordDetection.

(** Up to five matches, the product of the source, [matchCount * 0.1], and
    the product [0.1 * matchCount] are the same number. *)
Lemma confidence_product_comm (n : nat) :
  n <= 5 ->
  Math_min 0.9%float (0.5 + of_length n * 0.1)%float
  = Math_min 0.9%float (0.5 + 0.1 * of_length n)%float.
Proof.
  intros Hn.
  do 6 (destruct n as [|n]; [vm_compute; reflexivity|]).
  lia.
Qed.

Lemma pollutionKeywords_at_most_five type keywords :
  In (type, keywords) Keyword.pollutionKeywords -> List.length keywords <= 5.
Proof.
  unfold Keyword.pollutionKeywords. simpl.
  intros H.
  repeat (destruct H as [H|H];
          [inversion H; subst; vm_compute; lia|]).
  destruct H.
Qed.

(** C1. For every text, the keyword analysis detects the first category,
    in the order plastic pollution, oil spill, chemical contamination,
    marine debris, industrial waste, sewage discharge, that has a keyword
    occurring in the lower-cased text, with confidence
    min(0.9, 0.5 + 0.1 * matchCount), where matchCount counts the keywords
    of that category occurring in the text; when no category has such a
    keyword it detects general pollution with confidence 0.5. *)
Theorem keyword_detection_first_category :
  forall (toLowerCase : JSString -> JSString) (text : JSString),
    map fst Keyword.pollutionKeywords
    = map lit ["plastic pollution"; "oil spill"; "chemical contamination";
               "marine debris"; "industrial waste"; "sewage discharge"]%string
    /\ (forall before type keywords after,
          Keyword.pollutionKeywords = before ++ (type, keywords) :: after ->
          (forall type' keywords' keyword,
             In (type', keywords') before -> In keyword keywords' ->
             ~ occursIn toLowerCase text keyword) ->
          (exists keyword,
              In keyword keywords /\ occursIn toLowerCase text keyword) ->
          Keyword.detect toLowerCase text
          = (type,
             Math_min 0.9%float
               (0.5 + 0.1 * of_length (List.length (filter
                  (fun keyword => includes (toLowerCase text) keyword)
                  keywords)))%float))
    /\ ((forall type keywords keyword,
           In (type, keywords) Keyword.pollutionKeywords ->
           In keyword keywords -> ~ occursIn toLowerCase text keyword) ->
        Keyword.detect toLowerCase text = (lit "general pollution", 0.5%float)).
Proof.
  intros toLowerCase text. split; [reflexivity|]. split.
  - intros before type keywords after Hsplit Hbefore Hsome.
    unfold Keyword.detect. rewrite Hsplit.
    rewrite detectLoop_first_match.
    + rewrite confidence_product_comm; [reflexivity|].
      etransitivity; [apply matchCount_le|].
      apply (pollutionKeywords_at_most_five type).
      rewrite Hsplit. apply in_elt.
    + intros type' keywords' Hin. apply matchCount_zero.
      intros keyword Hk. apply (Hbefore type' keywords' keyword); assumption.
    + apply matchCount_positive. exact Hsome.
  - intros Hnone. unfold Keyword.detect.
    apply detectLoop_no_match.
    intros type keywords Hin. apply matchCount_zero.
    intros keyword Hk. apply (Hnone type keywords keyword); assumption.
Qed.

(* ----------------------------------------------------------------- *)
(** ** Numbers: what the proofs need of the comparison *)

Lemma SFcompare_antisym (x y : spec_float) :
  SFcompare y x = option_map CompOpp (SFcompare x y).
Proof.
  destruct x as [[]|[]| |[] mx ex], y as [[]|[]| |[] my ey];
    simpl; try reflexivity;
    rewrite (Z.compare_antisym ex ey);
    destruct (ex ?= ey)%Z; simpl; try reflexivity;
    change (Pos.compare_cont Eq my mx) with (Pos.compare my mx);
    change (Pos.compare_cont Eq mx my) with (Pos.compare mx my);
    rewrite (Pos.compare_antisym mx my);
    destruct (mx ?= my)%positive; reflexivity.
Qed.

(** A number that is at most [y] is not greater than [y]. *)
Lemma leb_not_gt (x y : number) :
  (x <=? y)%float = true -> (x >? y)%float = false.
Proof.
  unfold gt. rewrite FloatAxioms.leb_spec, FloatAxioms.ltb_spec.
  unfold SFleb, SFltb.
  rewrite (SFcompare_antisym (Prim2SF x) (Prim2SF y)).
  destruct (SFcompare (Prim2SF x) (Prim2SF y)) as [[]|]; simpl; congruence.
Qed.

(** Case analysis on every comparison of exponents and of mantissas. *)
Ltac compare_cases :=
  repeat match goal with
         | |- context [Z.compare ?a ?b] =>
             destruct (Z.compare_spec a b); subst
         | H : context [Z.compare ?a ?b] |- _ =>
             destruct (Z.compare_spec a b); subst
         | |- context [Pos.compare_cont Eq ?a ?b] =>
             change (Pos.compare_cont Eq a b) with (Pos.compare a b)
         | H : context [Pos.compare_cont Eq ?a ?b] |- _ =>
             change (Pos.compare_cont Eq a b) with (Pos.compare a b) in H
         | |- context [Pos.compare ?a ?b] =>
             destruct (Pos.compare_spec a b); subst
         | H : context [Pos.compare ?a ?b] |- _ =>
             destruct (Pos.compare_spec a b); subst
         end.

Lemma SFleb_trans (x y z : spec_float) :
  SFleb x y = true -> SFleb y z = true -> SFleb x z = true.
Proof.
  unfold SFleb, SFcompare.
  destruct x as [[]|[]| |[] mx ex], y as [[]|[]| |[] my ey],
           z as [[]|[]| |[] mz ez];
    try reflexivity; try discriminate; try (intros; discriminate);
    intros Hxy Hyz; compare_cases;
    simpl in *; try reflexivity; try discriminate; try lia.
Qed.

(** The order of the numbers is transitive. *)
Lemma leb_trans (x y z : number) :
  (x <=? y)%float = true -> (y <=? z)%float = true -> (x <=? z)%float = true.
Proof. rewrite !FloatAxioms.leb_spec. apply SFleb_trans. Qed.

(** *** Subtraction and the order, from the specification of binary64 *)

Section Rounding.
Local Open Scope Z_scope.

Lemma digits2_pos_bounds (p : positive) :
  2 ^ (Zpos (digits2_pos p) - 1) <= Zpos p < 2 ^ Zpos (digits2_pos p).
Proof.
  induction p as [p IH|p IH|]; simpl digits2_pos.
  - rewrite Pos2Z.inj_succ.
    replace (Z.succ (Zpos (digits2_pos p)) - 1) with (Z.succ (Zpos (digits2_pos p) - 1)) by lia.
    rewrite !Z.pow_succ_r by lia. lia.
  - rewrite Pos2Z.inj_succ.
    replace (Z.succ (Zpos (digits2_pos p)) - 1) with (Z.succ (Zpos (digits2_pos p) - 1)) by lia.
    rewrite !Z.pow_succ_r by lia. lia.
  - simpl. lia.
Qed.

Lemma shr_1_m (mrs : shr_record) :
  0 <= shr_m mrs -> shr_m (shr_1 mrs) = Z.div2 (shr_m mrs).
Proof.
  destruct mrs as [m r s]. simpl.
  destruct m as [|[p|p|]|p]; simpl; try reflexivity; lia.
Qed.

Lemma iter_shr_1_m (n : positive) (mrs : shr_record) :
  0 <= shr_m mrs ->
  shr_m (iter_pos shr_1 n mrs) = Z.shiftr (shr_m mrs) (Zpos n).
Proof.
  revert mrs. induction n as [n IH|n IH|]; intros mrs Hm; simpl iter_pos.
  - assert (0 <= shr_m (shr_1 mrs)) as H1
        by (rewrite shr_1_m by assumption; apply Z.div2_nonneg; assumption).
    assert (0 <= shr_m (iter_pos shr_1 n (shr_1 mrs))) as H2
        by (rewrite IH by assumption; apply Z.shiftr_nonneg; assumption).
    rewrite IH, IH, shr_1_m by assumption.
    rewrite Z.div2_spec, !Z.shiftr_shiftr by lia.
    f_equal. lia.
  - assert (0 <= shr_m (iter_pos shr_1 n mrs)) as H2
        by (rewrite IH by assumption; apply Z.shiftr_nonneg; assumption).
    rewrite IH, IH by assumption.
    rewrite Z.shiftr_shiftr by lia. f_equal. lia.
  - rewrite shr_1_m by assumption. apply Z.div2_spec.
Qed.

Lemma shr_fexp_pos (m : positive) (e : Z) :
  emin64 <= e ->
  exists mrs e',
    shr_fexp prec emax (Zpos m) e loc_Exact = (mrs, e')
    /\ 0 < shr_m mrs /\ emin64 <= e'.
Proof.
  intros He. unfold shr_fexp, shr, Zdigits2.
  pose proof (digits2_pos_bounds m) as [Hlow _].
  destruct (fexp prec emax (Zpos (digits2_pos m) + e) - e) as [|n|n] eqn:Hn.
  - eexists. eexists. split; [reflexivity|]. simpl. split; [lia|assumption].
  - eexists. eexists. split; [reflexivity|].
    rewrite iter_shr_1_m by (simpl; lia). simpl shr_m.
    unfold emin64, fexp, SpecFloat.emin, prec, emax in *.
    split; [|lia].
    rewrite Z.shiftr_div_pow2 by lia.
    apply Z.div_str_pos. split; [apply Z.pow_pos_nonneg; lia|].
    apply Z.le_trans with (2 ^ (Zpos (digits2_pos m) - 1)); [|assumption].
    apply Z.pow_le_mono_r; lia.
  - eexists. eexists. split; [reflexivity|]. simpl. split; [lia|assumption].
Qed.

Lemma round_nearest_even_pos (m : Z) (l : location) :
  0 < m -> 0 < round_nearest_even m l.
Proof.
  intros Hm. destruct l as [|[]]; simpl; try assumption; try lia.
  destruct (Z.even m); lia.
Qed.

(** Rounding a positive mantissa at an exponent that is not below the
    smallest one gives a positive number. *)
Lemma binary_round_aux_pos (m : positive) (e : Z) :
  emin64 <= e ->
  binary_round_aux prec emax false (Zpos m) e loc_Exact = S754_infinity false
  \/ exists m' e',
       binary_round_aux prec emax false (Zpos m) e loc_Exact
       = S754_finite false m' e'.
Proof.
  intros He. unfold binary_round_aux.
  destruct (shr_fexp_pos m e He) as (mrs1 & e1 & -> & Hm1 & He1).
  pose proof (round_nearest_even_pos (shr_m mrs1) (loc_of_shr_record mrs1) Hm1)
    as Hround.
  destruct (round_nearest_even (shr_m mrs1) (loc_of_shr_record mrs1))
    as [|m2|m2]; try lia.
  destruct (shr_fexp_pos m2 e1 He1) as (mrs2 & e2 & -> & Hm2 & He2).
  destruct (shr_m mrs2) as [|m3|m3]; try lia.
  destruct (e2 <=? emax - prec); [right; eauto | left; reflexivity].
Qed.

Lemma shl_align_exponent (m : positive) (e e' : Z) :
  emin64 <= e -> emin64 <= e' -> emin64 <= snd (shl_align m e e').
Proof.
  intros He He'. unfold shl_align. destruct (e' - e); simpl; assumption.
Qed.

Lemma binary_normalize_pos (m : positive) (e : Z) :
  emin64 <= e ->
  binary_normalize prec emax (Zpos m) e false = S754_infinity false
  \/ exists m' e',
       binary_normalize prec emax (Zpos m) e false = S754_finite false m' e'.
Proof.
  intros He. unfold binary_normalize, binary_round.
  pose proof (shl_align_exponent m e
                (fexp prec emax (Zpos (digits2_pos m) + e)) He) as Hs.
  destruct (shl_align m e (fexp prec emax (Zpos (digits2_pos m) + e)))
    as [mz ez].
  apply binary_round_aux_pos. apply Hs.
  unfold emin64, fexp, SpecFloat.emin, prec, emax. lia.
Qed.

(** Rounding with the negative sign never gives a positive number. *)
Lemma binary_round_negative (m : positive) (e : Z) :
  SFltb (S754_zero false) (binary_round prec emax true m e) = false.
Proof.
  unfold binary_round, binary_round_aux.
  destruct (shl_align m e _) as [mz ez].
  destruct (shr_fexp prec emax (Zpos mz) ez loc_Exact) as [mrs1 e1].
  destruct (shr_fexp prec emax _ e1 loc_Exact) as [mrs2 e2].
  destruct (shr_m mrs2); try reflexivity.
  destruct (e2 <=? emax - prec); reflexivity.
Qed.

Lemma shl_align_mantissa (m : positive) (e ez : Z) :
  ez <= e -> Zpos (fst (shl_align m e ez)) = Zpos m * 2 ^ (e - ez).
Proof.
  intros Hle. unfold shl_align.
  destruct (ez - e) as [|d|d] eqn:Hd; simpl fst.
  - replace (e - ez) with 0 by lia. simpl. lia.
  - lia.
  - replace (e - ez) with (Zpos d) by lia.
    change (Pos.iter xO m d) with (Zpower.shift_pos d m).
    rewrite Zpower.shift_pos_correct.
    change (Z.pow_pos 2 d) with (2 ^ Zpos d). lia.
Qed.

(** What being a valid mantissa and exponent gives. *)
Lemma bounded_canonical (m : positive) (e : Z) :
  bounded prec emax m e = true ->
  emin64 <= e
  /\ Zpos (digits2_pos m) <= prec
  /\ (emin64 < e -> Zpos (digits2_pos m) = prec).
Proof.
  unfold bounded, canonical_mantissa, emin64, fexp, SpecFloat.emin, prec, emax.
  intros H. apply andb_prop in H. destruct H as [H _].
  apply Z.eqb_eq in H. lia.
Qed.

(** Of two valid positive numbers, the smaller has the smaller mantissa
    once both are written with the smaller of the two exponents. *)
Lemma SFltb_aligned (mx my : positive) (ex ey : Z) :
  bounded prec emax mx ex = true ->
  bounded prec emax my ey = true ->
  SFltb (S754_finite false mx ex) (S754_finite false my ey) = true ->
  Zpos (fst (shl_align mx ex (Z.min ex ey)))
  < Zpos (fst (shl_align my ey (Z.min ex ey))).
Proof.
  intros Hx Hy Hlt.
  rewrite (shl_align_mantissa mx ex) by apply Z.le_min_l.
  rewrite (shl_align_mantissa my ey) by apply Z.le_min_r.
  apply bounded_canonical in Hx. destruct Hx as (Hex & Hdx & _).
  apply bounded_canonical in Hy. destruct Hy as (Hey & _ & Hdy).
  unfold SFltb, SFcompare in Hlt.
  destruct (ex ?= ey) eqn:Hcmp; try discriminate.
  - apply Z.compare_eq in Hcmp. subst ey.
    rewrite Z.min_id, Z.sub_diag. simpl.
    change (Pos.compare_cont Eq mx my) with (Pos.compare mx my) in Hlt.
    destruct (mx ?= my)%positive eqn:Hm; try discriminate.
    change (mx < my)%positive in Hm. lia.
  - rewrite Z.compare_lt_iff in Hcmp.
    rewrite Z.min_l by lia. rewrite Z.sub_diag, Z.mul_1_r.
    pose proof (digits2_pos_bounds mx) as [_ Hmx].
    pose proof (digits2_pos_bounds my) as [Hmy _].
    rewrite Hdy in Hmy by lia.
    assert (2 ^ Zpos (digits2_pos mx) <= 2 ^ prec) as Hpx
      by (apply Z.pow_le_mono_r; lia).
    assert (2 ^ 1 <= 2 ^ (ey - ex)) as Hpe
      by (apply Z.pow_le_mono_r; lia).
    unfold prec in *. change (2 ^ 53) with (2 * 2 ^ (53 - 1)) in Hpx.
    change (2 ^ 1) with 2 in Hpe.
    nia.
Qed.

End Rounding.

Lemma Prim2SF_bounded (x : float) (s : bool) (m : positive) (e : Z) :
  Prim2SF x = S754_finite s m e -> bounded prec emax m e = true.
Proof.
  intros H. pose proof (Prim2SF_valid x) as Hv. rewrite H in Hv. exact Hv.
Qed.

(** If [x < y] then [y - x > 0]. *)
Lemma ltb_sub_pos (x y : float) :
  positiveOrNaN x -> positiveOrNaN y ->
  (x <? y)%float = true -> (0 <? y - x)%float = true.
Proof.
  intros Hx Hy. rewrite !FloatAxioms.ltb_spec, FloatAxioms.sub_spec.
  change (Prim2SF 0) with (S754_zero false).
  destruct Hx as [Hx|[Hx|(mx & ex & Hx)]], Hy as [Hy|[Hy|(my & ey & Hy)]];
    rewrite Hx, Hy; try discriminate; try reflexivity.
  intros Hlt.
  pose proof (SFltb_aligned mx my ex ey (Prim2SF_bounded _ _ _ _ Hx)
                (Prim2SF_bounded _ _ _ _ Hy) Hlt) as Haligned.
  unfold SF64sub, SFsub. cbv zeta. unfold cond_Zopp.
  rewrite (Z.min_comm ey ex).
  destruct (Zpos (fst (shl_align my ey (Z.min ex ey)))
            - Zpos (fst (shl_align mx ex (Z.min ex ey))))%Z
    as [|d|d] eqn:Hd; try lia.
  assert (emin64 <= Z.min ex ey)%Z as Hmin.
  { apply Prim2SF_bounded, bounded_canonical in Hx.
    apply Prim2SF_bounded, bounded_canonical in Hy. lia. }
  destruct (binary_normalize_pos d (Z.min ex ey) Hmin) as [->|(m' & e' & ->)];
    reflexivity.
Qed.

(** If [y - x > 0] then [y] is not smaller than [x]. *)
Lemma sub_pos_not_ltb (x y : float) :
  positiveOrNaN x -> positiveOrNaN y ->
  (0 <? y - x)%float = true -> (y <? x)%float = false.
Proof.
  intros Hx Hy. rewrite !FloatAxioms.ltb_spec, FloatAxioms.sub_spec.
  change (Prim2SF 0) with (S754_zero false).
  destruct Hx as [Hx|[Hx|(mx & ex & Hx)]], Hy as [Hy|[Hy|(my & ey & Hy)]];
    rewrite Hx, Hy; try discriminate; try reflexivity.
  intros Hpos.
  destruct (SFltb (S754_finite false my ey) (S754_finite false mx ex))
    eqn:Hlt; [exfalso|reflexivity].
  pose proof (SFltb_aligned my mx ey ex (Prim2SF_bounded _ _ _ _ Hy)
                (Prim2SF_bounded _ _ _ _ Hx) Hlt) as Haligned.
  unfold SF64sub, SFsub in Hpos. cbv zeta in Hpos. unfold cond_Zopp in Hpos.
  destruct (Zpos (fst (shl_align my ey (Z.min ey ex)))
            - Zpos (fst (shl_align mx ex (Z.min ey ex))))%Z
    as [|d|d] eqn:Hd; try lia.
  unfold binary_normalize in Hpos.
  rewrite binary_round_negative in Hpos. discriminate.
Qed.

Lemma is_nan_Prim2SF (x : float) :
  is_nan x = true <-> Prim2SF x = S754_nan.
Proof.
  unfold Prim2SF. destruct (is_nan x).
  - split; reflexivity.
  - split; [discriminate|].
    destruct (is_zero x); [discriminate|].
    destruct (is_infinity x); [discriminate|].
    destruct (Z.frexp x) as [r exp].
    destruct (shr_fexp prec emax _ _ loc_Exact) as [mrs e'].
    destruct (shr_m mrs); discriminate.
Qed.

(** There is one NaN. *)
Lemma is_nan_eq (x : float) : is_nan x = true -> x = nan.
Proof.
  intros H. apply Prim2SF_inj. apply is_nan_Prim2SF in H. rewrite H.
  reflexivity.
Qed.

(** [Math.max(0.6, z)] is NaN, plus infinity, or positive and finite. *)
Lemma Math_max_positiveOrNaN (z : float) :
  positiveOrNaN (Math_max 0.6%float z).
Proof.
  unfold Math_max.
  destruct (is_nan 0.6%float || is_nan z) eqn:Hnan.
  { left. reflexivity. }
  destruct (0.6 <? z)%float eqn:Hlt.
  - rewrite FloatAxioms.ltb_spec in Hlt.
    change (Prim2SF 0.6%float) with (S754_finite false 5404319552844595 (-53)) in Hlt.
    unfold positiveOrNaN.
    destruct (Prim2SF z) as [s|[]| |[] m e]; try discriminate; eauto.
  - right. right.
    destruct (z <? 0.6)%float; [|simpl]; do 2 eexists; reflexivity.
Qed.

Lemma Math_max_not_nan (x z : float) :
  is_nan x = false -> is_nan z = false -> is_nan (Math_max x z) = false.
Proof.
  intros Hx Hz. unfold Math_max. rewrite Hx, Hz. simpl.
  destruct (x <? z)%float; [assumption|].
  destruct (z <? x)%float; [assumption|].
  destruct (get_sign x); assumption.
Qed.

Section RoundingNaN.
Local Open Scope Z_scope.

Lemma shr_fexp_nonneg (m e : Z) :
  0 <= m -> 0 <= shr_m (fst (shr_fexp prec emax m e loc_Exact)).
Proof.
  intros Hm. unfold shr_fexp, shr.
  destruct (fexp prec emax (Zdigits2 m + e) - e) as [|n|n]; simpl fst;
    try (simpl; assumption).
  rewrite iter_shr_1_m by (simpl; assumption).
  apply Z.shiftr_nonneg. simpl. assumption.
Qed.

Lemma round_nearest_even_nonneg (m : Z) (l : location) :
  0 <= m -> 0 <= round_nearest_even m l.
Proof.
  intros Hm. destruct l as [|[]]; simpl; try assumption; try lia.
  destruct (Z.even m); lia.
Qed.

(** Rounding a product of mantissas does not give NaN. *)
Lemma binary_round_aux_not_nan (s : bool) (m : positive) (e : Z) :
  binary_round_aux prec emax s (Zpos m) e loc_Exact <> S754_nan.
Proof.
  unfold binary_round_aux.
  pose proof (shr_fexp_nonneg (Zpos m) e ltac:(lia)) as H1.
  destruct (shr_fexp prec emax (Zpos m) e loc_Exact) as [mrs1 e1].
  simpl fst in H1.
  pose proof (round_nearest_even_nonneg _ (loc_of_shr_record mrs1) H1) as Hr.
  pose proof (shr_fexp_nonneg _ e1 Hr) as H2.
  destruct (shr_fexp prec emax _ e1 loc_Exact) as [mrs2 e2].
  simpl fst in H2.
  destruct (shr_m mrs2); try discriminate; try lia.
  destruct (e2 <=? emax - prec); discriminate.
Qed.

End RoundingNaN.

(** The product of a number and of a positive finite number is a number. *)
Lemma mul_not_nan (c b : float) :
  is_nan c = false ->
  (exists m e, Prim2SF b = S754_finite false m e) ->
  is_nan (c * b)%float = false.
Proof.
  intros Hc (m & e & Hb).
  destruct (is_nan (c * b)%float) eqn:Hnan; [exfalso|reflexivity].
  apply is_nan_Prim2SF in Hnan. rewrite FloatAxioms.mul_spec, Hb in Hnan.
  assert (Prim2SF c <> S754_nan) as Hc'
    by (intros H; apply is_nan_Prim2SF in H; congruence).
  destruct (Prim2SF c) as [s|s| |s mc ec]; try discriminate; try congruence.
  unfold SF64mul, SFmul in Hnan.
  apply binary_round_aux_not_nan in Hnan. exact Hnan.
Qed.

(** Two numbers are ordered one way or the other. *)
Lemma not_ltb_leb (a b : float) :
  is_nan a = false -> is_nan b = false ->
  (a <? b)%float = false -> (b <=? a)%float = true.
Proof.
  intros Ha Hb.
  assert (Prim2SF a <> S754_nan) as Ha'
    by (intros H; apply is_nan_Prim2SF in H; congruence).
  assert (Prim2SF b <> S754_nan) as Hb'
    by (intros H; apply is_nan_Prim2SF in H; congruence).
  rewrite FloatAxioms.ltb_spec, FloatAxioms.leb_spec. unfold SFltb, SFleb.
  rewrite (SFcompare_antisym (Prim2SF a) (Prim2SF b)).
  assert (SFcompare (Prim2SF a) (Prim2SF b) <> None) as Hsome.
  { destruct (Prim2SF a) as [| | |], (Prim2SF b) as [| | |];
      simpl; congruence. }
  destruct (SFcompare (Prim2SF a) (Prim2SF b)) as [[]|];
    simpl; congruence.
Qed.

(* ----------------------------------------------------------------- *)
(** ** Arrays *)

Section SortFacts.
Context {A : Type} (compare : A -> A -> number).

Lemma insert_Permutation (a : A) (l : list A) :
  Permutation (insert compare a l) (a :: l).
Proof.
  induction l as [|b l IH]; simpl.
  - apply Permutation_refl.
  - destruct (gt (compare a b) 0%float).
    + apply perm_trans with (b :: a :: l).
      * apply perm_skip. exact IH.
      * apply perm_swap.
    + apply Permutation_refl.
Qed.

(** Sorting rearranges: nothing is added, dropped or changed. *)
Lemma sort_Permutation (l : list A) : Permutation (sort compare l) l.
Proof.
  induction l as [|a l IH]; simpl.
  - apply perm_nil.
  - apply perm_trans with (a :: sort compare l).
    + apply insert_Permutation.
    + apply perm_skip. exact IH.
Qed.

Lemma sort_length (l : list A) : List.length (sort compare l) = List.length l.
Proof. apply Permutation_length, sort_Permutation. Qed.

Lemma sort_In (l : list A) (a : A) : In a (sort compare l) <-> In a l.
Proof.
  split; apply Permutation_in;
    [apply sort_Permutation | apply Permutation_sym, sort_Permutation].
Qed.

End SortFacts.

Section SortedSort.
Context {A : Type} (compare : A -> A -> number).
Variable inRange : A -> Prop.
Variable ordered : A -> A -> Prop.
Hypothesis after_ordered : forall a b,
  inRange a -> inRange b -> gt (compare a b) 0%float = true -> ordered b a.
Hypothesis before_ordered : forall a b,
  inRange a -> inRange b -> gt (compare a b) 0%float = false -> ordered a b.

Lemma insert_HdRel (a b : A) (l : list A) :
  inRange a -> inRange b -> Forall inRange l ->
  ordered b a -> HdRel ordered b l -> HdRel ordered b (insert compare a l).
Proof.
  intros Ha Hb Hl Hba Hhd. destruct l as [|c l]; simpl.
  - constructor. exact Hba.
  - destruct (gt (compare a c) 0%float).
    + inversion Hhd; subst. constructor. assumption.
    + constructor. exact Hba.
Qed.

Lemma insert_Sorted (a : A) (l : list A) :
  inRange a -> Forall inRange l ->
  Sorted ordered l -> Sorted ordered (insert compare a l).
Proof.
  intros Ha Hl Hsorted. induction l as [|b l IH]; simpl.
  - repeat constructor.
  - inversion Hl as [|? ? Hb Hl']; subst.
    inversion Hsorted as [|? ? Hsorted' Hhd]; subst.
    destruct (gt (compare a b) 0%float) eqn:Hcmp.
    + constructor; [apply IH; assumption|].
      apply insert_HdRel; try assumption.
      apply after_ordered; assumption.
    + constructor; [assumption|].
      constructor. apply before_ordered; assumption.
Qed.

(** The sort puts its elements in order, when the comparison function
    agrees with the order on them. *)
Lemma sort_Sorted (l : list A) :
  Forall inRange l -> Sorted ordered (sort compare l).
Proof.
  intros Hl. induction l as [|a l IH]; simpl.
  - constructor.
  - inversion Hl as [|? ? Ha Hl']; subst.
    apply insert_Sorted; [assumption| |apply IH; assumption].
    apply Forall_forall. intros b Hb. apply sort_In in Hb.
    rewrite Forall_forall in Hl'. apply Hl'. exact Hb.
Qed.

End SortedSort.

Lemma In_mapi_from {A B : Type} (f : A -> nat -> B) (l : list A)
      (start : nat) (b : B) :
  In b (mapi_from f start l)
  <-> exists index a, nth_error l index = Some a /\ b = f a (start + index).
Proof.
  revert start. induction l as [|a0 l IH]; intros start; simpl.
  - split; [intros [] | intros [[|index] [a [H _]]]; discriminate].
  - rewrite IH. split.
    + intros [<-|[index [a [Hnth ->]]]].
      * exists 0, a0. rewrite Nat.add_0_r. auto.
      * exists (S index), a. rewrite Nat.add_succ_r. auto.
    + intros [[|index] [a [Hnth ->]]]; simpl in Hnth.
      * left. injection Hnth as <-. rewrite Nat.add_0_r. reflexivity.
      * right. exists index, a. rewrite Nat.add_succ_r. auto.
Qed.

(** [array.map] with the index: the images of the elements, each with its
    own index. *)
Lemma In_mapi {A B : Type} (f : A -> nat -> B) (l : list A) (b : B) :
  In b (mapi f l)
  <-> exists index a, nth_error l index = Some a /\ b = f a index.
Proof. unfold mapi. rewrite In_mapi_from. reflexivity. Qed.

(* ----------------------------------------------------------------- *)
(** ** The runs of analyzeText *)

(** When both models answer, the zero-shot revision reports the five
    progress values and returns the matches of the top label and score. *)
Lemma ZeroShot_run classifier sentimentAnalyzer text cls sentiment :
  classifier text ZeroShot.pollutionLabels = Returned cls ->
  sentimentAnalyzer text = Returned sentiment ->
  ZeroShot.analyzeText (Returned classifier) (Returned sentimentAnalyzer) text
  = (textProgress,
     Returned (policyMatches (ZeroShot.topPollutionType cls)
                             (ZeroShot.confidence cls))).
Proof.
  intros Hcls Hsentiment. unfold ZeroShot.analyzeText.
  simpl. rewrite Hcls. simpl. rewrite Hsentiment. reflexivity.
Qed.

(** When the model answers, the keyword revision reports the five progress
    values and returns the matches of the detected type and confidence. *)
Lemma Keyword_run toLowerCase classifier text sentiment :
  classifier text = Returned sentiment ->
  Keyword.analyzeText toLowerCase (Returned classifier) text
  = (textProgress,
     Returned (policyMatches (Keyword.detectedType toLowerCase text)
                             (Keyword.confidence toLowerCase text))).
Proof.
  intros Hsentiment. unfold Keyword.analyzeText.
  unfold Keyword.detectedType, Keyword.confidence.
  simpl. rewrite Hsentiment. simpl.
  destruct (Keyword.detect toLowerCase text) as [detectedType confidence].
  reflexivity.
Qed.

(** The documents of the matches: the rows of the table, each with its
    relevance score replaced. *)
Lemma policyMatches_documents topPollutionType confidence :
  Permutation
    (map PolicyMatch.document (policyMatches topPollutionType confidence))
    (map (fun policy =>
            withRelevanceScore policy
              (Math_max 0.6%float
                 (confidence * PolicyDocument.relevanceScore policy)%float))
         policyDatabase).
Proof.
  unfold policyMatches.
  eapply perm_trans.
  - apply Permutation_map, sort_Permutation.
  - apply Permutation_refl.
Qed.

Lemma policyMatches_onePerPolicy topPollutionType confidence :
  onePerPolicy (policyMatches topPollutionType confidence).
Proof.
  split.
  - unfold policyMatches. rewrite sort_length. reflexivity.
  - eexists. apply policyMatches_documents.
Qed.

(** Every match is the image of a row of the table, with the index of
    that row. *)
Lemma policyMatches_In topPollutionType confidence m :
  In m (policyMatches topPollutionType confidence)
  <-> exists index policy,
        nth_error policyDatabase index = Some policy
        /\ m = matchPolicy topPollutionType confidence policy index.
Proof. unfold policyMatches. rewrite sort_In. apply In_mapi. Qed.

(** The rows of the table have distinct ids. *)
Lemma policyDatabase_id_injective index index' policy policy' :
  nth_error policyDatabase index = Some policy ->
  nth_error policyDatabase index' = Some policy' ->
  PolicyDocument.id policy = PolicyDocument.id policy' ->
  index = index'.
Proof.
  intros H H' Hid.
  destruct index as [|[|[|[|index]]]]; simpl in H; try discriminate;
    destruct index' as [|[|[|[|index']]]]; simpl in H'; try discriminate;
    try reflexivity;
    injection H as <-; injection H' as <-; vm_compute in Hid; discriminate.
Qed.

Lemma policyMatches_complianceByRow topPollutionType confidence :
  complianceByRow confidence (policyMatches topPollutionType confidence).
Proof.
  intros m Hm.
  apply policyMatches_In in Hm. destruct Hm as [index' [policy' [Hrow ->]]].
  split.
  - intros Hle. unfold matchPolicy. simpl.
    rewrite (leb_not_gt _ _ Hle). reflexivity.
  - intros Hgt index policy Hnth Hid. simpl in Hid.
    assert (index' = index) as ->
      by (eapply policyDatabase_id_injective; eassumption).
    unfold matchPolicy. simpl. rewrite Hgt.
    destruct index as [|[|index]]; reflexivity.
Qed.

Lemma policyMatches_everyRowJudged topPollutionType confidence :
  everyRowJudged confidence (policyMatches topPollutionType confidence).
Proof.
  split.
  - unfold policyMatches. rewrite sort_length. reflexivity.
  - intros index policy Hrow.
    exists (matchPolicy topPollutionType confidence policy index).
    split; [apply policyMatches_In; eauto|].
    split; [reflexivity|]. split.
    + intros Hle. unfold matchPolicy. simpl.
      rewrite (leb_not_gt _ _ Hle). reflexivity.
    + intros Hgt. unfold matchPolicy. simpl. rewrite Hgt.
      destruct index as [|[|index]]; reflexivity.
Qed.

Lemma policyMatches_sameButRelevance topPollutionType confidence m :
  In m (policyMatches topPollutionType confidence) ->
  exists policy,
    In policy policyDatabase
    /\ sameButRelevance (PolicyMatch.document m) policy.
Proof.
  intros Hm.
  apply policyMatches_In in Hm. destruct Hm as [index [policy [Hrow ->]]].
  exists policy. split.
  - eapply nth_error_In. exact Hrow.
  - unfold sameButRelevance. simpl. repeat split.
Qed.

(** The step that opens the proofs about the returned matches: the run
    returns [policyMatches] of its pollution type and confidence. *)
Ltac returns_policyMatches H :=
  rewrite H; eexists; split; [reflexivity|].

(* ----------------------------------------------------------------- *)
(** ** The matches and the policy table *)

(** C2. For every text and every answer of the models, analyzeText returns
    exactly one match per row of the hardcoded table of three policies
    (MARPOL Annex V, EU Marine Strategy Framework Directive, Clean Water
    Act): three matches, whose documents are the rows of that table and
    nothing else. *)
Theorem analyzeText_one_match_per_policy :
  map PolicyDocument.title policyDatabase
  = map lit ["MARPOL Convention - Annex V (Garbage)";
             "EU Marine Strategy Framework Directive";
             "Clean Water Act - Marine Protection"]%string
  /\ (forall classifier sentimentAnalyzer text cls sentiment,
        classifier text ZeroShot.pollutionLabels = Returned cls ->
        sentimentAnalyzer text = Returned sentiment ->
        exists matches,
          settled (ZeroShot.analyzeText (Returned classifier)
                     (Returned sentimentAnalyzer) text) = Returned matches
          /\ onePerPolicy matches)
  /\ (forall toLowerCase classifier text sentiment,
        classifier text = Returned sentiment ->
        exists matches,
          settled (Keyword.analyzeText toLowerCase (Returned classifier) text)
          = Returned matches
          /\ onePerPolicy matches).
Proof.
  split; [reflexivity|]. split.
  - intros classifier sentimentAnalyzer text cls sentiment Hcls Hsentiment.
    returns_policyMatches
      (ZeroShot_run classifier sentimentAnalyzer text cls sentiment
         Hcls Hsentiment). apply policyMatches_onePerPolicy.
  - intros toLowerCase classifier text sentiment Hsentiment.
    returns_policyMatches
      (Keyword_run toLowerCase classifier text sentiment Hsentiment). apply policyMatches_onePerPolicy.
Qed.

(** C4. For every input, the compliance status of each returned match is
    unclear whenever the confidence is at most 0.8; when the confidence
    exceeds 0.8 it is violation for the first policy of the table, unclear
    for the second and compliant for the third: it depends on the text
    through the confidence only.  Every policy of the table has its match
    among the three that are returned, so that each of these statuses is
    indeed given. *)
Theorem analyzeText_compliance_by_confidence_and_row :
  (forall classifier sentimentAnalyzer text cls sentiment,
      classifier text ZeroShot.pollutionLabels = Returned cls ->
      sentimentAnalyzer text = Returned sentiment ->
      exists matches,
        settled (ZeroShot.analyzeText (Returned classifier)
                   (Returned sentimentAnalyzer) text) = Returned matches
        /\ complianceByRow (ZeroShot.confidence cls) matches
        /\ everyRowJudged (ZeroShot.confidence cls) matches)
  /\ (forall toLowerCase classifier text sentiment,
        classifier text = Returned sentiment ->
        exists matches,
          settled (Keyword.analyzeText toLowerCase (Returned classifier) text)
          = Returned matches
          /\ complianceByRow (Keyword.confidence toLowerCase text) matches
          /\ everyRowJudged (Keyword.confidence toLowerCase text) matches).
Proof.
  split.
  - intros classifier sentimentAnalyzer text cls sentiment Hcls Hsentiment.
    returns_policyMatches
      (ZeroShot_run classifier sentimentAnalyzer text cls sentiment
         Hcls Hsentiment).
    split; [apply policyMatches_complianceByRow
           | apply policyMatches_everyRowJudged].
  - intros toLowerCase classifier text sentiment Hsentiment.
    returns_policyMatches
      (Keyword_run toLowerCase classifier text sentiment Hsentiment).
    split; [apply policyMatches_complianceByRow
           | apply policyMatches_everyRowJudged].
Qed.

(** C10. For every input and every match that analyzeText returns, the
    fields of the document other than relevanceScore (id, title, type,
    jurisdiction, summary, keyEntities, lastUpdated, status) are those of
    a row of the hardcoded table, the row with the same id. *)
Theorem analyzeText_keeps_other_document_fields :
  (forall classifier sentimentAnalyzer text cls sentiment,
      classifier text ZeroShot.pollutionLabels = Returned cls ->
      sentimentAnalyzer text = Returned sentiment ->
      exists matches,
        settled (ZeroShot.analyzeText (Returned classifier)
                   (Returned sentimentAnalyzer) text) = Returned matches
        /\ forall m, In m matches ->
             exists policy,
               In policy policyDatabase
               /\ sameButRelevance (PolicyMatch.document m) policy)
  /\ (forall toLowerCase classifier text sentiment,
        classifier text = Returned sentiment ->
        exists matches,
          settled (Keyword.analyzeText toLowerCase (Returned classifier) text)
          = Returned matches
          /\ forall m, In m matches ->
               exists policy,
                 In policy policyDatabase
                 /\ sameButRelevance (PolicyMatch.document m) policy).
Proof.
  split.
  - intros classifier sentimentAnalyzer text cls sentiment Hcls Hsentiment.
    returns_policyMatches
      (ZeroShot_run classifier sentimentAnalyzer text cls sentiment
         Hcls Hsentiment).
    intros m. apply policyMatches_sameButRelevance.
  - intros toLowerCase classifier text sentiment Hsentiment.
    returns_policyMatches
      (Keyword_run toLowerCase classifier text sentiment Hsentiment).
    intros m. apply policyMatches_sameButRelevance.
Qed.

(* ----------------------------------------------------------------- *)
(** ** The sentiment analysis *)

(** C5, as the claim states it, refuted: no two runs on the same text whose
    classifications agree return different matches, however their sentiment
    results differ.  (In the keyword revision the only answer of a model is
    the one named [sentiment].) *)
Lemma analyzeText_matches_never_differ_by_sentiment :
  ~ (exists classifier sentimentAnalyzer1 sentimentAnalyzer2 text cls
            sentiment1 sentiment2 matches1 matches2,
        classifier text ZeroShot.pollutionLabels = Returned cls
        /\ sentimentAnalyzer1 text = Returned sentiment1
        /\ sentimentAnalyzer2 text = Returned sentiment2
        /\ sentiment1 <> sentiment2
        /\ settled (ZeroShot.analyzeText (Returned classifier)
                      (Returned sentimentAnalyzer1) text) = Returned matches1
        /\ settled (ZeroShot.analyzeText (Returned classifier)
                      (Returned sentimentAnalyzer2) text) = Returned matches2
        /\ matches1 <> matches2)
  /\ ~ (exists toLowerCase classifier1 classifier2 text
               sentiment1 sentiment2 matches1 matches2,
          classifier1 text = Returned sentiment1
          /\ classifier2 text = Returned sentiment2
          /\ sentiment1 <> sentiment2
          /\ settled (Keyword.analyzeText toLowerCase (Returned classifier1)
                        text) = Returned matches1
          /\ settled (Keyword.analyzeText toLowerCase (Returned classifier2)
                        text) = Returned matches2
          /\ matches1 <> matches2).
Proof.
  split.
  - intros (classifier & sa1 & sa2 & text & cls & s1 & s2 & m1 & m2
            & Hcls & H1 & H2 & _ & R1 & R2 & Hdiff).
    rewrite (ZeroShot_run _ _ _ _ _ Hcls H1) in R1.
    rewrite (ZeroShot_run _ _ _ _ _ Hcls H2) in R2.
    simpl in R1, R2. congruence.
  - intros (toLowerCase & c1 & c2 & text & s1 & s2 & m1 & m2
            & H1 & H2 & _ & R1 & R2 & Hdiff).
    rewrite (Keyword_run _ _ _ _ H1) in R1.
    rewrite (Keyword_run _ _ _ _ H2) in R2.
    simpl in R1, R2. congruence.
Qed.

(** C5, amended. The matches that analyzeText returns do not depend on the
    result of the sentiment analysis: two runs on the same text whose
    classifications agree report the same progress and return the same
    matches, whatever their sentiment results are. *)
Theorem analyzeText_ignores_sentiment :
  (forall classifier sentimentAnalyzer1 sentimentAnalyzer2 text cls
          sentiment1 sentiment2,
      classifier text ZeroShot.pollutionLabels = Returned cls ->
      sentimentAnalyzer1 text = Returned sentiment1 ->
      sentimentAnalyzer2 text = Returned sentiment2 ->
      ZeroShot.analyzeText (Returned classifier)
        (Returned sentimentAnalyzer1) text
      = ZeroShot.analyzeText (Returned classifier)
          (Returned sentimentAnalyzer2) text)
  /\ (forall toLowerCase classifier1 classifier2 text sentiment1 sentiment2,
        classifier1 text = Returned sentiment1 ->
        classifier2 text = Returned sentiment2 ->
        Keyword.analyzeText toLowerCase (Returned classifier1) text
        = Keyword.analyzeText toLowerCase (Returned classifier2) text).
Proof.
  split.
  - intros classifier sa1 sa2 text cls s1 s2 Hcls H1 H2.
    rewrite (ZeroShot_run _ _ _ _ _ Hcls H1).
    rewrite (ZeroShot_run _ _ _ _ _ Hcls H2). reflexivity.
  - intros toLowerCase c1 c2 text s1 s2 H1 H2.
    rewrite (Keyword_run _ _ _ _ H1).
    rewrite (Keyword_run _ _ _ _ H2). reflexivity.
Qed.

(* ----------------------------------------------------------------- *)
(** ** The progress reports *)

(** A run that stops at a call that threw: what it reported is an initial
    segment of the sequence, not all of it, and it returns nothing. *)
Ltac stops_early :=
  split;
  [ eexists; reflexivity
  | split; [intros [? ?] | ]; discriminate ].

(** A run whose calls all returned: it reported the whole sequence. *)
Ltac runs_through :=
  split;
  [ exists []; reflexivity
  | split; [reflexivity | intros _; eexists; reflexivity] ].

Lemma textProgress_increasing : strictlyIncreasing textProgress.
Proof. repeat constructor. Qed.

Lemma imageProgress_increasing : strictlyIncreasing imageProgress.
Proof. repeat constructor. Qed.

Lemma initialSegment_increasing (l full : list number) :
  initialSegment l full -> strictlyIncreasing full -> strictlyIncreasing l.
Proof.
  intros [rest ->]. unfold strictlyIncreasing.
  induction l as [|a l IH]; simpl; intros H.
  - constructor.
  - inversion H as [|? ? Htail Hhead]; subst. constructor.
    + apply IH. exact Htail.
    + rewrite Forall_app in Hhead. apply Hhead.
Qed.

(** What a run of the zero-shot analyzeText reports, whatever the models
    do: an initial segment of the five values, all five exactly when the
    run returns. *)
Lemma ZeroShot_progress getTextClassifier getSentimentAnalyzer text :
  let run :=
    ZeroShot.analyzeText getTextClassifier getSentimentAnalyzer text in
  initialSegment (progress run) textProgress
  /\ ((exists matches, settled run = Returned matches)
      <-> progress run = textProgress).
Proof.
  unfold ZeroShot.analyzeText, textProgress.
  destruct getTextClassifier as [classifier|e]; simpl.
  2: stops_early.
  destruct getSentimentAnalyzer as [sentimentAnalyzer|e]; simpl.
  2: stops_early.
  destruct (classifier text ZeroShot.pollutionLabels) as [cls|e]; simpl.
  2: stops_early.
  destruct (sentimentAnalyzer text) as [sentiment|e]; simpl.
  2: stops_early.
  runs_through.
Qed.

Lemma Keyword_progress toLowerCase getTextClassifier text :
  let run := Keyword.analyzeText toLowerCase getTextClassifier text in
  initialSegment (progress run) textProgress
  /\ ((exists matches, settled run = Returned matches)
      <-> progress run = textProgress).
Proof.
  unfold Keyword.analyzeText, textProgress.
  destruct getTextClassifier as [classifier|e]; simpl.
  2: stops_early.
  destruct (classifier text) as [sentiment|e]; simpl.
  2: stops_early.
  destruct (Keyword.detect toLowerCase text) as [detectedType confidence].
  simpl.
  runs_through.
Qed.

Lemma analyzeImage_progress toLowerCase getImageClassifier rng imageUrl :
  let run := analyzeImage toLowerCase getImageClassifier rng imageUrl in
  initialSegment (progress run) imageProgress
  /\ ((exists results, settled run = Returned results)
      <-> progress run = imageProgress).
Proof.
  unfold analyzeImage, imageProgress.
  destruct getImageClassifier as [classifier|e]; simpl.
  2: stops_early.
  destruct (classifier imageUrl) as [predictions|e]; simpl.
  2: stops_early.
  runs_through.
Qed.

(** C8, as the claim states it, refuted: a run of analyzeText whose model
    fails to load reports 20 and nothing more, so its reports do not end
    at 100. *)
Lemma progress_of_failed_run_stops_early :
  progress (Keyword.analyzeText asciiLower
              (Threw (lit "Unable to load text analysis model"))
              (lit "oil spill near the harbour"))
  = [20]%float
  /\ progress (Keyword.analyzeText asciiLower
                 (Threw (lit "Unable to load text analysis model"))
                 (lit "oil spill near the harbour"))
     <> textProgress.
Proof. split; [reflexivity | discriminate]. Qed.

(** C8, amended. During any single run of analyzeText or analyzeImage, the
    progress values passed to onProgress are an initial segment of a fixed
    strictly increasing sequence (20, 40, 60, 80, 100 for analyzeText;
    20, 40, 70, 100 for analyzeImage), the whole sequence, ending at 100,
    exactly when the run returns; so the reported progress never decreases
    within a run. *)
Theorem progress_reports_increase :
  strictlyIncreasing textProgress
  /\ strictlyIncreasing imageProgress
  /\ (forall getTextClassifier getSentimentAnalyzer text,
        let run :=
          ZeroShot.analyzeText getTextClassifier getSentimentAnalyzer text in
        strictlyIncreasing (progress run)
        /\ initialSegment (progress run) textProgress
        /\ ((exists matches, settled run = Returned matches)
            <-> progress run = textProgress))
  /\ (forall toLowerCase getTextClassifier text,
        let run := Keyword.analyzeText toLowerCase getTextClassifier text in
        strictlyIncreasing (progress run)
        /\ initialSegment (progress run) textProgress
        /\ ((exists matches, settled run = Returned matches)
            <-> progress run = textProgress))
  /\ (forall toLowerCase getImageClassifier rng imageUrl,
        let run := analyzeImage toLowerCase getImageClassifier rng imageUrl in
        strictlyIncreasing (progress run)
        /\ initialSegment (progress run) imageProgress
        /\ ((exists results, settled run = Returned results)
            <-> progress run = imageProgress)).
Proof.
  split; [apply textProgress_increasing|].
  split; [apply imageProgress_increasing|].
  split; [|split].
  - intros gc gs text run.
    destruct (ZeroShot_progress gc gs text) as [Hseg Hall].
    split; [|split; assumption].
    eapply initialSegment_increasing;
      [exact Hseg | apply textProgress_increasing].
  - intros toLowerCase gc text run.
    destruct (Keyword_progress toLowerCase gc text) as [Hseg Hall].
    split; [|split; assumption].
    eapply initialSegment_increasing;
      [exact Hseg | apply textProgress_increasing].
  - intros toLowerCase gc rng imageUrl run.
    destruct (analyzeImage_progress toLowerCase gc rng imageUrl)
      as [Hseg Hall].
    split; [|split; assumption].
    eapply initialSegment_increasing;
      [exact Hseg | apply imageProgress_increasing].
Qed.

(* ----------------------------------------------------------------- *)
(** ** analyzeImage *)

Section ImageFacts.
Variable toLowerCase : JSString -> JSString.


(** The callback adds nothing for a prediction that fails the test and one
    result, at the end, for a prediction that passes it. *)
Lemma visit_spec results rng prediction :
  exists added rng',
    visit toLowerCase (results, rng) prediction = (results ++ added, rng')
    /\ Forall2 (resultOf toLowerCase)
               (filter (included toLowerCase) [prediction]) added.
Proof.
  unfold visit. simpl.
  destruct (included toLowerCase prediction).
  - destruct (categorize toLowerCase prediction) as [pollutionType severity]
      eqn:Hcat.
    eexists. eexists. split; [reflexivity|].
    constructor; [|constructor].
    unfold resultOf. rewrite Hcat. simpl. auto.
  - exists [], rng. rewrite app_nil_r. split; [reflexivity | constructor].
Qed.

Lemma fold_visit_spec predictions results rng :
  exists added rng',
    fold_left (visit toLowerCase) predictions (results, rng)
    = (results ++ added, rng')
    /\ Forall2 (resultOf toLowerCase)
               (filter (included toLowerCase) predictions) added.
Proof.
  revert results rng.
  induction predictions as [|prediction predictions IH]; intros results rng.
  - exists [], rng. simpl. rewrite app_nil_r. split; [reflexivity|constructor].
  - destruct (visit_spec results rng prediction)
      as (added1 & rng1 & Hvisit & Hadded1).
    destruct (IH (results ++ added1) rng1) as (added2 & rng2 & Hfold & Hadded2).
    exists (added1 ++ added2), rng2. split.
    + cbn [fold_left]. rewrite Hvisit, Hfold, app_assoc. reflexivity.
    + change (prediction :: predictions) with ([prediction] ++ predictions).
      rewrite filter_app. apply Forall2_app; assumption.
Qed.

(** After the loop, [results] holds one result per prediction that passes
    the test, in the order of the predictions, and nothing else. *)
Lemma forEach_spec predictions rng :
  Forall2 (resultOf toLowerCase)
          (filter (included toLowerCase) predictions)
          (fst (forEach toLowerCase predictions rng)).
Proof.
  unfold forEach.
  destruct (fold_visit_spec predictions [] rng) as (added & rng' & -> & H).
  exact H.
Qed.

Lemma forEach_nil_iff predictions rng :
  fst (forEach toLowerCase predictions rng) = []
  <-> forall prediction,
        In prediction predictions -> included toLowerCase prediction = false.
Proof.
  pose proof (forEach_spec predictions rng) as H.
  split.
  - intros Hnil. rewrite Hnil in H. inversion H as [Hfilter|].
    intros prediction Hin.
    destruct (included toLowerCase prediction) eqn:Hinc; [|reflexivity].
    assert (In prediction (filter (included toLowerCase) predictions))
      as Hf by (apply filter_In; auto).
    rewrite <- Hfilter in Hf. destruct Hf.
  - intros Hnone.
    assert (filter (included toLowerCase) predictions = []) as Hfilter.
    { clear H. induction predictions as [|p predictions IH]; [reflexivity|].
      simpl. rewrite (Hnone p) by (left; reflexivity).
      apply IH. intros q Hq. apply Hnone. right. exact Hq. }
    rewrite Hfilter in H. inversion H. reflexivity.
Qed.


(** When the classifier answers, analyzeImage reports the four progress
    values and returns the first five results, after the fallback. *)
Lemma analyzeImage_run classifier rng imageUrl predictions :
  classifier imageUrl = Returned predictions ->
  analyzeImage toLowerCase (Returned classifier) rng imageUrl
  = (imageProgress, Returned (imageResults toLowerCase predictions rng)).
Proof.
  intros Hpredictions. unfold analyzeImage. simpl.
  rewrite Hpredictions. reflexivity.
Qed.

Lemma fallback_some predictions rng :
  fst (forEach toLowerCase predictions rng) <> [] ->
  fallback predictions (forEach toLowerCase predictions rng)
  = fst (forEach toLowerCase predictions rng).
Proof.
  destruct (forEach toLowerCase predictions rng) as [results rng'].
  simpl. intros H. destruct results; [congruence | reflexivity].
Qed.

Lemma fallback_none topPrediction rest rng :
  fst (forEach toLowerCase (topPrediction :: rest) rng) = [] ->
  exists location,
    fallback (topPrediction :: rest)
             (forEach toLowerCase (topPrediction :: rest) rng)
    = [ {| ImageAnalysisResult.type := lit "Potential " ++ label topPrediction;
           ImageAnalysisResult.confidence := score topPrediction;
           ImageAnalysisResult.location := location;
           ImageAnalysisResult.severity :=
             if (score topPrediction >? 0.7)%float then medium else low |} ].
Proof.
  destruct (forEach toLowerCase (topPrediction :: rest) rng)
    as [results rng'].
  simpl. intros ->. eexists. reflexivity.
Qed.


End ImageFacts.





(** C9. For every list of predictions, analyzeImage returns at most five
    results; and whenever the list is not empty, neither is the result,
    because a generic result built from the first prediction, of severity
    medium if its score exceeds 0.7 and low otherwise, is added when no
    prediction passed the inclusion test (and only then). *)
Theorem analyzeImage_at_most_five_results_with_fallback :
  forall (toLowerCase : JSString -> JSString) (classifier : ImageClassifier)
         (rng : Random) (imageUrl : JSString) (predictions : list Prediction),
    classifier imageUrl = Returned predictions ->
    exists results,
      settled (analyzeImage toLowerCase (Returned classifier) rng imageUrl)
      = Returned results
      /\ List.length results <= 5
      /\ (predictions <> [] -> results <> [])
      /\ (forall topPrediction rest,
            predictions = topPrediction :: rest ->
            (forall prediction,
                In prediction predictions ->
                included toLowerCase prediction = false) ->
            exists location,
              results
              = [ {| ImageAnalysisResult.type :=
                       lit "Potential " ++ label topPrediction;
                     ImageAnalysisResult.confidence := score topPrediction;
                     ImageAnalysisResult.location := location;
                     ImageAnalysisResult.severity :=
                       if (score topPrediction >? 0.7)%float
                       then medium else low |} ])
      /\ ((exists prediction,
              In prediction predictions
              /\ included toLowerCase prediction = true) ->
          results = slice0 5 (fst (forEach toLowerCase predictions rng))).
Proof.
  intros toLowerCase classifier rng imageUrl predictions Hpredictions.
  rewrite (analyzeImage_run _ _ _ _ _ Hpredictions). simpl.
  eexists. split; [reflexivity|]. unfold imageResults, slice0.
  split; [apply firstn_le_length|].
  split; [|split].
  - intros Hsome.
    destruct (fst (forEach toLowerCase predictions rng)) as [|r results]
      eqn:Hloop.
    + destruct predictions as [|topPrediction rest]; [congruence|].
      destruct (fallback_none toLowerCase topPrediction rest rng Hloop)
        as [location ->].
      discriminate.
    + rewrite fallback_some by (rewrite Hloop; discriminate).
      rewrite Hloop. discriminate.
  - intros topPrediction rest -> Hnone.
    apply forEach_nil_iff with (rng := rng) in Hnone.
    destruct (fallback_none toLowerCase topPrediction rest rng Hnone)
      as [location ->].
    exists location. reflexivity.
  - intros [prediction [Hin Hinc]].
    rewrite fallback_some; [reflexivity|].
    intros Hnil. rewrite forEach_nil_iff in Hnil.
    rewrite (Hnil prediction Hin) in Hinc. discriminate.
Qed.

(* ----------------------------------------------------------------- *)
(** ** The pollution detector *)

(** C7. For every uploaded image, simulateAnalysis does not look at the
    image: it sets the progress to 20, 45, 70, 90 and 100, each after a
    timer of 800 ms, and then sets the same three hardcoded results
    (Plastic Debris, 0.94, high; Oil Contamination, 0.87, critical;
    Chemical Waste, 0.76, medium). *)
Theorem simulateAnalysis_is_a_fixed_script :
  forall (s : PollutionDetector.State) (file : PollutionDetector.File),
    PollutionDetector.imageFile s = Some file ->
    fst (PollutionDetector.simulateAnalysis s)
    = [ PollutionDetector.SetIsAnalyzing true;
        PollutionDetector.SetAnalysisProgress 0;
        PollutionDetector.SetTimeout 800;
        PollutionDetector.SetAnalysisProgress 20;
        PollutionDetector.SetTimeout 800;
        PollutionDetector.SetAnalysisProgress 45;
        PollutionDetector.SetTimeout 800;
        PollutionDetector.SetAnalysisProgress 70;
        PollutionDetector.SetTimeout 800;
        PollutionDetector.SetAnalysisProgress 90;
        PollutionDetector.SetTimeout 800;
        PollutionDetector.SetAnalysisProgress 100;
        PollutionDetector.SetResults PollutionDetector.mockResults;
        PollutionDetector.SetIsAnalyzing false;
        PollutionDetector.Toast
          (lit "Analysis Complete")
          (lit "Detected 3 pollution sources with high confidence.") ]%float
    /\ PollutionDetector.results (snd (PollutionDetector.simulateAnalysis s))
       = Some PollutionDetector.mockResults
    /\ PollutionDetector.analysisProgress
         (snd (PollutionDetector.simulateAnalysis s)) = 100%float
    /\ PollutionDetector.isAnalyzing
         (snd (PollutionDetector.simulateAnalysis s)) = false
    /\ map (fun r => (PollutionDetector.DetectionResult.type r,
                      PollutionDetector.DetectionResult.confidence r,
                      PollutionDetector.DetectionResult.severity r))
           PollutionDetector.mockResults
       = [ (lit "Plastic Debris", 0.94, high);
           (lit "Oil Contamination", 0.87, critical);
           (lit "Chemical Waste", 0.76, medium) ]%float.
Proof.
  intros s file Hfile.
  unfold PollutionDetector.simulateAnalysis,
    PollutionDetector.simulateAnalysisEffects.
  rewrite Hfile. repeat split.
Qed.

(* ----------------------------------------------------------------- *)
(** ** The relevance scores and their order *)

Lemma Sorted_weaken_on {A : Type} (P : A -> Prop) (R R' : A -> A -> Prop)
      (l : list A) :
  (forall a b, P a -> P b -> R a b -> R' a b) ->
  Forall P l -> Sorted R l -> Sorted R' l.
Proof.
  intros Himpl HP Hsorted.
  induction Hsorted as [|a l Hsorted IH Hhd]; constructor.
  - apply IH. inversion HP; assumption.
  - inversion HP as [|? ? Ha Hl]; subst.
    destruct Hhd as [|b l Hab]; constructor.
    inversion Hl; subst. apply Himpl; assumption.
Qed.

Lemma StronglySorted_weaken {A : Type} (R R' : A -> A -> Prop) (l : list A) :
  (forall a b, R a b -> R' a b) -> StronglySorted R l -> StronglySorted R' l.
Proof.
  intros Himpl Hsorted.
  induction Hsorted as [|a l Hsorted IH Hall]; constructor.
  - exact IH.
  - eapply Forall_impl; [|exact Hall]. intros b. apply Himpl.
Qed.

Lemma StronglySorted_related {A : Type} (P : A -> Prop) (R : A -> A -> Prop)
      (l : list A) :
  (forall a b, P a -> P b -> R a b) -> Forall P l -> StronglySorted R l.
Proof.
  intros Hrelated HP.
  induction HP as [|a l Ha Hl IH]; constructor.
  - exact IH.
  - eapply Forall_impl; [|exact Hl]. intros b. apply Hrelated. exact Ha.
Qed.

Lemma policyMatches_relevance topPollutionType confidence m :
  In m (policyMatches topPollutionType confidence) ->
  exists policy,
    In policy policyDatabase
    /\ PolicyDocument.id (PolicyMatch.document m) = PolicyDocument.id policy
    /\ relevance m
       = Math_max 0.6%float
           (confidence * PolicyDocument.relevanceScore policy)%float.
Proof.
  intros Hm.
  apply policyMatches_In in Hm. destruct Hm as [index [policy [Hrow ->]]].
  exists policy. split; [eapply nth_error_In; exact Hrow|].
  split; reflexivity.
Qed.

(** The base scores of the table are positive finite numbers. *)
Lemma policyDatabase_scores_finite policy :
  In policy policyDatabase ->
  exists m e,
    Prim2SF (PolicyDocument.relevanceScore policy) = S754_finite false m e.
Proof.
  intros [<-|[<-|[<-|[]]]]; do 2 eexists; vm_compute; reflexivity.
Qed.

(** What the sort gives directly: no match is greater than the match
    before it. *)
Lemma policyMatches_Sorted topPollutionType confidence :
  Sorted (fun a b => (relevance a <? relevance b)%float = false)
         (policyMatches topPollutionType confidence).
Proof.
  unfold policyMatches.
  apply sort_Sorted with (inRange := fun m => positiveOrNaN (relevance m)).
  - intros a b Ha Hb Hgt. unfold gt, byRelevance in Hgt.
    apply sub_pos_not_ltb; assumption.
  - intros a b Ha Hb Hgt. unfold gt, byRelevance in Hgt.
    destruct (relevance a <? relevance b)%float eqn:Hlt; [|reflexivity].
    apply ltb_sub_pos in Hlt; try assumption.
    unfold relevance in Hlt. congruence.
  - apply Forall_forall. intros m Hm.
    apply In_mapi in Hm. destruct Hm as [index [policy [_ ->]]].
    apply Math_max_positiveOrNaN.
Qed.

Lemma policyMatches_nonIncreasing topPollutionType confidence :
  is_nan confidence = false ->
  nonIncreasing (policyMatches topPollutionType confidence).
Proof.
  intros Hc. unfold nonIncreasing.
  apply Sorted_StronglySorted.
  { intros a b c Hab Hbc. eapply leb_trans; eassumption. }
  apply Sorted_weaken_on
    with (P := fun m => is_nan (relevance m) = false)
         (R := fun a b => (relevance a <? relevance b)%float = false).
  - intros a b Ha Hb. apply not_ltb_leb; assumption.
  - apply Forall_forall. intros m Hm.
    apply policyMatches_relevance in Hm.
    destruct Hm as (policy & Hin & _ & ->).
    apply Math_max_not_nan; [reflexivity|].
    apply mul_not_nan; [assumption|].
    apply policyDatabase_scores_finite. exact Hin.
  - apply policyMatches_Sorted.
Qed.

Lemma policyMatches_neverIncreasing topPollutionType confidence :
  neverIncreasing (policyMatches topPollutionType confidence).
Proof.
  unfold neverIncreasing.
  destruct (is_nan confidence) eqn:Hc.
  - (* every relevance is NaN, and NaN is smaller than nothing *)
    apply is_nan_eq in Hc. subst confidence.
    apply StronglySorted_related
      with (P := fun m => relevance m = nan).
    + intros a b -> ->. reflexivity.
    + apply Forall_forall. intros m Hm.
      apply policyMatches_relevance in Hm.
      destruct Hm as (policy & [<-|[<-|[<-|[]]]] & _ & ->); reflexivity.
  - apply StronglySorted_weaken
      with (R := fun a b => (relevance b <=? relevance a)%float = true).
    + intros a b. apply leb_not_gt.
    + apply policyMatches_nonIncreasing. exact Hc.
Qed.

(** The confidence of the keyword revision is one of five numbers. *)
Lemma detectLoop_confidence toLowerCase text entries detected :
  (forall type keywords, In (type, keywords) entries ->
     List.length keywords <= 5) ->
  In (snd detected) [0.5; 0.6; 0.7; 0.8; 0.9]%float ->
  In (snd (Keyword.detectLoop toLowerCase text entries detected))
     [0.5; 0.6; 0.7; 0.8; 0.9]%float.
Proof.
  intros Hfive Hdetected.
  induction entries as [|[type keywords] entries IH]; simpl.
  - exact Hdetected.
  - pose proof (matchCount_le toLowerCase text keywords) as Hle.
    pose proof (Hfive type keywords (or_introl eq_refl)) as Hlen.
    destruct (Keyword.matchCount toLowerCase text keywords) as [|n] eqn:Hn.
    + simpl. apply IH. intros t k Hin. apply (Hfive t k). right. exact Hin.
    + simpl.
      do 5 (destruct n as [|n]; [vm_compute; auto 10|]).
      lia.
Qed.

Lemma Keyword_confidence_values toLowerCase text :
  In (Keyword.confidence toLowerCase text) [0.5; 0.6; 0.7; 0.8; 0.9]%float.
Proof.
  unfold Keyword.confidence, Keyword.detect.
  apply detectLoop_confidence.
  - apply pollutionKeywords_at_most_five.
  - left. reflexivity.
Qed.

Lemma Keyword_confidence_not_nan toLowerCase text :
  is_nan (Keyword.confidence toLowerCase text) = false.
Proof.
  pose proof (Keyword_confidence_values toLowerCase text) as H.
  simpl in H.
  repeat (destruct H as [<-|H]; [reflexivity|]). destruct H.
Qed.

(** In the keyword revision only the confidence 0.9, that of four or five
    matching keywords, exceeds the threshold 0.8 of the compliance status:
    three matching keywords give 0.8 itself. *)
Lemma Keyword_confidence_above_threshold toLowerCase text :
  (Keyword.confidence toLowerCase text >? 0.8)%float = true
  <-> Keyword.confidence toLowerCase text = 0.9%float.
Proof.
  pose proof (Keyword_confidence_values toLowerCase text) as H.
  simpl in H.
  destruct H as [<-|[<-|[<-|[<-|[<-|[]]]]]]; split;
    solve [reflexivity | discriminate
          | intros H; apply (f_equal Prim2SF) in H; vm_compute in H;
            discriminate].
Qed.

(** C3. For every input, each match that analyzeText returns carries the
    relevance score max(0.6, confidence * base score), where the base score
    is the hardcoded score of its policy (0.95, 0.88, 0.82), and the
    returned list is in non-increasing order of the relevance score: no
    match is followed by one of greater relevance, and, the confidence
    being a number, every match is followed by one of smaller or equal
    relevance.  The matches are there: their documents are the three rows
    of the table, each once, with this score put in. *)
Theorem analyzeText_relevance_scores_sorted :
  map PolicyDocument.relevanceScore policyDatabase = [0.95; 0.88; 0.82]%float
  /\ (forall classifier sentimentAnalyzer text cls sentiment,
        classifier text ZeroShot.pollutionLabels = Returned cls ->
        sentimentAnalyzer text = Returned sentiment ->
        exists matches,
          settled (ZeroShot.analyzeText (Returned classifier)
                     (Returned sentimentAnalyzer) text) = Returned matches
          /\ scoredFromTable (ZeroShot.confidence cls) matches
          /\ relevanceFromTable (ZeroShot.confidence cls) matches
          /\ neverIncreasing matches
          /\ (is_nan (ZeroShot.confidence cls) = false ->
              nonIncreasing matches))
  /\ (forall toLowerCase classifier text sentiment,
        classifier text = Returned sentiment ->
        exists matches,
          settled (Keyword.analyzeText toLowerCase (Returned classifier) text)
          = Returned matches
          /\ scoredFromTable (Keyword.confidence toLowerCase text) matches
          /\ relevanceFromTable (Keyword.confidence toLowerCase text) matches
          /\ neverIncreasing matches
          /\ nonIncreasing matches).
Proof.
  split; [reflexivity|]. split.
  - intros classifier sentimentAnalyzer text cls sentiment Hcls Hsentiment.
    returns_policyMatches
      (ZeroShot_run classifier sentimentAnalyzer text cls sentiment
         Hcls Hsentiment).
    split; [apply policyMatches_documents|]. split; [|split].
    + intros m. apply policyMatches_relevance.
    + apply policyMatches_neverIncreasing.
    + apply policyMatches_nonIncreasing.
  - intros toLowerCase classifier text sentiment Hsentiment.
    returns_policyMatches
      (Keyword_run toLowerCase classifier text sentiment Hsentiment).
    split; [apply policyMatches_documents|]. split; [|split].
    + intros m. apply policyMatches_relevance.
    + apply policyMatches_neverIncreasing.
    + apply policyMatches_nonIncreasing, Keyword_confidence_not_nan.
Qed.

(* ================================================================= *)
(** * The properties on the sample inputs *)

(** C1 on the sample text: no keyword of plastic pollution occurs in it,
    four keywords of oil spill do. *)
Lemma keyword_detection_first_category_witness :
  Keyword.detect asciiLower Sample.text = (lit "oil spill", 0.9%float).
Proof.
  destruct (keyword_detection_first_category asciiLower Sample.text)
    as (_ & Hfirst & _).
  rewrite (Hfirst
             [ (lit "plastic pollution",
                map lit ["plastic"; "microplastic"; "bottle"; "bag";
                         "debris"]%string) ]
             (lit "oil spill")
             (map lit ["oil"; "spill"; "petroleum"; "crude"; "leak"]%string)
             (skipn 2 Keyword.pollutionKeywords)).
  - vm_compute. reflexivity.
  - reflexivity.
  - intros type' keywords' keyword [Hentry|[]] Hkeyword.
    injection Hentry as _ <-.
    simpl in Hkeyword.
    repeat (destruct Hkeyword as [<-|Hkeyword];
            [vm_compute; discriminate|]).
    destruct Hkeyword.
  - exists (lit "oil"). split; [left; reflexivity | vm_compute; reflexivity].
Defined.

(** C2 on the sample inputs. *)
Lemma analyzeText_one_match_per_policy_witness :
  (exists matches,
      settled (ZeroShot.analyzeText (Returned Sample.zeroShotClassifier)
                 (Returned Sample.sentimentAnalyzer) Sample.text)
      = Returned matches
      /\ onePerPolicy matches)
  /\ (exists matches,
        settled (Keyword.analyzeText asciiLower
                   (Returned Sample.keywordClassifier) Sample.text)
        = Returned matches
        /\ onePerPolicy matches).
Proof.
  destruct analyzeText_one_match_per_policy as (_ & HzeroShot & Hkeyword).
  split.
  - apply (HzeroShot Sample.zeroShotClassifier Sample.sentimentAnalyzer
             Sample.text Sample.classification Sample.negative);
      reflexivity.
  - apply (Hkeyword asciiLower Sample.keywordClassifier Sample.text
             Sample.negative).
    reflexivity.
Defined.

(** C3 on the sample inputs. *)
Lemma analyzeText_relevance_scores_sorted_witness :
  (exists matches,
      settled (ZeroShot.analyzeText (Returned Sample.zeroShotClassifier)
                 (Returned Sample.sentimentAnalyzer) Sample.text)
      = Returned matches
      /\ scoredFromTable 0.91%float matches
      /\ relevanceFromTable 0.91%float matches
      /\ nonIncreasing matches)
  /\ (exists matches,
        settled (Keyword.analyzeText asciiLower
                   (Returned Sample.keywordClassifier) Sample.text)
        = Returned matches
        /\ scoredFromTable 0.9%float matches
        /\ relevanceFromTable 0.9%float matches
        /\ nonIncreasing matches).
Proof.
  destruct analyzeText_relevance_scores_sorted as (_ & HzeroShot & Hkeyword).
  split.
  - destruct (HzeroShot Sample.zeroShotClassifier Sample.sentimentAnalyzer
                Sample.text Sample.classification Sample.negative
                eq_refl eq_refl)
      as (matches & Hreturned & Hscored & Hrelevance & _ & Hsorted).
    exists matches. split; [exact Hreturned|]. split; [exact Hscored|].
    split; [exact Hrelevance | apply Hsorted; reflexivity].
  - destruct (Hkeyword asciiLower Sample.keywordClassifier Sample.text
                Sample.negative eq_refl)
      as (matches & Hreturned & Hscored & Hrelevance & _ & Hsorted).
    exists matches. split; [exact Hreturned|]. split; [exact Hscored|].
    split; [exact Hrelevance | exact Hsorted].
Defined.

(** C4 on the sample inputs. *)
Lemma analyzeText_compliance_by_confidence_and_row_witness :
  (exists matches,
      settled (ZeroShot.analyzeText (Returned Sample.zeroShotClassifier)
                 (Returned Sample.sentimentAnalyzer) Sample.text)
      = Returned matches
      /\ complianceByRow 0.91%float matches
      /\ everyRowJudged 0.91%float matches)
  /\ (exists matches,
        settled (Keyword.analyzeText asciiLower
                   (Returned Sample.keywordClassifier) Sample.text)
        = Returned matches
        /\ complianceByRow 0.9%float matches
        /\ everyRowJudged 0.9%float matches).
Proof.
  destruct analyzeText_compliance_by_confidence_and_row
    as (HzeroShot & Hkeyword).
  split.
  - apply (HzeroShot Sample.zeroShotClassifier Sample.sentimentAnalyzer
             Sample.text Sample.classification Sample.negative);
      reflexivity.
  - apply (Hkeyword asciiLower Sample.keywordClassifier Sample.text
             Sample.negative).
    reflexivity.
Defined.

(** C5, amended, on the sample inputs: two sentiment results, one run. *)
Lemma analyzeText_ignores_sentiment_witness :
  ZeroShot.analyzeText (Returned Sample.zeroShotClassifier)
    (Returned Sample.sentimentAnalyzer) Sample.text
  = ZeroShot.analyzeText (Returned Sample.zeroShotClassifier)
      (Returned Sample.otherSentimentAnalyzer) Sample.text
  /\ Keyword.analyzeText asciiLower (Returned Sample.keywordClassifier)
       Sample.text
     = Keyword.analyzeText asciiLower (Returned Sample.otherKeywordClassifier)
         Sample.text.
Proof.
  destruct analyzeText_ignores_sentiment as (HzeroShot & Hkeyword).
  split.
  - apply (HzeroShot Sample.zeroShotClassifier Sample.sentimentAnalyzer
             Sample.otherSentimentAnalyzer Sample.text Sample.classification
             Sample.negative Sample.positive);
      reflexivity.
  - apply (Hkeyword asciiLower Sample.keywordClassifier
             Sample.otherKeywordClassifier Sample.text
             Sample.negative Sample.positive);
      reflexivity.
Defined.


(** C7 on the sample state. *)
Lemma simulateAnalysis_is_a_fixed_script_witness :
  PollutionDetector.results
    (snd (PollutionDetector.simulateAnalysis Sample.state))
  = Some PollutionDetector.mockResults
  /\ PollutionDetector.analysisProgress
       (snd (PollutionDetector.simulateAnalysis Sample.state)) = 100%float.
Proof.
  destruct (simulateAnalysis_is_a_fixed_script Sample.state Sample.file
              eq_refl)
    as (_ & Hresults & Hprogress & _).
  split; assumption.
Defined.

(** C9 on the sample predictions of which none passes the test: the
    generic result of the first prediction is returned. *)
Lemma analyzeImage_at_most_five_results_with_fallback_witness :
  exists location,
    settled (analyzeImage asciiLower (Returned Sample.otherImageClassifier)
               Sample.random Sample.imageUrl)
    = Returned
        [ {| ImageAnalysisResult.type := lit "Potential tabby cat";
             ImageAnalysisResult.confidence := 0.2%float;
             ImageAnalysisResult.location := location;
             ImageAnalysisResult.severity := low |} ].
Proof.
  destruct (analyzeImage_at_most_five_results_with_fallback asciiLower
              Sample.otherImageClassifier Sample.random Sample.imageUrl
              [Sample.tabby] eq_refl)
    as (results & Hreturned & _ & _ & Hfallback & _).
  destruct (Hfallback Sample.tabby [] eq_refl) as [location ->].
  - intros prediction [<-|[]]. reflexivity.
  - exists location. exact Hreturned.
Defined.

(** C10 on the sample inputs. *)
Lemma analyzeText_keeps_other_document_fields_witness :
  (exists matches,
      settled (ZeroShot.analyzeText (Returned Sample.zeroShotClassifier)
                 (Returned Sample.sentimentAnalyzer) Sample.text)
      = Returned matches
      /\ forall m, In m matches ->
           exists policy,
             In policy policyDatabase
             /\ sameButRelevance (PolicyMatch.document m) policy)
  /\ (exists matches,
        settled (Keyword.analyzeText asciiLower
                   (Returned Sample.keywordClassifier) Sample.text)
        = Returned matches
        /\ forall m, In m matches ->
             exists policy,
               In policy policyDatabase
               /\ sameButRelevance (PolicyMatch.document m) policy).
Proof.
  destruct analyzeText_keeps_other_document_fields as (HzeroShot & Hkeyword).
  split.
  - apply (HzeroShot Sample.zeroShotClassifier Sample.sentimentAnalyzer
             Sample.text Sample.classification Sample.negative);
      reflexivity.
  - apply (Hkeyword asciiLower Sample.keywordClassifier Sample.text
             Sample.negative).
    reflexivity.
Defined.

(* ================================================================= *)
(** * More properties of the code *)

(* ----------------------------------------------------------------- *)
(** ** Strings *)

Lemma startsWith_iff (s search : JSString) :
  startsWith s search = true <-> exists post, s = search ++ post.
Proof.
  revert s. induction search as [|c search IH]; intros s; simpl.
  - destruct s; split; eauto.
  - destruct s as [|d s].
    + split; [discriminate | intros [post H]; discriminate].
    + simpl. rewrite andb_true_iff, N.eqb_eq, IH. split.
      * intros [-> [post ->]]. exists post. reflexivity.
      * intros [post H]. injection H as -> ->. eauto.
Qed.

(** [s.includes(search)] holds exactly when [search] is a piece of [s]. *)
Lemma includes_iff (s search : JSString) :
  includes s search = true <-> exists pre post, s = pre ++ search ++ post.
Proof.
  induction s as [|d s IH]; simpl.
  - rewrite orb_false_r.
    change (match search with [] => true | _ :: _ => false end)
      with (startsWith [] search).
    rewrite startsWith_iff. split.
    + intros [post H]. exists [], post. exact H.
    + intros [pre [post H]]. destruct pre; [|discriminate]. eauto.
  - rewrite orb_true_iff, IH.
    change (match search with
            | [] => true
            | c :: search' => N.eqb c d && startsWith s search'
            end) with (startsWith (d :: s) search).
    rewrite startsWith_iff. split.
    + intros [[post H]|[pre [post H]]].
      * exists [], post. exact H.
      * exists (d :: pre), post. rewrite H. reflexivity.
    + intros [[|c pre] [post H]].
      * left. exists post. exact H.
      * right. injection H as _ H. eauto.
Qed.

(** A piece of a piece is a piece. *)
Lemma includes_trans (s middle search : JSString) :
  includes s middle = true -> includes middle search = true ->
  includes s search = true.
Proof.
  rewrite !includes_iff.
  intros (pre & post & ->) (pre' & post' & ->).
  exists (pre ++ pre'), (post' ++ post).
  rewrite <- !app_assoc. reflexivity.
Qed.

Lemma strictEquals_iff (a b : JSString) :
  Files.strictEquals a b = true <-> a = b.
Proof.
  revert b. induction a as [|c a IH]; intros [|d b]; simpl;
    try (split; [discriminate | discriminate]).
  - split; reflexivity.
  - rewrite andb_true_iff, N.eqb_eq, IH. split.
    + intros [-> ->]. reflexivity.
    + intros H. injection H as -> ->. auto.
Qed.

(* ----------------------------------------------------------------- *)
(** ** The keyword detection: keywords that hide one another *)

(** The loop stops at an entry that matches or before it. *)
Lemma detectLoop_type_by toLowerCase text before type keywords after detected :
  0 < Keyword.matchCount toLowerCase text keywords ->
  In (fst (Keyword.detectLoop toLowerCase text
             (before ++ (type, keywords) :: after) detected))
     (map fst before ++ [type]).
Proof.
  intros Hpos.
  induction before as [|[type' keywords'] before IH]; simpl.
  - apply Nat.ltb_lt in Hpos. rewrite Hpos. left. reflexivity.
  - destruct (0 <? Keyword.matchCount toLowerCase text keywords')%nat.
    + left. reflexivity.
    + right. exact IH.
Qed.

(** X1. A text in which "wastewater" occurs is never detected as sewage
    discharge, of which wastewater is a keyword: "waste", a keyword of
    marine debris, occurs in it too, and marine debris comes first. *)
Theorem wastewater_is_never_sewage_discharge :
  forall (toLowerCase : JSString -> JSString) (text : JSString),
    occursIn toLowerCase text (lit "wastewater") ->
    In (Keyword.detectedType toLowerCase text)
       (map lit ["plastic pollution"; "oil spill"; "chemical contamination";
                 "marine debris"]%string)
    /\ Keyword.detectedType toLowerCase text <> lit "sewage discharge".
Proof.
  intros toLowerCase text Hwastewater.
  assert (In (Keyword.detectedType toLowerCase text)
             (map lit ["plastic pollution"; "oil spill";
                       "chemical contamination"; "marine debris"]%string))
    as Hin.
  { unfold Keyword.detectedType, Keyword.detect.
    apply (detectLoop_type_by toLowerCase text
             (firstn 3 Keyword.pollutionKeywords)
             (lit "marine debris")
             (map lit ["debris"; "trash"; "garbage"; "waste"; "litter"]%string)
             (skipn 4 Keyword.pollutionKeywords)).
    apply matchCount_positive. exists (lit "waste"). split.
    - simpl. auto.
    - apply includes_trans with (middle := lit "wastewater");
        [exact Hwastewater | reflexivity]. }
  split; [exact Hin|].
  intros Heq. rewrite Heq in Hin. simpl in Hin.
  repeat (destruct Hin as [Hin|Hin]; [vm_compute in Hin; discriminate|]).
  destruct Hin.
Qed.

Lemma wastewater_is_never_sewage_discharge_witness :
  Keyword.detectedType asciiLower
    (lit "Untreated wastewater reaches the bay") = lit "marine debris"
  /\ Keyword.detectedType asciiLower
       (lit "Untreated wastewater reaches the bay")
     <> lit "sewage discharge".
Proof.
  split; [reflexivity|].
  apply (wastewater_is_never_sewage_discharge asciiLower
           (lit "Untreated wastewater reaches the bay")).
  reflexivity.
Defined.

(** X2. A text in which "microplastic" occurs is detected as plastic
    pollution with a confidence of at least 0.7: "plastic" occurs in it
    too, so two keywords of the first category match. *)
Theorem microplastic_counts_twice :
  forall (toLowerCase : JSString -> JSString) (text : JSString),
    occursIn toLowerCase text (lit "microplastic") ->
    Keyword.detectedType toLowerCase text = lit "plastic pollution"
    /\ In (Keyword.confidence toLowerCase text) [0.7; 0.8; 0.9]%float.
Proof.
  intros toLowerCase text Hmicro.
  assert (occursIn toLowerCase text (lit "plastic")) as Hplastic
    by (apply includes_trans with (middle := lit "microplastic");
        [exact Hmicro | reflexivity]).
  unfold occursIn in *.
  assert (exists confidence,
             Keyword.detect toLowerCase text
             = (lit "plastic pollution", confidence)
             /\ In confidence [0.7; 0.8; 0.9]%float)
    as (confidence & Hdetect & Hin).
  { unfold Keyword.detect, Keyword.pollutionKeywords.
    cbn [Keyword.detectLoop]. unfold Keyword.matchCount.
    cbn [map filter]. rewrite Hplastic, Hmicro.
    destruct (includes (toLowerCase text) (lit "bottle"));
      destruct (includes (toLowerCase text) (lit "bag"));
      destruct (includes (toLowerCase text) (lit "debris"));
      (eexists; split; [reflexivity | vm_compute; auto 10]). }
  unfold Keyword.detectedType, Keyword.confidence. rewrite Hdetect.
  split; [reflexivity | exact Hin].
Qed.

Lemma microplastic_counts_twice_witness :
  Keyword.detectedType asciiLower (lit "Microplastic fibres in the sediment")
  = lit "plastic pollution"
  /\ In (Keyword.confidence asciiLower
           (lit "Microplastic fibres in the sediment"))
        [0.7; 0.8; 0.9]%float.
Proof.
  apply (microplastic_counts_twice asciiLower
           (lit "Microplastic fibres in the sediment")).
  reflexivity.
Defined.

(* ----------------------------------------------------------------- *)
(** ** The keyword revision: what a caller sees of the matches *)

(** X3. In the keyword revision the sort never moves a match: the returned
    matches are those of the table rows 1, 2, 3 in this order, for every
    text; their statuses are violation, unclear, compliant when the
    confidence exceeds 0.8 and three times unclear otherwise. *)
Theorem Keyword_matches_keep_table_order :
  forall (toLowerCase : JSString -> JSString)
         (classifier : JSString -> outcome (list Prediction))
         (text : JSString) (sentiment : list Prediction),
    classifier text = Returned sentiment ->
    exists matches,
      settled (Keyword.analyzeText toLowerCase (Returned classifier) text)
      = Returned matches
      /\ map (fun m => PolicyDocument.id (PolicyMatch.document m)) matches
         = map lit ["1"; "2"; "3"]%string
      /\ map PolicyMatch.complianceStatus matches
         = if (Keyword.confidence toLowerCase text >? 0.8)%float
           then [violation; unclear; compliant]
           else [unclear; unclear; unclear].
Proof.
  intros toLowerCase classifier text sentiment Hsentiment.
  rewrite (Keyword_run toLowerCase classifier text sentiment Hsentiment).
  eexists. split; [reflexivity|].
  pose proof (Keyword_confidence_values toLowerCase text) as Hvalues.
  revert Hvalues.
  generalize (Keyword.confidence toLowerCase text).
  generalize (Keyword.detectedType toLowerCase text).
  intros type confidence Hvalues. simpl in Hvalues.
  destruct Hvalues as [<-|[<-|[<-|[<-|[<-|[]]]]]];
    split; vm_compute; reflexivity.
Qed.

Lemma Keyword_matches_keep_table_order_witness :
  exists matches,
    settled (Keyword.analyzeText asciiLower
               (Returned Sample.keywordClassifier) Sample.text)
    = Returned matches
    /\ map (fun m => PolicyDocument.id (PolicyMatch.document m)) matches
       = map lit ["1"; "2"; "3"]%string
    /\ map PolicyMatch.complianceStatus matches
       = [violation; unclear; compliant].
Proof.
  exact (Keyword_matches_keep_table_order asciiLower Sample.keywordClassifier
           Sample.text Sample.negative eq_refl).
Defined.

(** X4. In the keyword revision the confidence exceeds the threshold 0.8
    of the compliance status exactly when at least four keywords of the
    detected category occur in the text; no text without a keyword
    reaches it. *)
Theorem Keyword_threshold_needs_four_keywords :
  forall (toLowerCase : JSString -> JSString) (text : JSString),
    (forall before type keywords after,
        Keyword.pollutionKeywords = before ++ (type, keywords) :: after ->
        (forall type' keywords',
            In (type', keywords') before ->
            Keyword.matchCount toLowerCase text keywords' = 0) ->
        0 < Keyword.matchCount toLowerCase text keywords ->
        ((Keyword.confidence toLowerCase text >? 0.8)%float = true
         <-> 4 <= Keyword.matchCount toLowerCase text keywords))
    /\ ((forall type keywords,
            In (type, keywords) Keyword.pollutionKeywords ->
            Keyword.matchCount toLowerCase text keywords = 0) ->
        (Keyword.confidence toLowerCase text >? 0.8)%float = false).
Proof.
  intros toLowerCase text. split.
  - intros before type keywords after Hsplit Hbefore Hpos.
    unfold Keyword.confidence, Keyword.detect. rewrite Hsplit.
    rewrite (detectLoop_first_match toLowerCase text before type keywords
               after _ Hbefore Hpos).
    pose proof (matchCount_le toLowerCase text keywords) as Hle.
    assert (List.length keywords <= 5) as Hfive.
    { apply (pollutionKeywords_at_most_five type).
      rewrite Hsplit. apply in_elt. }
    cbn [snd].
    destruct (Keyword.matchCount toLowerCase text keywords) as [|n];
      [lia|].
    do 5 (destruct n as [|n];
          [vm_compute; split; [try discriminate; lia
                              | try reflexivity; lia]|]).
    lia.
  - intros Hnone. unfold Keyword.confidence, Keyword.detect.
    rewrite (detectLoop_no_match toLowerCase text _ _ Hnone). reflexivity.
Qed.

(** X4 on the sample text, in which four keywords of oil spill occur. *)
Lemma Keyword_threshold_needs_four_keywords_witness :
  (Keyword.confidence asciiLower Sample.text >? 0.8)%float = true
  <-> 4 <= 4.
Proof.
  apply (proj1 (Keyword_threshold_needs_four_keywords asciiLower Sample.text)
           (firstn 1 Keyword.pollutionKeywords)
           (lit "oil spill")
           (map lit ["oil"; "spill"; "petroleum"; "crude"; "leak"]%string)
           (skipn 2 Keyword.pollutionKeywords)).
  - reflexivity.
  - intros type' keywords' [Hentry|[]].
    injection Hentry as _ <-. reflexivity.
  - vm_compute. lia.
Defined.

Lemma ltb_leb (x y : number) :
  (x <? y)%float = true -> (x <=? y)%float = true.
Proof.
  rewrite FloatAxioms.ltb_spec, FloatAxioms.leb_spec. unfold SFltb, SFleb.
  destruct (SFcompare (Prim2SF x) (Prim2SF y)) as [[]|];
    try discriminate; reflexivity.
Qed.

(** [Math.max(0.6, z)] is at least 0.6 as soon as [z] is a number. *)
Lemma Math_max_lower (z : number) :
  is_nan z = false -> (0.6 <=? Math_max 0.6 z)%float = true.
Proof.
  intros Hz. unfold Math_max. rewrite Hz.
  change (is_nan 0.6%float || false) with false. cbv iota.
  destruct (0.6 <? z)%float eqn:Hlt; [apply ltb_leb; exact Hlt|].
  destruct (z <? 0.6)%float; reflexivity.
Qed.

(** X5. The relevance score of a returned match is never below 0.6 when
    the confidence is a number; in the keyword revision it always lies
    between 0.6 and 0.9 * 0.95. *)
Theorem relevance_scores_bounded :
  (forall classifier sentimentAnalyzer text cls sentiment,
      classifier text ZeroShot.pollutionLabels = Returned cls ->
      sentimentAnalyzer text = Returned sentiment ->
      is_nan (ZeroShot.confidence cls) = false ->
      exists matches,
        settled (ZeroShot.analyzeText (Returned classifier)
                   (Returned sentimentAnalyzer) text) = Returned matches
        /\ forall m, In m matches -> (0.6 <=? relevance m)%float = true)
  /\ (forall toLowerCase classifier text sentiment,
        classifier text = Returned sentiment ->
        exists matches,
          settled (Keyword.analyzeText toLowerCase (Returned classifier) text)
          = Returned matches
          /\ forall m, In m matches ->
               (0.6 <=? relevance m)%float = true
               /\ (relevance m <=? 0.9 * 0.95)%float = true).
Proof.
  split.
  - intros classifier sentimentAnalyzer text cls sentiment Hcls Hsentiment Hc.
    returns_policyMatches
      (ZeroShot_run classifier sentimentAnalyzer text cls sentiment
         Hcls Hsentiment).
    intros m Hm. apply policyMatches_relevance in Hm.
    destruct Hm as (policy & Hin & _ & ->).
    apply Math_max_lower. apply mul_not_nan; [exact Hc|].
    apply policyDatabase_scores_finite. exact Hin.
  - intros toLowerCase classifier text sentiment Hsentiment.
    returns_policyMatches
      (Keyword_run toLowerCase classifier text sentiment Hsentiment).
    intros m Hm. apply policyMatches_relevance in Hm.
    destruct Hm as (policy & Hin & _ & ->).
    pose proof (Keyword_confidence_values toLowerCase text) as Hvalues.
    revert Hvalues. generalize (Keyword.confidence toLowerCase text).
    intros confidence Hvalues. simpl in Hvalues.
    destruct Hin as [<-|[<-|[<-|[]]]];
      destruct Hvalues as [<-|[<-|[<-|[<-|[<-|[]]]]]];
      split; reflexivity.
Qed.

Lemma relevance_scores_bounded_witness :
  (exists matches,
      settled (ZeroShot.analyzeText (Returned Sample.zeroShotClassifier)
                 (Returned Sample.sentimentAnalyzer) Sample.text)
      = Returned matches
      /\ forall m, In m matches -> (0.6 <=? relevance m)%float = true)
  /\ (exists matches,
        settled (Keyword.analyzeText asciiLower
                   (Returned Sample.keywordClassifier) Sample.text)
        = Returned matches
        /\ forall m, In m matches ->
             (0.6 <=? relevance m)%float = true
             /\ (relevance m <=? 0.9 * 0.95)%float = true).
Proof.
  destruct relevance_scores_bounded as [HzeroShot Hkeyword].
  split.
  - apply (HzeroShot Sample.zeroShotClassifier Sample.sentimentAnalyzer
             Sample.text Sample.classification Sample.negative);
      reflexivity.
  - apply (Hkeyword asciiLower Sample.keywordClassifier Sample.text
             Sample.negative).
    reflexivity.
Defined.

(* ----------------------------------------------------------------- *)
(** ** What a caller sees of a failure *)

Lemma try_rethrow_message {A : Type} (body : Async A) (message e : JSString) :
  settled (try_rethrow body message) = Threw e -> e = message.
Proof.
  destruct body as [reported [a|e']]; simpl; intros H;
    [discriminate | injection H as <-; reflexivity].
Qed.

(** X6. Whatever makes an analysis fail, the caller gets the one message
    of the catch block: "Failed to analyze text. Please try again." from
    analyzeText, "Failed to analyze image. Please try again." from
    analyzeImage.  In particular the message "Unable to load text analysis
    model" of the loader of the keyword revision never reaches the
    caller. *)
Theorem failures_carry_one_message :
  (forall getTextClassifier getSentimentAnalyzer text e,
      settled (ZeroShot.analyzeText getTextClassifier getSentimentAnalyzer
                 text) = Threw e ->
      e = lit "Failed to analyze text. Please try again.")
  /\ (forall toLowerCase getTextClassifier text e,
        settled (Keyword.analyzeText toLowerCase getTextClassifier text)
        = Threw e ->
        e = lit "Failed to analyze text. Please try again.")
  /\ (forall toLowerCase getImageClassifier rng imageUrl e,
        settled (analyzeImage toLowerCase getImageClassifier rng imageUrl)
        = Threw e ->
        e = lit "Failed to analyze image. Please try again.")
  /\ (forall toLowerCase pipeline textClassifier text e,
        settled (fst (fst (Loading.analyzeText toLowerCase pipeline
                             textClassifier text))) = Threw e ->
        e = lit "Failed to analyze text. Please try again."
        /\ e <> lit "Unable to load text analysis model").
Proof.
  split; [|split; [|split]].
  - intros gc gs text e. apply try_rethrow_message.
  - intros toLowerCase gc text e. apply try_rethrow_message.
  - intros toLowerCase gc rng imageUrl e. apply try_rethrow_message.
  - intros toLowerCase pipeline textClassifier text e H.
    apply try_rethrow_message in H. subst e.
    split; [reflexivity | discriminate].
Qed.

(** X6 on a run whose model cannot be loaded on any device. *)
Lemma failures_carry_one_message_witness :
  settled (fst (fst (Loading.analyzeText asciiLower MoreSamples.offline
                       None Sample.text)))
  = Threw (lit "Failed to analyze text. Please try again.").
Proof.
  destruct failures_carry_one_message as (_ & _ & _ & Hloading).
  destruct (settled (fst (fst (Loading.analyzeText asciiLower
                                 MoreSamples.offline None Sample.text))))
    as [matches|e] eqn:Hsettled; [vm_compute in Hsettled; discriminate|].
  destruct (Hloading asciiLower MoreSamples.offline None Sample.text e
              Hsettled) as [-> _].
  reflexivity.
Defined.

(* ----------------------------------------------------------------- *)
(** ** analyzeImage: where its results come from *)

Lemma In_firstn {A : Type} (n : nat) (l : list A) (a : A) :
  In a (firstn n l) -> In a l.
Proof.
  intros H. rewrite <- (firstn_skipn n l). apply in_or_app. left. exact H.
Qed.

Lemma Forall2_In_right {A B : Type} (R : A -> B -> Prop)
      (l : list A) (l' : list B) (b : B) :
  Forall2 R l l' -> In b l' -> exists a, In a l /\ R a b.
Proof.
  intros H. induction H as [|a0 b0 l l' Hab H IH]; intros Hin.
  - destruct Hin.
  - destruct Hin as [<-|Hin].
    + exists a0. split; [left; reflexivity | exact Hab].
    + destruct (IH Hin) as (a & Ha & Hr). exists a. split; [right|]; auto.
Qed.

Section ImageOrigin.
Variable toLowerCase : JSString -> JSString.

(** A returned result is the result of a prediction that passed the test
    or, when none passed, the generic result of the first prediction. *)
Lemma imageResults_origin predictions rng result :
  In result (imageResults toLowerCase predictions rng) ->
  (exists prediction,
      In prediction predictions
      /\ included toLowerCase prediction = true
      /\ resultOf toLowerCase prediction result)
  \/ (exists topPrediction rest,
         predictions = topPrediction :: rest
         /\ (forall prediction, In prediction predictions ->
               included toLowerCase prediction = false)
         /\ ImageAnalysisResult.type result
            = lit "Potential " ++ label topPrediction
         /\ ImageAnalysisResult.confidence result = score topPrediction
         /\ ImageAnalysisResult.severity result
            = if (score topPrediction >? 0.7)%float then medium else low).
Proof.
  unfold imageResults, slice0. intros Hin. apply In_firstn in Hin.
  destruct (fst (forEach toLowerCase predictions rng)) as [|r results]
    eqn:Hloop.
  - right. destruct predictions as [|topPrediction rest].
    + vm_compute in Hin. destruct Hin.
    + destruct (fallback_none toLowerCase topPrediction rest rng Hloop)
        as [location Hfallback].
      rewrite Hfallback in Hin. destruct Hin as [<-|[]].
      exists topPrediction, rest. split; [reflexivity|].
      split; [apply (forEach_nil_iff toLowerCase _ rng); exact Hloop|].
      simpl. auto.
  - left. rewrite fallback_some in Hin by (rewrite Hloop; discriminate).
    destruct (Forall2_In_right _ _ _ _
                (forEach_spec toLowerCase predictions rng) Hin)
      as (prediction & Hp & Hresult).
    apply filter_In in Hp. destruct Hp as [Hp Hinc].
    exists prediction. auto.
Qed.

(** The loop gives the critical severity on the oil and on the chemical
    branch only. *)
Lemma categorize_critical prediction :
  snd (categorize toLowerCase prediction) = critical ->
  fst (categorize toLowerCase prediction) = lit "Oil Contamination"
  \/ fst (categorize toLowerCase prediction) = lit "Chemical Waste".
Proof.
  unfold categorize. cbv zeta.
  destruct (includes (toLowerCase (label prediction)) (lit "plastic")
            || includes (toLowerCase (label prediction)) (lit "trash")
            || includes (toLowerCase (label prediction)) (lit "garbage")).
  { simpl. destruct (score prediction >? 0.7)%float; [discriminate|].
    destruct (score prediction >? 0.5)%float; discriminate. }
  destruct (includes (toLowerCase (label prediction)) (lit "oil")
            || includes (toLowerCase (label prediction)) (lit "spill")).
  { left. reflexivity. }
  destruct (includes (toLowerCase (label prediction)) (lit "chemical")
            || includes (toLowerCase (label prediction)) (lit "contamination")).
  { right. reflexivity. }
  simpl. destruct (score prediction >? 0.8)%float; [discriminate|].
  destruct (score prediction >? 0.6)%float; discriminate.
Qed.

Lemma forEach_essentials predictions rng :
  map essentials (fst (forEach toLowerCase predictions rng))
  = map (fun prediction =>
           (fst (categorize toLowerCase prediction), score prediction,
            snd (categorize toLowerCase prediction)))
        (filter (included toLowerCase) predictions).
Proof.
  pose proof (forEach_spec toLowerCase predictions rng) as H.
  induction H as [|prediction result l l' (Htype & Hconfidence & Hseverity)
                    H IH]; simpl.
  - reflexivity.
  - rewrite IH. unfold essentials at 1.
    rewrite Htype, Hconfidence, Hseverity. reflexivity.
Qed.

End ImageOrigin.

(** X7. When the classifier returns no prediction, analyzeImage reports
    its four progress values and returns the empty list: the generic
    result is built from a first prediction only. *)
Theorem analyzeImage_without_predictions :
  forall (toLowerCase : JSString -> JSString)
         (classifier : JSString -> outcome (list Prediction))
         (rng : Random) (imageUrl : JSString),
    classifier imageUrl = Returned [] ->
    analyzeImage toLowerCase (Returned classifier) rng imageUrl
    = (imageProgress, Returned []).
Proof.
  intros toLowerCase classifier rng imageUrl Hnone.
  rewrite (analyzeImage_run toLowerCase classifier rng imageUrl [] Hnone).
  reflexivity.
Qed.

Lemma analyzeImage_without_predictions_witness :
  analyzeImage asciiLower (Returned (fun _ => Returned [])) Sample.random
    Sample.imageUrl
  = (imageProgress, Returned []).
Proof.
  apply (analyzeImage_without_predictions asciiLower
           (fun _ => Returned [])).
  reflexivity.
Defined.

(** X8. [Math.random] decides the locations and nothing else: on the same
    predictions, two runs of analyzeImage return as many results, with the
    same types, confidences and severities, whatever the random numbers. *)
Theorem analyzeImage_random_only_in_locations :
  forall (toLowerCase : JSString -> JSString)
         (predictions : list Prediction) (rng rng' : Random),
    map essentials (imageResults toLowerCase predictions rng)
    = map essentials (imageResults toLowerCase predictions rng').
Proof.
  intros toLowerCase predictions rng rng'.
  unfold imageResults, slice0. rewrite <- !firstn_map. f_equal.
  destruct (filter (included toLowerCase) predictions) as [|p passed]
    eqn:Hpassed.
  - (* no prediction passed: the fallback on both sides *)
    assert (forall r, fst (forEach toLowerCase predictions r) = []) as Hnil.
    { intros r. pose proof (forEach_spec toLowerCase predictions r) as H.
      rewrite Hpassed in H. inversion H. reflexivity. }
    destruct predictions as [|topPrediction rest].
    + reflexivity.
    + destruct (fallback_none toLowerCase topPrediction rest rng (Hnil rng))
        as [location ->].
      destruct (fallback_none toLowerCase topPrediction rest rng' (Hnil rng'))
        as [location' ->].
      reflexivity.
  - assert (forall r, fst (forEach toLowerCase predictions r) <> []) as Hsome.
    { intros r Hnil. pose proof (forEach_spec toLowerCase predictions r) as H.
      rewrite Hpassed, Hnil in H. inversion H. }
    rewrite !fallback_some by apply Hsome.
    rewrite !forEach_essentials. reflexivity.
Qed.

(** X9. analyzeImage gives the severity critical to results of type Oil
    Contamination or Chemical Waste only, and the generic result of the
    fallback is never above medium. *)
Theorem analyzeImage_critical_only_for_oil_and_chemicals :
  forall (toLowerCase : JSString -> JSString)
         (classifier : JSString -> outcome (list Prediction))
         (rng : Random) (imageUrl : JSString)
         (predictions : list Prediction),
    classifier imageUrl = Returned predictions ->
    exists results,
      settled (analyzeImage toLowerCase (Returned classifier) rng imageUrl)
      = Returned results
      /\ (forall result,
            In result results ->
            ImageAnalysisResult.severity result = critical ->
            ImageAnalysisResult.type result = lit "Oil Contamination"
            \/ ImageAnalysisResult.type result = lit "Chemical Waste")
      /\ ((forall prediction, In prediction predictions ->
             included toLowerCase prediction = false) ->
          forall result,
            In result results ->
            ImageAnalysisResult.severity result = medium
            \/ ImageAnalysisResult.severity result = low).
Proof.
  intros toLowerCase classifier rng imageUrl predictions Hpredictions.
  rewrite (analyzeImage_run toLowerCase classifier rng imageUrl predictions
             Hpredictions).
  eexists. split; [reflexivity|]. split.
  - intros result Hin Hcritical.
    apply imageResults_origin in Hin.
    destruct Hin as [(prediction & _ & _ & Htype & _ & Hseverity)
                    |(top & rest & _ & _ & _ & _ & Hseverity)].
    + rewrite Htype. apply categorize_critical.
      rewrite <- Hseverity. exact Hcritical.
    + rewrite Hseverity in Hcritical.
      destruct (score top >? 0.7)%float; discriminate.
  - intros Hnone result Hin.
    apply imageResults_origin in Hin.
    destruct Hin as [(prediction & Hp & Hinc & _)
                    |(top & rest & _ & _ & _ & _ & ->)].
    + rewrite (Hnone prediction Hp) in Hinc. discriminate.
    + destruct (score top >? 0.7)%float; auto.
Qed.

Lemma analyzeImage_critical_only_for_oil_and_chemicals_witness :
  exists results,
    settled (analyzeImage asciiLower (Returned Sample.imageClassifier)
               Sample.random Sample.imageUrl) = Returned results
    /\ forall result,
         In result results ->
         ImageAnalysisResult.severity result = critical ->
         ImageAnalysisResult.type result = lit "Oil Contamination"
         \/ ImageAnalysisResult.type result = lit "Chemical Waste".
Proof.
  destruct (analyzeImage_critical_only_for_oil_and_chemicals asciiLower
              Sample.imageClassifier Sample.random Sample.imageUrl
              Sample.predictions eq_refl)
    as (results & Hreturned & Hcritical & _).
  exists results. split; assumption.
Defined.

(** X10. analyzeImage invents no confidence and no result: every returned
    confidence is the score of one of the predictions, and there are never
    more results than predictions. *)
Theorem analyzeImage_confidences_are_scores :
  forall (toLowerCase : JSString -> JSString)
         (predictions : list Prediction) (rng : Random),
    (forall result,
        In result (imageResults toLowerCase predictions rng) ->
        exists prediction,
          In prediction predictions
          /\ ImageAnalysisResult.confidence result = score prediction)
    /\ List.length (imageResults toLowerCase predictions rng)
       <= List.length predictions.
Proof.
  intros toLowerCase predictions rng. split.
  - intros result Hin. apply imageResults_origin in Hin.
    destruct Hin as [(prediction & Hp & _ & _ & Hconfidence & _)
                    |(top & rest & -> & _ & _ & Hconfidence & _)].
    + exists prediction. auto.
    + exists top. split; [left; reflexivity | exact Hconfidence].
  - rewrite <- (length_map essentials).
    unfold imageResults, slice0. rewrite <- firstn_map.
    rewrite length_firstn.
    etransitivity; [apply Nat.le_min_r|].
    destruct (fst (forEach toLowerCase predictions rng)) as [|r results]
      eqn:Hloop.
    + destruct predictions as [|topPrediction rest];
        [vm_compute; constructor|].
      destruct (fallback_none toLowerCase topPrediction rest rng Hloop)
        as [location ->].
      simpl. lia.
    + rewrite fallback_some by (rewrite Hloop; discriminate).
      rewrite forEach_essentials, length_map. apply filter_length_le.
Qed.

(* ----------------------------------------------------------------- *)
(** ** The loading of the models *)

Section LoaderFacts.
Context {C : Type}.
Variables task model message : JSString.

Lemma loadWithFallback_remembers :
  remembers (fun pipeline cached =>
               @Models.loadWithFallback C pipeline task model cached).
Proof.
  intros pipeline pipeline' cached classifier.
  unfold Models.loadWithFallback.
  destruct cached as [c|]; simpl.
  - intros H. injection H as ->. reflexivity.
  - destruct (pipeline _) as [c|e]; simpl.
    + intros H. injection H as ->. reflexivity.
    + destruct (pipeline _) as [c|e']; simpl; intros H;
        [injection H as ->; reflexivity | discriminate].
Qed.

Lemma loadOrExplain_remembers :
  remembers (fun pipeline cached =>
               @Models.loadOrExplain C pipeline task model message cached).
Proof.
  intros pipeline pipeline' cached classifier.
  unfold Models.loadOrExplain.
  destruct cached as [c|]; simpl.
  - intros H. injection H as ->. reflexivity.
  - destruct (pipeline _) as [c|e]; simpl.
    + intros H. injection H as ->. reflexivity.
    + destruct (pipeline _) as [c|e']; simpl; intros H;
        [injection H as ->; reflexivity | discriminate].
Qed.

(** The case analysis of a loader: the cache, the call on WebGPU, the call
    on the default device. *)
Ltac loader_cases pipeline cached :=
  destruct cached as [c|]; simpl;
  [| destruct (pipeline {| Models.task := task; Models.model := model;
                           Models.device := Models.webgpu |}) as [c|e] eqn:Hw;
     simpl;
     [| destruct (pipeline {| Models.task := task; Models.model := model;
                              Models.device := Models.cpu |}) as [c|e'] eqn:Hc;
        simpl ] ].

Lemma loadWithFallback_fallsBack :
  fallsBack (fun pipeline cached =>
               @Models.loadWithFallback C pipeline task model cached).
Proof.
  intros pipeline cached. cbv zeta. unfold Models.loadWithFallback.
  loader_cases pipeline cached; (split; [auto | split; [|split]]).
  (* the model is cached *)
  - reflexivity.
  - split; [intros [? H] | intros [H _]]; discriminate.
  - intros [? H]. discriminate.
  (* WebGPU loads *)
  - congruence.
  - split; [intros [? H]; discriminate|].
    intros [_ H]. destruct (H _ (or_introl eq_refl)) as [e H']. congruence.
  - intros [? H]. discriminate.
  (* WebGPU throws, the default device loads *)
  - congruence.
  - split; [intros [? H]; discriminate|].
    intros [_ H]. destruct (H _ (or_intror (or_introl eq_refl))) as [e0 H'].
    congruence.
  - intros [? H]. discriminate.
  (* both throw *)
  - congruence.
  - split; [|eauto]. intros _. split; [reflexivity|].
    intros call [<-|[<-|[]]]; eauto.
  - auto.
Qed.

Lemma loadOrExplain_fallsBack :
  fallsBack (fun pipeline cached =>
               @Models.loadOrExplain C pipeline task model message cached).
Proof.
  intros pipeline cached. cbv zeta. unfold Models.loadOrExplain.
  loader_cases pipeline cached; (split; [auto | split; [|split]]).
  (* the model is cached *)
  - reflexivity.
  - split; [intros [? H] | intros [H _]]; discriminate.
  - intros [? H]. discriminate.
  (* WebGPU loads *)
  - congruence.
  - split; [intros [? H]; discriminate|].
    intros [_ H]. destruct (H _ (or_introl eq_refl)) as [e H']. congruence.
  - intros [? H]. discriminate.
  (* WebGPU throws, the default device loads *)
  - congruence.
  - split; [intros [? H]; discriminate|].
    intros [_ H]. destruct (H _ (or_intror (or_introl eq_refl))) as [e0 H'].
    congruence.
  - intros [? H]. discriminate.
  (* both throw *)
  - congruence.
  - split; [|eauto]. intros _. split; [reflexivity|].
    intros call [<-|[<-|[]]]; eauto.
  - auto.
Qed.

Lemma loadWithFallback_triesInOrder :
  triesInOrder (fun pipeline cached =>
                  @Models.loadWithFallback C pipeline task model cached).
Proof.
  intros pipeline cached. cbv zeta. unfold Models.loadWithFallback. split.
  - intros classifier ->. reflexivity.
  - intros ->.
    exists {| Models.task := task; Models.model := model;
              Models.device := Models.webgpu |}.
    split; [reflexivity|].
    destruct (pipeline {| Models.task := task; Models.model := model;
                          Models.device := Models.webgpu |}) as [c|e] eqn:Hw.
    + left. exists c. split; reflexivity.
    + right.
      exists e, {| Models.task := task; Models.model := model;
                   Models.device := Models.cpu |}.
      split; [reflexivity|]. split; [reflexivity|]. split; [reflexivity|].
      split; [reflexivity|].
      destruct (pipeline {| Models.task := task; Models.model := model;
                            Models.device := Models.cpu |}) as [c|e'] eqn:Hc.
      * split; [reflexivity|]. left. exists c. repeat split.
      * split; [reflexivity|]. right. exists e', e'. repeat split.
Qed.

Lemma loadOrExplain_triesInOrder :
  triesInOrder (fun pipeline cached =>
                  @Models.loadOrExplain C pipeline task model message cached).
Proof.
  intros pipeline cached. cbv zeta. unfold Models.loadOrExplain. split.
  - intros classifier ->. reflexivity.
  - intros ->.
    exists {| Models.task := task; Models.model := model;
              Models.device := Models.webgpu |}.
    split; [reflexivity|].
    destruct (pipeline {| Models.task := task; Models.model := model;
                          Models.device := Models.webgpu |}) as [c|e] eqn:Hw.
    + left. exists c. split; reflexivity.
    + right.
      exists e, {| Models.task := task; Models.model := model;
                   Models.device := Models.cpu |}.
      split; [reflexivity|]. split; [reflexivity|]. split; [reflexivity|].
      split; [reflexivity|].
      destruct (pipeline {| Models.task := task; Models.model := model;
                            Models.device := Models.cpu |}) as [c|e'] eqn:Hc.
      * split; [reflexivity|]. left. exists c. repeat split.
      * split; [reflexivity|]. right. exists e', message. repeat split.
Qed.

End LoaderFacts.

(** X11. Every loader remembers its model: once getImageClassifier,
    getTextClassifier or getSentimentAnalyzer (of either revision) has
    returned a model, the next call returns the same model and does not
    call [pipeline] again, whatever [pipeline] would do. *)
Theorem loaders_remember :
  forall C : Type,
    remembers (@Models.getImageClassifier C)
    /\ remembers (@ZeroShotModels.getTextClassifier C)
    /\ remembers (@ZeroShotModels.getSentimentAnalyzer C)
    /\ remembers (@KeywordModels.getTextClassifier C)
    /\ remembers (@KeywordModels.getSentimentAnalyzer C).
Proof.
  intros C. repeat split; intros pipeline pipeline' cached classifier;
    first [ exact (loadWithFallback_remembers _ _ pipeline pipeline' cached
                     classifier)
          | exact (loadOrExplain_remembers _ _ _ pipeline pipeline' cached
                     classifier) ].
Qed.

(** X12. Every loader tries WebGPU first and the default device only after
    WebGPU threw: with a cached model it makes no call; otherwise it calls
    [pipeline] on WebGPU, and a second time, on the default device, exactly
    when that first call threw.  It returns and caches the model of the
    call that returned; it throws exactly when nothing is cached and both
    calls throw, and it then leaves the cache empty, so that the next call
    tries again. *)
Theorem loaders_fall_back :
  forall C : Type,
    (fallsBack (@Models.getImageClassifier C)
     /\ triesInOrder (@Models.getImageClassifier C))
    /\ (fallsBack (@ZeroShotModels.getTextClassifier C)
        /\ triesInOrder (@ZeroShotModels.getTextClassifier C))
    /\ (fallsBack (@ZeroShotModels.getSentimentAnalyzer C)
        /\ triesInOrder (@ZeroShotModels.getSentimentAnalyzer C))
    /\ (fallsBack (@KeywordModels.getTextClassifier C)
        /\ triesInOrder (@KeywordModels.getTextClassifier C))
    /\ (fallsBack (@KeywordModels.getSentimentAnalyzer C)
        /\ triesInOrder (@KeywordModels.getSentimentAnalyzer C)).
Proof.
  intros C. repeat apply conj; intros pipeline cached;
    first [ exact (loadWithFallback_fallsBack _ _ pipeline cached)
          | exact (loadOrExplain_fallsBack _ _ _ pipeline cached)
          | exact (loadWithFallback_triesInOrder _ _ pipeline cached)
          | exact (loadOrExplain_triesInOrder _ _ _ pipeline cached) ].
Qed.

(** X13. After a run of analyzeImage that returned, no later run loads the
    model again: it calls [pipeline] not once, and its cache is the one
    the first run left. *)
Theorem analyzeImage_loads_once :
  forall (toLowerCase : JSString -> JSString)
         (pipeline pipeline' : Models.Call -> outcome ImageClassifier)
         (imageClassifier : option ImageClassifier)
         (rng rng' : Random) (imageUrl imageUrl' : JSString)
         (results : list ImageAnalysisResult),
    let first :=
      Loading.analyzeImage toLowerCase pipeline imageClassifier rng imageUrl in
    settled (fst (fst first)) = Returned results ->
    let second :=
      Loading.analyzeImage toLowerCase pipeline' (snd first) rng' imageUrl' in
    snd (fst second) = [] /\ snd second = snd first.
Proof.
  intros toLowerCase pipeline pipeline' imageClassifier rng rng'
         imageUrl imageUrl' results first Hreturned second.
  subst first second. unfold Loading.analyzeImage in *. cbn [fst snd] in *.
  destruct (Models.answer (Models.getImageClassifier pipeline imageClassifier))
    as [classifier|e] eqn:Hanswer.
  - destruct (loaders_remember ImageClassifier) as [Hremembers _].
    assert (Models.cache (Models.getImageClassifier pipeline imageClassifier)
            = Some classifier) as Hcache.
    { revert Hanswer. unfold Models.getImageClassifier, Models.loadWithFallback.
      destruct imageClassifier as [c|]; simpl;
        [intros H; injection H as ->; reflexivity|].
      destruct (pipeline _) as [c|e]; simpl;
        [intros H; injection H as ->; reflexivity|].
      destruct (pipeline _) as [c|e']; simpl; intros H;
        [injection H as ->; reflexivity | discriminate]. }
    rewrite (Hremembers pipeline pipeline' imageClassifier classifier Hanswer).
    simpl. split; [reflexivity | symmetry; exact Hcache].
  - vm_compute in Hreturned. discriminate.
Qed.

(** X13 on a browser without WebGPU: the first run loads the model on the
    default device, the second run, offline, loads nothing and returns. *)
Lemma analyzeImage_loads_once_witness :
  snd (fst (Loading.analyzeImage asciiLower MoreSamples.cpuOnly None
              Sample.random Sample.imageUrl))
  = [ {| Models.task := lit "image-classification";
         Models.model := lit "google/vit-base-patch16-224";
         Models.device := Models.webgpu |};
      {| Models.task := lit "image-classification";
         Models.model := lit "google/vit-base-patch16-224";
         Models.device := Models.cpu |} ]
  /\ snd (fst (Loading.analyzeImage asciiLower MoreSamples.offline
                 (snd (Loading.analyzeImage asciiLower MoreSamples.cpuOnly
                         None Sample.random Sample.imageUrl))
                 Sample.random Sample.imageUrl)) = [].
Proof.
  split; [reflexivity|].
  apply (analyzeImage_loads_once asciiLower MoreSamples.cpuOnly
           MoreSamples.offline None Sample.random Sample.random
           Sample.imageUrl Sample.imageUrl
           (imageResults asciiLower Sample.predictions Sample.random)).
  reflexivity.
Defined.

(* ----------------------------------------------------------------- *)
(** ** extractTextFromFile *)

(** X14. extractTextFromFile reads plain-text files only.  For a file of
    any other type it never fails and never looks at the content: its text
    is made of the file name alone, so two such files of the same name
    give the same text.  It fails for an unreadable plain-text file only,
    and then with the message "Failed to read file". *)
Theorem extractTextFromFile_reads_plain_text_only :
  forall (readAsText readAsText' : PollutionDetector.File -> outcome JSString)
         (file file' : PollutionDetector.File),
    (PollutionDetector.mimeType file <> lit "text/plain" ->
     PollutionDetector.mimeType file' <> lit "text/plain" ->
     PollutionDetector.name file = PollutionDetector.name file' ->
     Files.extractTextFromFile readAsText file
     = Files.extractTextFromFile readAsText' file'
     /\ exists text, Files.extractTextFromFile readAsText file = Returned text)
    /\ (forall e,
          Files.extractTextFromFile readAsText file = Threw e ->
          PollutionDetector.mimeType file = lit "text/plain"
          /\ e = lit "Failed to read file"
          /\ exists e', readAsText file = Threw e')
    /\ (PollutionDetector.mimeType file = lit "text/plain" ->
        forall text,
          readAsText file = Returned text ->
          Files.extractTextFromFile readAsText file = Returned text).
Proof.
  intros readAsText readAsText' file file'.
  unfold Files.extractTextFromFile. split; [|split].
  - intros Htype Htype' Hname.
    destruct (Files.strictEquals (PollutionDetector.mimeType file)
                (lit "text/plain")) eqn:H;
      [apply strictEquals_iff in H; contradiction|].
    destruct (Files.strictEquals (PollutionDetector.mimeType file')
                (lit "text/plain")) eqn:H';
      [apply strictEquals_iff in H'; contradiction|].
    rewrite Hname. split; [reflexivity | eexists; reflexivity].
  - intros e.
    destruct (Files.strictEquals (PollutionDetector.mimeType file)
                (lit "text/plain")) eqn:H; [|discriminate].
    apply strictEquals_iff in H.
    destruct (readAsText file) as [text|e'] eqn:Hread; [discriminate|].
    intros He. injection He as <-. eauto.
  - intros Htype text Hread.
    apply strictEquals_iff in Htype. rewrite Htype, Hread. reflexivity.
Qed.

(** X14 on two reports of the same name: one text, whatever the reader. *)
Lemma extractTextFromFile_reads_plain_text_only_witness :
  Files.extractTextFromFile MoreSamples.readBytes MoreSamples.report
  = Files.extractTextFromFile MoreSamples.unreadable MoreSamples.otherReport
  /\ Files.extractTextFromFile MoreSamples.readBytes MoreSamples.notes
     = Returned (lit "oil").
Proof.
  destruct (extractTextFromFile_reads_plain_text_only
              MoreSamples.readBytes MoreSamples.unreadable
              MoreSamples.report MoreSamples.otherReport)
    as (Hother & _ & _).
  destruct (extractTextFromFile_reads_plain_text_only
              MoreSamples.readBytes MoreSamples.readBytes
              MoreSamples.notes MoreSamples.notes)
    as (_ & _ & Hplain).
  split.
  - apply Hother; [discriminate | discriminate | reflexivity].
  - apply Hplain; reflexivity.
Defined.

(* ----------------------------------------------------------------- *)
(** ** The PolicyAnalyzer component *)

Lemma inputGiven_iff (s : PolicyAnalyzer.State) :
  inputGiven s
  <-> negb (PolicyAnalyzer.truthy (PolicyAnalyzer.analysisQuery s))
      && match PolicyAnalyzer.uploadedDoc s with
         | None => true
         | Some _ => false
         end = false.
Proof.
  unfold inputGiven.
  destruct (PolicyAnalyzer.analysisQuery s) as [|c query],
           (PolicyAnalyzer.uploadedDoc s) as [doc|]; simpl; split; intros H;
    try reflexivity; try discriminate;
    try (left; discriminate); try (right; discriminate).
  destruct H as [H|H]; exfalso; apply H; reflexivity.
Qed.

(** The progress callback changes the progress and nothing else. *)
Lemma setAnalysisProgress_frame (reported : list number)
      (s : PolicyAnalyzer.State) :
  let s' := fold_left PolicyAnalyzer.setAnalysisProgress reported s in
  PolicyAnalyzer.analysisQuery s' = PolicyAnalyzer.analysisQuery s
  /\ PolicyAnalyzer.uploadedDoc s' = PolicyAnalyzer.uploadedDoc s
  /\ PolicyAnalyzer.isAnalyzing s' = PolicyAnalyzer.isAnalyzing s
  /\ PolicyAnalyzer.policyMatches s' = PolicyAnalyzer.policyMatches s.
Proof.
  revert s. induction reported as [|value reported IH]; intros s; simpl.
  - repeat split.
  - destruct (IH (PolicyAnalyzer.setAnalysisProgress s value))
      as (Hq & Hd & Ha & Hm).
    simpl in Hq, Hd, Ha, Hm. repeat split; assumption.
Qed.

(** The try block ends in one of two ways: with the toast of the catch
    block and the matches that were there, or with the matches that
    analyzeText returned and their number in the toast. *)
Lemma tryAnalysis_cases (mlAnalysis : outcome PolicyAnalyzer.MlModule)
      (s : PolicyAnalyzer.State) :
  exists toast s',
    PolicyAnalyzer.tryAnalysis mlAnalysis s = (toast, s')
    /\ PolicyAnalyzer.analysisQuery s' = PolicyAnalyzer.analysisQuery s
    /\ PolicyAnalyzer.uploadedDoc s' = PolicyAnalyzer.uploadedDoc s
    /\ ((exists e,
           toast = PolicyAnalyzer.analysisFailed e
           /\ PolicyAnalyzer.policyMatches s' = PolicyAnalyzer.policyMatches s)
        \/ (exists ml text results,
              mlAnalysis = Returned ml
              /\ PolicyAnalyzer.textToAnalyze ml s = Returned text
              /\ settled (PolicyAnalyzer.analyzeText ml text)
                 = Returned results
              /\ toast
                 = analysisComplete
                     (PollutionDetector.digits (List.length results))
              /\ PolicyAnalyzer.policyMatches s' = Some results)).
Proof.
  unfold PolicyAnalyzer.tryAnalysis.
  destruct mlAnalysis as [ml|e].
  2: { exists (PolicyAnalyzer.analysisFailed e), s.
       repeat split. left. eauto. }
  destruct (PolicyAnalyzer.textToAnalyze ml s) as [text|e] eqn:Htext.
  2: { exists (PolicyAnalyzer.analysisFailed e), s.
       repeat split. left. eauto. }
  destruct (setAnalysisProgress_frame
              (progress (PolicyAnalyzer.analyzeText ml text)) s)
    as (Hq & Hd & _ & Hm).
  cbv zeta.
  destruct (settled (PolicyAnalyzer.analyzeText ml text))
    as [results|e] eqn:Hrun.
  - eexists. eexists. split; [reflexivity|].
    simpl. split; [exact Hq|]. split; [exact Hd|].
    right. exists ml, text, results.
    split; [reflexivity|]. split; [exact Htext|]. split; [exact Hrun|].
    split; reflexivity.
  - eexists. eexists. split; [reflexivity|].
    split; [exact Hq|]. split; [exact Hd|].
    left. exists e. split; [reflexivity | exact Hm].
Qed.

(** X15. performAnalysis asks for input exactly when there is neither a
    query nor a document: it shows the toast "Input Required" in that case
    and in no other, and then it changes nothing of the state, however the
    import of the ML module would settle. *)
Theorem performAnalysis_asks_for_input :
  forall (mlAnalysis : outcome PolicyAnalyzer.MlModule)
         (s : PolicyAnalyzer.State),
    (fst (PolicyAnalyzer.performAnalysis mlAnalysis s) = [inputRequired]
     <-> ~ inputGiven s)
    /\ (~ inputGiven s -> snd (PolicyAnalyzer.performAnalysis mlAnalysis s) = s).
Proof.
  intros mlAnalysis s. unfold PolicyAnalyzer.performAnalysis.
  pose proof (inputGiven_iff s) as Hiff.
  destruct (negb (PolicyAnalyzer.truthy (PolicyAnalyzer.analysisQuery s))
            && match PolicyAnalyzer.uploadedDoc s with
               | None => true
               | Some _ => false
               end) eqn:Hcond.
  - assert (~ inputGiven s) as Hno
        by (intros H; apply Hiff in H; discriminate).
    simpl. repeat split; auto.
  - assert (inputGiven s) as Hyes by (apply Hiff; reflexivity).
    split; [|intros Hno; contradiction].
    split; [|intros Hno; contradiction].
    cbv zeta.
    destruct (tryAnalysis_cases mlAnalysis
                (PolicyAnalyzer.setAnalysisProgress
                   (PolicyAnalyzer.setIsAnalyzing true s) 0%float))
      as (toast & s' & -> & _ & _ & [(e & -> & _)|(ml & text & results & _ & _ & _ & -> & _)]);
      simpl; intros H; injection H as H; discriminate.
Qed.

(** X16. Once there is input, performAnalysis shows exactly one toast and
    ends with isAnalyzing false, the query and the document as they were,
    whatever fails.  Either the toast is the destructive "Analysis Failed"
    and the matches on display are those from before, or the toast is
    "Analysis Complete" with the number of matches that analyzeText
    returned, which are then the matches on display. *)
Theorem performAnalysis_ends_analysis :
  forall (mlAnalysis : outcome PolicyAnalyzer.MlModule)
         (s : PolicyAnalyzer.State),
    inputGiven s ->
    exists toast s',
      PolicyAnalyzer.performAnalysis mlAnalysis s = ([toast], s')
      /\ PolicyAnalyzer.isAnalyzing s' = false
      /\ PolicyAnalyzer.analysisQuery s' = PolicyAnalyzer.analysisQuery s
      /\ PolicyAnalyzer.uploadedDoc s' = PolicyAnalyzer.uploadedDoc s
      /\ ((exists message,
             toast = PolicyAnalyzer.analysisFailed message
             /\ PolicyAnalyzer.policyMatches s'
                = PolicyAnalyzer.policyMatches s)
          \/ (exists ml text results,
                mlAnalysis = Returned ml
                /\ settled (PolicyAnalyzer.analyzeText ml text)
                   = Returned results
                /\ toast
                   = analysisComplete
                       (PollutionDetector.digits (List.length results))
                /\ PolicyAnalyzer.policyMatches s' = Some results)).
Proof.
  intros mlAnalysis s Hinput. unfold PolicyAnalyzer.performAnalysis.
  apply inputGiven_iff in Hinput. rewrite Hinput. cbv zeta.
  destruct (tryAnalysis_cases mlAnalysis
              (PolicyAnalyzer.setAnalysisProgress
                 (PolicyAnalyzer.setIsAnalyzing true s) 0%float))
    as (toast & s' & -> & Hq & Hd & Hcases).
  exists toast. eexists. split; [reflexivity|].
  simpl in Hq, Hd |- *. split; [reflexivity|].
  split; [exact Hq|]. split; [exact Hd|].
  destruct Hcases as [(e & -> & Hm)|(ml & text & results & -> & _ & Hrun & -> & Hm)].
  - left. exists e. split; [reflexivity | exact Hm].
  - right. exists ml, text, results. repeat split; assumption.
Qed.

(** X16 on a query analysed by a module that cannot be imported: the
    failure toast, and the earlier matches stay. *)
Lemma performAnalysis_ends_analysis_witness :
  exists toast s',
    PolicyAnalyzer.performAnalysis (Threw (lit "Failed to fetch"))
      MoreSamples.analyzer = ([toast], s')
    /\ PolicyAnalyzer.isAnalyzing s' = false
    /\ PolicyAnalyzer.analysisQuery s' = Sample.text
    /\ PolicyAnalyzer.uploadedDoc s' = None
    /\ ((exists message,
           toast = PolicyAnalyzer.analysisFailed message
           /\ PolicyAnalyzer.policyMatches s' = Some [])
        \/ (exists ml text results,
              Threw (lit "Failed to fetch") = Returned ml
              /\ settled (PolicyAnalyzer.analyzeText ml text)
                 = Returned results
              /\ toast
                 = analysisComplete
                     (PollutionDetector.digits (List.length results))
              /\ PolicyAnalyzer.policyMatches s' = Some results)).
Proof.
  apply (performAnalysis_ends_analysis (Threw (lit "Failed to fetch"))
           MoreSamples.analyzer).
  left. discriminate.
Defined.

(** extractTextFromFile fails with one message only. *)
Lemma extractTextFromFile_message readAsText file e :
  Files.extractTextFromFile readAsText file = Threw e ->
  e = lit "Failed to read file".
Proof.
  unfold Files.extractTextFromFile.
  destruct (Files.strictEquals _ _); [|discriminate].
  destruct (readAsText file); [discriminate|].
  intros H. injection H as <-. reflexivity.
Qed.

(** The rows of the table of the ML module are active and are not the
    fourth row of the table of the component. *)
Lemma policyDatabase_active policy :
  In policy policyDatabase ->
  PolicyDocument.status policy = active
  /\ PolicyDocument.id policy <> lit "4".
Proof.
  intros [<-|[<-|[<-|[]]]]; split; solve [reflexivity | discriminate].
Qed.

(** X17. Once there is a query or an uploaded document, the PolicyAnalyzer
    with the keyword revision of the ML module does one of two things.
    Either it announces "Found 3 relevant policy
    matches using AI analysis.", shows one match per row of the table of
    the ML module, all of active policies, and leaves the progress at 100;
    or it shows "Analysis Failed" with one of two messages ("Failed to
    read file" from the document, "Failed to analyze text. Please try
    again." from the model), keeps the earlier matches and leaves the
    progress at 0, 20 or 40.  The fourth row of the table that the
    component declares, the draft Global Plastics Treaty, is never
    shown. *)
Theorem performAnalysis_with_keyword_module :
  forall (toLowerCase : JSString -> JSString)
         (getTextClassifier : outcome Keyword.TextClassifier)
         (readAsText : PollutionDetector.File -> outcome JSString)
         (s : PolicyAnalyzer.State),
    inputGiven s ->
    let done :=
      PolicyAnalyzer.performAnalysis
        (Returned (keywordModule toLowerCase getTextClassifier readAsText))
        s in
    (exists matches,
        fst done = [analysisComplete (lit "3")]
        /\ PolicyAnalyzer.policyMatches (snd done) = Some matches
        /\ PolicyAnalyzer.analysisProgress (snd done) = 100%float
        /\ onePerPolicy matches
        /\ (forall m, In m matches ->
              PolicyDocument.status (PolicyMatch.document m) = active
              /\ PolicyDocument.id (PolicyMatch.document m) <> lit "4"))
    \/ (exists message,
          fst done = [PolicyAnalyzer.analysisFailed message]
          /\ (message = lit "Failed to read file"
              \/ message = lit "Failed to analyze text. Please try again.")
          /\ PolicyAnalyzer.policyMatches (snd done)
             = PolicyAnalyzer.policyMatches s
          /\ In (PolicyAnalyzer.analysisProgress (snd done))
                [0; 20; 40]%float).
Proof.
  intros toLowerCase getTextClassifier readAsText s Hinput.
  apply inputGiven_iff in Hinput.
  unfold PolicyAnalyzer.performAnalysis. rewrite Hinput.
  unfold PolicyAnalyzer.tryAnalysis.
  destruct (PolicyAnalyzer.textToAnalyze _ _) as [text|e] eqn:Htext.
  - change (PolicyAnalyzer.analyzeText
              (keywordModule toLowerCase getTextClassifier readAsText))
      with (Keyword.analyzeText toLowerCase getTextClassifier).
    destruct getTextClassifier as [classifier|e].
    + destruct (classifier text) as [sentiment|e] eqn:Hsentiment.
      * left. rewrite (Keyword_run _ _ _ _ Hsentiment).
        eexists. cbn [progress settled fst snd].
        assert (List.length
                  (policyMatches (Keyword.detectedType toLowerCase text)
                                 (Keyword.confidence toLowerCase text)) = 3)
          as Hlength by apply policyMatches_onePerPolicy.
        rewrite Hlength.
        split; [reflexivity|]. split; [reflexivity|].
        split; [reflexivity|]. split; [apply policyMatches_onePerPolicy|].
        intros m Hm.
        destruct (policyMatches_sameButRelevance _ _ _ Hm)
          as (policy & Hpolicy & Hid & _ & _ & _ & _ & _ & _ & Hstatus).
        rewrite Hid, Hstatus. apply policyDatabase_active, Hpolicy.
      * right. unfold Keyword.analyzeText. simpl. rewrite Hsentiment. simpl.
        eexists. split; [reflexivity|]. split; [right; reflexivity|].
        split; [reflexivity|]. right. right. left. reflexivity.
    + right. unfold Keyword.analyzeText. simpl.
      eexists. split; [reflexivity|]. split; [right; reflexivity|].
      split; [reflexivity|]. right. left. reflexivity.
  - right. simpl. exists e. split; [reflexivity|].
    split; [|split; [reflexivity | left; reflexivity]].
    left. unfold PolicyAnalyzer.textToAnalyze in Htext. simpl in Htext.
    destruct (PolicyAnalyzer.uploadedDoc s) as [doc|]; [|discriminate].
    destruct (Files.extractTextFromFile readAsText doc) as [text|e']
      eqn:Hfile.
    + destruct (PolicyAnalyzer.truthy _); discriminate.
    + injection Htext as <-.
      apply extractTextFromFile_message in Hfile. exact Hfile.
Qed.

(** X17 on the sample query and a model that answers. *)
Lemma performAnalysis_with_keyword_module_witness :
  (exists matches,
      fst (PolicyAnalyzer.performAnalysis
             (Returned (MoreSamples.ml MoreSamples.readBytes))
             MoreSamples.analyzer)
      = [analysisComplete (lit "3")]
      /\ PolicyAnalyzer.policyMatches
           (snd (PolicyAnalyzer.performAnalysis
                   (Returned (MoreSamples.ml MoreSamples.readBytes))
                   MoreSamples.analyzer))
         = Some matches
      /\ PolicyAnalyzer.analysisProgress
           (snd (PolicyAnalyzer.performAnalysis
                   (Returned (MoreSamples.ml MoreSamples.readBytes))
                   MoreSamples.analyzer))
         = 100%float
      /\ onePerPolicy matches
      /\ (forall m, In m matches ->
            PolicyDocument.status (PolicyMatch.document m) = active
            /\ PolicyDocument.id (PolicyMatch.document m) <> lit "4"))
  \/ (exists message,
        fst (PolicyAnalyzer.performAnalysis
               (Returned (MoreSamples.ml MoreSamples.readBytes))
               MoreSamples.analyzer)
        = [PolicyAnalyzer.analysisFailed message]
        /\ (message = lit "Failed to read file"
            \/ message = lit "Failed to analyze text. Please try again.")
        /\ PolicyAnalyzer.policyMatches
             (snd (PolicyAnalyzer.performAnalysis
                     (Returned (MoreSamples.ml MoreSamples.readBytes))
                     MoreSamples.analyzer))
           = Some []
        /\ In (PolicyAnalyzer.analysisProgress
                 (snd (PolicyAnalyzer.performAnalysis
                         (Returned (MoreSamples.ml MoreSamples.readBytes))
                         MoreSamples.analyzer)))
              [0; 20; 40]%float).
Proof.
  apply (performAnalysis_with_keyword_module asciiLower
           (Returned Sample.keywordClassifier) MoreSamples.readBytes
           MoreSamples.analyzer).
  left. discriminate.
Defined.

(** X18. Of an uploaded document that is not plain text, the PolicyAnalyzer
    analyses the name and nothing else: two runs with the same query on
    documents of the same name show the same toast and the same matches,
    whatever the documents contain and whatever the file reader does. *)
Theorem performAnalysis_reads_only_the_name :
  forall (toLowerCase : JSString -> JSString)
         (getTextClassifier : outcome Keyword.TextClassifier)
         (readAsText readAsText' : PollutionDetector.File -> outcome JSString)
         (s s' : PolicyAnalyzer.State) (doc doc' : PollutionDetector.File),
    PolicyAnalyzer.uploadedDoc s = Some doc ->
    PolicyAnalyzer.uploadedDoc s' = Some doc' ->
    PollutionDetector.mimeType doc <> lit "text/plain" ->
    PollutionDetector.mimeType doc' <> lit "text/plain" ->
    PollutionDetector.name doc = PollutionDetector.name doc' ->
    PolicyAnalyzer.analysisQuery s = PolicyAnalyzer.analysisQuery s' ->
    PolicyAnalyzer.policyMatches s = PolicyAnalyzer.policyMatches s' ->
    let done :=
      PolicyAnalyzer.performAnalysis
        (Returned (keywordModule toLowerCase getTextClassifier readAsText))
        s in
    let done' :=
      PolicyAnalyzer.performAnalysis
        (Returned (keywordModule toLowerCase getTextClassifier readAsText'))
        s' in
    fst done = fst done'
    /\ PolicyAnalyzer.policyMatches (snd done)
       = PolicyAnalyzer.policyMatches (snd done')
    /\ PolicyAnalyzer.analysisProgress (snd done)
       = PolicyAnalyzer.analysisProgress (snd done').
Proof.
  intros toLowerCase getTextClassifier readAsText readAsText' s s' doc doc'
         Hdoc Hdoc' Htype Htype' Hname Hquery Hmatches.
  unfold PolicyAnalyzer.performAnalysis.
  rewrite Hdoc, Hdoc', !andb_false_r.
  unfold PolicyAnalyzer.tryAnalysis, PolicyAnalyzer.textToAnalyze.
  cbn [PolicyAnalyzer.uploadedDoc PolicyAnalyzer.analysisQuery
       PolicyAnalyzer.setAnalysisProgress PolicyAnalyzer.setIsAnalyzing
       keywordModule PolicyAnalyzer.extractTextFromFile
       PolicyAnalyzer.analyzeText].
  rewrite Hdoc, Hdoc', <- Hquery.
  unfold Files.extractTextFromFile.
  destruct (Files.strictEquals (PollutionDetector.mimeType doc)
              (lit "text/plain")) eqn:H;
    [apply strictEquals_iff in H; contradiction|].
  destruct (Files.strictEquals (PollutionDetector.mimeType doc')
              (lit "text/plain")) eqn:H';
    [apply strictEquals_iff in H'; contradiction|].
  rewrite <- Hname.
  assert (forall text,
             let run := Keyword.analyzeText toLowerCase getTextClassifier
                          text in
             forall t t' : PolicyAnalyzer.State,
               PolicyAnalyzer.policyMatches t = PolicyAnalyzer.policyMatches t' ->
               PolicyAnalyzer.analysisProgress t
               = PolicyAnalyzer.analysisProgress t' ->
               PolicyAnalyzer.policyMatches
                 (fold_left PolicyAnalyzer.setAnalysisProgress (progress run) t)
               = PolicyAnalyzer.policyMatches
                   (fold_left PolicyAnalyzer.setAnalysisProgress
                      (progress run) t')
               /\ PolicyAnalyzer.analysisProgress
                    (fold_left PolicyAnalyzer.setAnalysisProgress
                       (progress run) t)
                  = PolicyAnalyzer.analysisProgress
                      (fold_left PolicyAnalyzer.setAnalysisProgress
                         (progress run) t')) as Hfold.
  { intros text run. induction (progress run) as [|value reported IH];
      intros t t' Hm Hp; simpl; [split; assumption|].
    apply IH; simpl; [assumption | reflexivity]. }
  destruct (PolicyAnalyzer.truthy (PolicyAnalyzer.analysisQuery s)).
  - match goal with
    | |- context [Keyword.analyzeText toLowerCase getTextClassifier ?text] =>
        specialize (Hfold text)
    end.
    cbv zeta in Hfold.
    destruct (settled (Keyword.analyzeText toLowerCase getTextClassifier _))
      as [results|e]; simpl; (split; [reflexivity|]);
      try (split; [reflexivity|]); apply Hfold; simpl; auto.
  - match goal with
    | |- context [Keyword.analyzeText toLowerCase getTextClassifier ?text] =>
        specialize (Hfold text)
    end.
    cbv zeta in Hfold.
    destruct (settled (Keyword.analyzeText toLowerCase getTextClassifier _))
      as [results|e]; simpl; (split; [reflexivity|]);
      try (split; [reflexivity|]); apply Hfold; simpl; auto.
Qed.

(** X18 on two reports of the same name, one of them unreadable. *)
Lemma performAnalysis_reads_only_the_name_witness :
  fst (PolicyAnalyzer.performAnalysis
         (Returned (MoreSamples.ml MoreSamples.readBytes))
         (MoreSamples.analyzerWith MoreSamples.report))
  = fst (PolicyAnalyzer.performAnalysis
           (Returned (MoreSamples.ml MoreSamples.unreadable))
           (MoreSamples.analyzerWith MoreSamples.otherReport))
  /\ PolicyAnalyzer.policyMatches
       (snd (PolicyAnalyzer.performAnalysis
               (Returned (MoreSamples.ml MoreSamples.readBytes))
               (MoreSamples.analyzerWith MoreSamples.report)))
     = PolicyAnalyzer.policyMatches
         (snd (PolicyAnalyzer.performAnalysis
                 (Returned (MoreSamples.ml MoreSamples.unreadable))
                 (MoreSamples.analyzerWith MoreSamples.otherReport)))
  /\ PolicyAnalyzer.analysisProgress
       (snd (PolicyAnalyzer.performAnalysis
               (Returned (MoreSamples.ml MoreSamples.readBytes))
               (MoreSamples.analyzerWith MoreSamples.report)))
     = PolicyAnalyzer.analysisProgress
         (snd (PolicyAnalyzer.performAnalysis
                 (Returned (MoreSamples.ml MoreSamples.unreadable))
                 (MoreSamples.analyzerWith MoreSamples.otherReport))).
Proof.
  apply (performAnalysis_reads_only_the_name asciiLower
           (Returned Sample.keywordClassifier)
           MoreSamples.readBytes MoreSamples.unreadable
           (MoreSamples.analyzerWith MoreSamples.report)
           (MoreSamples.analyzerWith MoreSamples.otherReport)
           MoreSamples.report MoreSamples.otherReport);
    solve [reflexivity | discriminate].
Defined.

(* ----------------------------------------------------------------- *)
(** ** The usePollutionData hook *)

Lemma fails_orThrow {D : Type} (query : outcome (UsePollutionData.Response D))
      (message : JSString) :
  fails query message <-> UsePollutionData.orThrow query = Threw message.
Proof.
  unfold fails, UsePollutionData.orThrow. split.
  - intros [->|[data ->]]; reflexivity.
  - destruct query as [[data [e|]]|e]; simpl; intros H;
      try discriminate; injection H as <-; eauto.
Qed.

Lemma succeeds_orThrow {D : Type}
      (query : outcome (UsePollutionData.Response D)) (data : option D) :
  succeeds query data -> UsePollutionData.orThrow query = Returned data.
Proof. intros ->. reflexivity. Qed.

(** X19. fetchIncidents always ends with loading false.  When the select
    succeeds it replaces the list by the rows (by the empty list for null
    data) and leaves the error as it was; when the select fails it keeps
    the list and sets the error to the message, also when data came with
    the error. *)
Theorem fetchIncidents_replaces_or_reports :
  forall (query : outcome (UsePollutionData.Response
                             (list UsePollutionData.PollutionIncident)))
         (s : UsePollutionData.State),
    let s' := UsePollutionData.fetchIncidents query s in
    UsePollutionData.loading s' = false
    /\ (forall rows,
          succeeds query (Some rows) ->
          UsePollutionData.incidents s' = rows
          /\ UsePollutionData.error s' = UsePollutionData.error s)
    /\ (succeeds query None ->
        UsePollutionData.incidents s' = []
        /\ UsePollutionData.error s' = UsePollutionData.error s)
    /\ (forall message,
          fails query message ->
          UsePollutionData.incidents s' = UsePollutionData.incidents s
          /\ UsePollutionData.error s' = Some message).
Proof.
  intros query s. unfold UsePollutionData.fetchIncidents.
  split; [reflexivity|]. split; [|split].
  - intros rows H. rewrite (succeeds_orThrow _ _ H). split; reflexivity.
  - intros H. rewrite (succeeds_orThrow _ _ H). split; reflexivity.
  - intros message H. apply fails_orThrow in H. rewrite H.
    split; reflexivity.
Qed.

(** No setter call of the hook clears the error. *)
Lemma effect_keeps_error (operation : UsePollutionData.Operation)
      (effect : UsePollutionData.Effect) (s : UsePollutionData.State) :
  In effect (UsePollutionData.effectsOf operation) ->
  UsePollutionData.error (UsePollutionData.apply s effect)
  = UsePollutionData.error s
  \/ exists message,
       UsePollutionData.error (UsePollutionData.apply s effect) = Some message.
Proof.
  assert (forall query,
             In effect (UsePollutionData.fetchIncidentsEffects query) ->
             UsePollutionData.error (UsePollutionData.apply s effect)
             = UsePollutionData.error s
             \/ exists message,
                  UsePollutionData.error (UsePollutionData.apply s effect)
                  = Some message) as Hfetch.
  { intros query. unfold UsePollutionData.fetchIncidentsEffects.
    destruct (UsePollutionData.orThrow query);
      intros [<-|[<-|[<-|[]]]]; simpl; eauto. }
  destruct operation as [query|write refresh|write refresh|write refresh];
    simpl; try apply Hfetch;
    unfold UsePollutionData.writeEffects;
    (destruct (UsePollutionData.orThrow write);
     [apply Hfetch | intros [<-|[]]; simpl; eauto]).
Qed.

Lemma fetchIncidents_effects query (s : UsePollutionData.State) :
  UsePollutionData.fetchIncidents query s
  = fold_left UsePollutionData.apply
              (UsePollutionData.fetchIncidentsEffects query) s.
Proof.
  unfold UsePollutionData.fetchIncidents,
    UsePollutionData.fetchIncidentsEffects.
  destruct (UsePollutionData.orThrow query); reflexivity.
Qed.

(** X20. The state that an operation of the hook leaves is the one that
    its setter calls make, one after the other; and no setter call the
    hook makes clears its error.  Once the error is set it is set in every
    state the hook goes through: between the setter calls of an operation
    as well as after it, through every sequence of fetches, creations,
    updates and deletions, however their setter calls interleave, and also
    when they all succeed and the list is fresh again. *)
Theorem hook_error_is_never_cleared :
  (forall (s : UsePollutionData.State)
          (operation : UsePollutionData.Operation),
      UsePollutionData.step s operation
      = fold_left UsePollutionData.apply
                  (UsePollutionData.effectsOf operation) s)
  /\ (forall (operations : list UsePollutionData.Operation)
             (s : UsePollutionData.State),
        fold_left UsePollutionData.step operations s
        = fold_left UsePollutionData.apply
                    (flat_map UsePollutionData.effectsOf operations) s)
  /\ (forall (effects : list UsePollutionData.Effect)
             (s : UsePollutionData.State) (message : JSString),
        (forall effect,
            In effect effects ->
            exists operation,
              In effect (UsePollutionData.effectsOf operation)) ->
        UsePollutionData.error s = Some message ->
        exists message',
          UsePollutionData.error
            (fold_left UsePollutionData.apply effects s) = Some message').
Proof.
  assert (forall (s : UsePollutionData.State)
                 (operation : UsePollutionData.Operation),
             UsePollutionData.step s operation
             = fold_left UsePollutionData.apply
                         (UsePollutionData.effectsOf operation) s) as Hstep;
    [|split; [exact Hstep | split]].
  - intros s [query|write refresh|write refresh|write refresh]; simpl.
    + apply fetchIncidents_effects.
    + unfold UsePollutionData.createIncident,
        UsePollutionData.writeThenRefresh, UsePollutionData.writeEffects.
      destruct (UsePollutionData.orThrow write); simpl;
        [apply fetchIncidents_effects | reflexivity].
    + unfold UsePollutionData.updateIncident,
        UsePollutionData.writeThenRefresh, UsePollutionData.writeEffects.
      destruct (UsePollutionData.orThrow write); simpl;
        [apply fetchIncidents_effects | reflexivity].
    + unfold UsePollutionData.deleteIncident, UsePollutionData.writeEffects.
      destruct (UsePollutionData.orThrow write); simpl;
        [apply fetchIncidents_effects | reflexivity].
  - intros operations.
    induction operations as [|operation operations IH]; intros s;
      [reflexivity|].
    simpl. rewrite fold_left_app, <- Hstep. apply IH.
  - intros effects.
    induction effects as [|effect effects IH]; intros s message Hemitted Hs.
    + exists message. exact Hs.
    + destruct (Hemitted effect (or_introl eq_refl)) as [operation Hin].
      simpl.
      destruct (effect_keeps_error operation effect s Hin)
        as [Hsame|[message' Hset]].
      * apply (IH _ message);
          [intros e He; apply Hemitted; right; exact He|].
        rewrite Hsame. exact Hs.
      * apply (IH _ message');
          [intros e He; apply Hemitted; right; exact He | exact Hset].
Qed.

(** X20 on the hook after a failed fetch, in the middle of a fetch that
    succeeds: the list is fresh, loading is true and the error is still
    there. *)
Lemma hook_error_is_never_cleared_witness :
  UsePollutionData.incidents
    (fold_left UsePollutionData.apply MoreSamples.refetching
               MoreSamples.failed)
  = [MoreSamples.incident]
  /\ UsePollutionData.loading
       (fold_left UsePollutionData.apply MoreSamples.refetching
                  MoreSamples.failed)
     = true
  /\ exists message',
       UsePollutionData.error
         (fold_left UsePollutionData.apply MoreSamples.refetching
                    MoreSamples.failed) = Some message'.
Proof.
  split; [reflexivity|]. split; [reflexivity|].
  destruct hook_error_is_never_cleared as (_ & _ & Hkept).
  apply (Hkept MoreSamples.refetching MoreSamples.failed
           (lit "permission denied for table pollution_incidents")).
  - intros effect Hin.
    exists (UsePollutionData.Fetch (MoreSamples.resolved [MoreSamples.incident])).
    apply (In_firstn 2). exact Hin.
  - reflexivity.
Defined.

(** X21. A creation, update or deletion whose write fails throws the
    message of the failure, records it as the error of the hook, keeps the
    list and the loading flag, and does not refresh the list: the result
    is the same however the select would settle. *)
Theorem failed_write_skips_refresh :
  forall (write : outcome (UsePollutionData.Response
                             UsePollutionData.PollutionIncident))
         (delete : outcome (UsePollutionData.Response unit))
         (refresh refresh' : outcome (UsePollutionData.Response
                                        (list UsePollutionData.PollutionIncident)))
         (s : UsePollutionData.State) (message : JSString),
    let failure :=
      {| UsePollutionData.incidents := UsePollutionData.incidents s;
         UsePollutionData.loading := UsePollutionData.loading s;
         UsePollutionData.error := Some message |} in
    (fails write message ->
     UsePollutionData.createIncident write refresh s
     = (Threw message, failure)
     /\ UsePollutionData.updateIncident write refresh s
        = (Threw message, failure)
     /\ UsePollutionData.createIncident write refresh s
        = UsePollutionData.createIncident write refresh' s
     /\ UsePollutionData.updateIncident write refresh s
        = UsePollutionData.updateIncident write refresh' s)
    /\ (fails delete message ->
        UsePollutionData.deleteIncident delete refresh s
        = (Threw message, failure)
        /\ UsePollutionData.deleteIncident delete refresh s
           = UsePollutionData.deleteIncident delete refresh' s).
Proof.
  intros write delete refresh refresh' s message failure. split.
  - intros H. apply fails_orThrow in H.
    unfold UsePollutionData.createIncident, UsePollutionData.updateIncident,
      UsePollutionData.writeThenRefresh.
    rewrite H. repeat split.
  - intros H. apply fails_orThrow in H.
    unfold UsePollutionData.deleteIncident. rewrite H. repeat split.
Qed.

(** X22. A creation, update or deletion whose write succeeds returns
    normally even when the refresh of the list fails: the caller gets the
    written row and no exception, while the hook keeps the list from
    before the write and reports the message of the refresh as its
    error. *)
Theorem write_succeeds_with_stale_list :
  forall (write : outcome (UsePollutionData.Response
                             UsePollutionData.PollutionIncident))
         (delete : outcome (UsePollutionData.Response unit))
         (refresh : outcome (UsePollutionData.Response
                               (list UsePollutionData.PollutionIncident)))
         (s : UsePollutionData.State)
         (row : option UsePollutionData.PollutionIncident)
         (done : option unit) (message : JSString),
    fails refresh message ->
    let stale :=
      {| UsePollutionData.incidents := UsePollutionData.incidents s;
         UsePollutionData.loading := false;
         UsePollutionData.error := Some message |} in
    (succeeds write row ->
     UsePollutionData.createIncident write refresh s = (Returned row, stale)
     /\ UsePollutionData.updateIncident write refresh s
        = (Returned row, stale))
    /\ (succeeds delete done ->
        UsePollutionData.deleteIncident delete refresh s
        = (Returned tt, stale)).
Proof.
  intros write delete refresh s row done message Hrefresh stale.
  apply fails_orThrow in Hrefresh.
  split; intros H; apply succeeds_orThrow in H.
  - unfold UsePollutionData.createIncident, UsePollutionData.updateIncident,
      UsePollutionData.writeThenRefresh, UsePollutionData.fetchIncidents.
    rewrite H, Hrefresh. split; reflexivity.
  - unfold UsePollutionData.deleteIncident, UsePollutionData.fetchIncidents.
    rewrite H, Hrefresh. reflexivity.
Qed.

(** X22 on an insert that succeeds and a select that is refused. *)
Lemma write_succeeds_with_stale_list_witness :
  UsePollutionData.createIncident
    (MoreSamples.resolved MoreSamples.incident) MoreSamples.refused
    UsePollutionData.initial
  = (Returned (Some MoreSamples.incident),
     {| UsePollutionData.incidents := [];
        UsePollutionData.loading := false;
        UsePollutionData.error :=
          Some (lit "permission denied for table pollution_incidents") |}).
Proof.
  apply (write_succeeds_with_stale_list
           (MoreSamples.resolved MoreSamples.incident)
           (MoreSamples.resolved tt) MoreSamples.refused
           UsePollutionData.initial (Some MoreSamples.incident) (Some tt)
           (lit "permission denied for table pollution_incidents")).
  - right. exists None. reflexivity.
  - reflexivity.
Defined.

(* ----------------------------------------------------------------- *)
(** ** The InteractiveMap component: its filters and its markers *)

Section MapFilters.
Variable toLowerCase : JSString -> JSString.

Lemma shown_iff filterType filterSeverity incident :
  InteractiveMap.shown toLowerCase filterType filterSeverity incident = true
  <-> (filterType = lit "all"
       \/ includes (toLowerCase (InteractiveMap.type incident))
                   (toLowerCase filterType) = true)
      /\ (filterSeverity = lit "all"
          \/ InteractiveMap.severityName (InteractiveMap.severity incident)
             = filterSeverity).
Proof.
  unfold InteractiveMap.shown.
  rewrite andb_true_iff, !orb_true_iff, !strictEquals_iff. reflexivity.
Qed.

Lemma filteredIncidents_iff filterType filterSeverity incident :
  In incident
     (InteractiveMap.filteredIncidents toLowerCase filterType filterSeverity)
  <-> In incident InteractiveMap.incidents
      /\ (filterType = lit "all"
          \/ includes (toLowerCase (InteractiveMap.type incident))
                      (toLowerCase filterType) = true)
      /\ (filterSeverity = lit "all"
          \/ InteractiveMap.severityName (InteractiveMap.severity incident)
             = filterSeverity).
Proof.
  unfold InteractiveMap.filteredIncidents.
  rewrite filter_In, shown_iff. reflexivity.
Qed.

Lemma incidents_severities incident :
  In incident InteractiveMap.incidents ->
  In (InteractiveMap.severityName (InteractiveMap.severity incident))
     (map lit ["medium"; "high"; "critical"]%string).
Proof.
  intros [<-|[<-|[<-|[<-|[]]]]]; simpl; auto.
Qed.

End MapFilters.

(** X23. The two filters of the map.  With both on "all" every incident is
    shown.  The filters work independently: an incident is shown under a
    type filter and a severity filter exactly when it is shown under each
    of them alone.  A severity filter other than "all" shows incidents of
    exactly that severity, compared as written (no lower-casing, unlike
    the type filter), so that any severity other than "medium", "high" and
    "critical" shows nothing. *)
Theorem map_filters_are_independent :
  forall (toLowerCase : JSString -> JSString)
         (filterType filterSeverity : JSString),
    InteractiveMap.filteredIncidents toLowerCase (lit "all") (lit "all")
    = InteractiveMap.incidents
    /\ (forall incident,
          In incident (InteractiveMap.filteredIncidents toLowerCase
                         filterType filterSeverity)
          <-> In incident (InteractiveMap.filteredIncidents toLowerCase
                             filterType (lit "all"))
              /\ In incident (InteractiveMap.filteredIncidents toLowerCase
                                (lit "all") filterSeverity))
    /\ (filterSeverity <> lit "all" ->
        forall incident,
          In incident (InteractiveMap.filteredIncidents toLowerCase
                         filterType filterSeverity) ->
          InteractiveMap.severityName (InteractiveMap.severity incident)
          = filterSeverity)
    /\ (~ In filterSeverity
             (map lit ["all"; "medium"; "high"; "critical"]%string) ->
        InteractiveMap.filteredIncidents toLowerCase filterType filterSeverity
        = []).
Proof.
  intros toLowerCase filterType filterSeverity.
  split; [reflexivity|]. split; [|split].
  - intros incident. rewrite !filteredIncidents_iff. tauto.
  - intros Hall incident Hin. apply filteredIncidents_iff in Hin.
    destruct Hin as (_ & _ & [H|H]); [contradiction | exact H].
  - intros Hnot.
    destruct (InteractiveMap.filteredIncidents toLowerCase filterType
                filterSeverity) as [|incident rest] eqn:Hshown;
      [reflexivity|].
    assert (In incident
               (InteractiveMap.filteredIncidents toLowerCase filterType
                  filterSeverity)) as Hin by (rewrite Hshown; left; reflexivity).
    apply filteredIncidents_iff in Hin. destruct Hin as (Hin & _ & Hseverity).
    exfalso. apply Hnot. destruct Hseverity as [->|<-].
    + left. reflexivity.
    + right. apply incidents_severities. exact Hin.
Qed.

(** X24. Narrowing the type filter never shows more: if a filter text
    other than "all" contains, both lower-cased, another filter text,
    every incident it shows is shown by the other one too.  (The text
    "all" is not searched for: it shows every incident.) *)
Theorem map_type_filter_narrows :
  forall (toLowerCase : JSString -> JSString)
         (filterType narrower filterSeverity : JSString),
    narrower <> lit "all" ->
    includes (toLowerCase narrower) (toLowerCase filterType) = true ->
    forall incident,
      In incident (InteractiveMap.filteredIncidents toLowerCase narrower
                     filterSeverity) ->
      In incident (InteractiveMap.filteredIncidents toLowerCase filterType
                     filterSeverity).
Proof.
  intros toLowerCase filterType narrower filterSeverity Hall Hpiece incident.
  rewrite !filteredIncidents_iff. intros (Hin & [H|H] & Hseverity);
    [contradiction|].
  split; [exact Hin|]. split; [|exact Hseverity].
  right. eapply includes_trans; eassumption.
Qed.

(** X24 on the filters "Oil Spill" and "oil". *)
Lemma map_type_filter_narrows_witness :
  In MoreSamples.oilSpill
     (InteractiveMap.filteredIncidents asciiLower (lit "oil") (lit "all")).
Proof.
  apply (map_type_filter_narrows asciiLower (lit "oil") (lit "Oil Spill")
           (lit "all")).
  - discriminate.
  - reflexivity.
  - vm_compute. left. reflexivity.
Defined.

(** X25. The markers of the map.  The marker of the incident at an index
    of the filtered list sits at 20 + 15 * index percent from the left
    and 30 + 10 * index percent from the top; whatever the filters, every
    marker is within the map (at most 65 percent from the left and 60
    from the top), and it sits strictly to the right of and below the
    marker of every earlier incident of the list, so that no two markers
    coincide. *)
Theorem map_markers_stay_apart :
  forall (toLowerCase : JSString -> JSString)
         (filterType filterSeverity : JSString) (index : nat),
    index < List.length (InteractiveMap.filteredIncidents toLowerCase
                           filterType filterSeverity) ->
    let here := InteractiveMap.markerPosition index in
    (20 <=? fst here)%float = true /\ (fst here <=? 65)%float = true
    /\ (30 <=? snd here)%float = true /\ (snd here <=? 60)%float = true
    /\ forall earlier, earlier < index ->
         let there := InteractiveMap.markerPosition earlier in
         (fst there <? fst here)%float = true
         /\ (snd there <? snd here)%float = true.
Proof.
  intros toLowerCase filterType filterSeverity index Hshown.
  assert (index < 4) as Hfour.
  { eapply Nat.lt_le_trans; [exact Hshown|].
    unfold InteractiveMap.filteredIncidents.
    apply (filter_length_le
             (InteractiveMap.shown toLowerCase filterType filterSeverity)
             InteractiveMap.incidents). }
  clear Hshown.
  destruct index as [|[|[|[|index]]]]; try lia;
    (repeat (split; [reflexivity|]));
    intros earlier Hearlier;
    destruct earlier as [|[|[|earlier]]]; try lia;
    split; reflexivity.
Qed.

(** X25 on the second marker of the unfiltered map. *)
Lemma map_markers_stay_apart_witness :
  (20 <=? fst (InteractiveMap.markerPosition 1))%float = true
  /\ (fst (InteractiveMap.markerPosition 1) <=? 65)%float = true
  /\ (30 <=? snd (InteractiveMap.markerPosition 1))%float = true
  /\ (snd (InteractiveMap.markerPosition 1) <=? 60)%float = true
  /\ (fst (InteractiveMap.markerPosition 0)
       <? fst (InteractiveMap.markerPosition 1))%float = true
  /\ (snd (InteractiveMap.markerPosition 0)
       <? snd (InteractiveMap.markerPosition 1))%float = true.
Proof.
  destruct (map_markers_stay_apart asciiLower (lit "all") (lit "all") 1)
    as (Hleft & Hright & Htop & Hbottom & Hearlier).
  - vm_compute. lia.
  - destruct (Hearlier 0) as [Hx Hy]; [lia|].
    repeat split; assumption.
Defined.

(* ----------------------------------------------------------------- *)
(** ** The PollutionDetector component: uploads and the simulated run *)

(** X26. The two ways to upload.  Picking a file takes it whatever its
    type and clears the results of the previous analysis; dropping a file
    does the same when its MIME type starts with "image/" and nothing at
    all otherwise; without a file both do nothing.  When the reader fails,
    the file is replaced and the preview is not: the preview of the
    previous file stays. *)
Theorem drop_takes_images_and_pick_takes_anything :
  forall (readAsDataURL : PollutionDetector.File -> outcome JSString)
         (file : PollutionDetector.File) (s : PollutionDetector.State),
    let picked := DetectorEvents.handleFileSelect readAsDataURL (Some file) s in
    let dropped := DetectorEvents.handleDrop readAsDataURL (Some file) s in
    PollutionDetector.imageFile picked = Some file
    /\ PollutionDetector.results picked = None
    /\ (isImage file -> dropped = picked)
    /\ (~ isImage file -> dropped = s)
    /\ (forall url, readAsDataURL file = Returned url ->
          PollutionDetector.imagePreview picked = Some url)
    /\ (forall e, readAsDataURL file = Threw e ->
          PollutionDetector.imagePreview picked
          = PollutionDetector.imagePreview s)
    /\ DetectorEvents.handleFileSelect readAsDataURL None s = s
    /\ DetectorEvents.handleDrop readAsDataURL None s = s.
Proof.
  intros readAsDataURL file s picked dropped.
  subst picked dropped. unfold isImage.
  unfold DetectorEvents.handleFileSelect, DetectorEvents.handleDrop.
  split; [reflexivity|]. split; [reflexivity|].
  split; [|split; [|split; [|split; [|split; reflexivity]]]].
  - intros H. apply startsWith_iff in H. rewrite H. reflexivity.
  - intros H.
    destruct (startsWith (PollutionDetector.mimeType file) (lit "image/"))
      eqn:Hstarts; [|reflexivity].
    apply startsWith_iff in Hstarts. contradiction.
  - intros url H. unfold DetectorEvents.accept. rewrite H. reflexivity.
  - intros e H. unfold DetectorEvents.accept. rewrite H. reflexivity.
Qed.

(** X27. simulateAnalysis without an image file does nothing: no effect,
    no toast, the state as it was.  With or without one it never touches
    the file and its preview, and running it again on the state it left
    gives the same effects and the same state. *)
Theorem simulateAnalysis_needs_a_file_and_repeats :
  forall (s : PollutionDetector.State),
    let s' := snd (PollutionDetector.simulateAnalysis s) in
    (PollutionDetector.imageFile s = None ->
     PollutionDetector.simulateAnalysis s = ([], s))
    /\ PollutionDetector.imageFile s' = PollutionDetector.imageFile s
    /\ PollutionDetector.imagePreview s' = PollutionDetector.imagePreview s
    /\ PollutionDetector.simulateAnalysis s'
       = PollutionDetector.simulateAnalysis s.
Proof.
  intros s.
  unfold PollutionDetector.simulateAnalysis,
    PollutionDetector.simulateAnalysisEffects.
  destruct (PollutionDetector.imageFile s) as [file|] eqn:Hfile; simpl.
  - rewrite Hfile. simpl.
    split; [discriminate|]. split; [reflexivity|]. split; reflexivity.
  - rewrite Hfile. repeat split.
Qed.

(** X28. The simulated analysis does not look at the file.  A file that is
    not an image, dropped on the empty detector, is ignored, and an
    analysis then does nothing; the same file picked with the file
    chooser is analysed, and the run ends with the three hardcoded
    detections. *)
Theorem simulateAnalysis_reports_pollution_in_any_picked_file :
  forall (readAsDataURL : PollutionDetector.File -> outcome JSString)
         (file : PollutionDetector.File) (s : PollutionDetector.State),
    PollutionDetector.imageFile s = None ->
    ~ isImage file ->
    PollutionDetector.simulateAnalysis
      (DetectorEvents.handleDrop readAsDataURL (Some file) s) = ([], s)
    /\ PollutionDetector.results
         (snd (PollutionDetector.simulateAnalysis
                 (DetectorEvents.handleFileSelect readAsDataURL (Some file)
                    s)))
       = Some PollutionDetector.mockResults.
Proof.
  intros readAsDataURL file s Hempty Hother. split.
  - unfold DetectorEvents.handleDrop.
    destruct (startsWith (PollutionDetector.mimeType file) (lit "image/"))
      eqn:Hstarts.
    + apply startsWith_iff in Hstarts. contradiction.
    + unfold PollutionDetector.simulateAnalysis,
        PollutionDetector.simulateAnalysisEffects.
      rewrite Hempty. reflexivity.
  - reflexivity.
Qed.

(** X28 on a PDF report. *)
Lemma simulateAnalysis_reports_pollution_in_any_picked_file_witness :
  PollutionDetector.simulateAnalysis
    (DetectorEvents.handleDrop MoreSamples.readBytes
       (Some MoreSamples.report) MoreSamples.empty)
  = ([], MoreSamples.empty)
  /\ PollutionDetector.results
       (snd (PollutionDetector.simulateAnalysis
               (DetectorEvents.handleFileSelect MoreSamples.readBytes
                  (Some MoreSamples.report) MoreSamples.empty)))
     = Some PollutionDetector.mockResults.
Proof.
  apply (simulateAnalysis_reports_pollution_in_any_picked_file
           MoreSamples.readBytes MoreSamples.report MoreSamples.empty).
  - reflexivity.
  - intros [subtype H]. discriminate H.
Defined.
